(** * sunxi-boot0: the eGON boot0 header inspector of sunxi-fw

    A shallow embedding of [sunxi-boot0.c]: the header checks of
    [output_boot0_info], the streaming checksum of [egon_checksum_verify],
    and the four DRAM parameter validators with the order in which
    [output_boot0_info] tries them.

    Conventions.
    - A [uint32_t] is a [Z] in [[0, 2^32)]; arithmetic that can leave that
      range is wrapped with [u32].
    - Memory is a [list byte]; a [uint32_t] load is little-endian, as on the
      hosts the tool is built for.
    - The function arguments [FILE *stream] (text sink) and [FILE *inf]
      (image being read) live in a [world] that every effectful function
      threads through; each [fprintf] call appends one [msg], each
      [fread]/[pseek] call appends one [io_call]. *)

From Stdlib Require Import ZArith List String Ascii Bool Lia.
From Stdlib Require Import DecimalString DecimalZ DecimalPos.
From Stdlib Require Import HexadecimalString HexadecimalN.
From coqutil Require Import Byte Word.LittleEndianList.
Import ListNotations.
Local Open Scope Z_scope.

(** ** C integers *)

Module CInt.

(** Conversion to [uint32_t]. *)
Definition u32 (z : Z) : Z := z mod 2 ^ 32.

(** Conversion of a [uint32_t] to [int] (two's complement). *)
Definition to_int (z : Z) : Z := if z <? 2 ^ 31 then z else z - 2 ^ 32.

End CInt.
Import CInt.

(** ** Memory: bytes and little-endian loads *)

Definition load_bytes (m : list byte) (off n : nat) : list byte :=
  firstn n (skipn off m).

(** [*(uint32_t * )(m + off)] *)
Definition load32 (m : list byte) (off : nat) : Z :=
  le_combine (load_bytes m off 4).

(** [((uint32_t * ) m)[i]] *)
Definition word_at (m : list byte) (i : nat) : Z := load32 m (4 * i).

(** [memcmp(s1, s2, n)]: 0 when the first [n] bytes agree, otherwise the
    difference of the first pair of bytes that differ, compared as
    [unsigned char].  C fixes the sign of the result only, and the sign is
    all the caller reads. *)
Fixpoint memcmp (s1 s2 : list byte) (n : nat) : Z :=
  match n with
  | O => 0
  | S n' =>
      let c1 := byte.unsigned (hd Byte.x00 s1) in
      let c2 := byte.unsigned (hd Byte.x00 s2) in
      if c1 =? c2 then memcmp (tl s1) (tl s2) n' else c1 - c2
  end.

(** ** Constants and [struct egon_header] *)

Definition SECTOR_SIZE : Z := 512.
Definition EGON_MAGIC_0 : list byte := list_byte_of_string "eGON.BT0".
Definition EGON_MAGIC_1 : list byte := list_byte_of_string "eGON.BT1".
Definition EGON_CHECKSUM_SEED : Z := 0x5f0a6c39.
Definition EGON_FILESIZE_ALIGN : Z := 4096.
Definition EGON_DRAM_PARAM_COUNT : nat := 32.

(** [BUFFER_COUNT = SECTOR_SIZE / sizeof(uint32_t)] *)
Definition BUFFER_COUNT : Z := SECTOR_SIZE / 4.

Record egon_header : Type := {
  jump : Z;
  magic : list byte;
  checksum : Z;
  filesize : Z;
  header_size : Z;
  header_version : list byte;
  return_address : Z;
  run_address : Z;
  eGON_version : list byte;
  platform_info : list byte
}.

(** [sizeof(struct egon_header)] *)
Definition sizeof_egon_header : Z := 48.

(** [offsetof(struct egon_header, checksum) / sizeof(uint32_t)] *)
Definition checksum_offset : Z := 12 / 4.

(** The view [struct egon_header *header = sector]. *)
Definition egon_header_at (m : list byte) : egon_header :=
  {| jump := load32 m 0;
     magic := load_bytes m 4 8;
     checksum := load32 m 12;
     filesize := load32 m 16;
     header_size := load32 m 20;
     header_version := load_bytes m 24 4;
     return_address := load32 m 28;
     run_address := load32 m 32;
     eGON_version := load_bytes m 36 4;
     platform_info := load_bytes m 40 8 |}.

(** ** The DRAM parameter layouts

    [void *raw] points at [EGON_DRAM_PARAM_COUNT] words; a field of a layout
    is the word at its index in the struct. *)

Definition dram_raw : Type := list Z.

Definition raw_field (raw : dram_raw) (i : nat) : Z := nth i raw 0.

Inductive dram_variant : Type :=
| A10
| H6
| A31
| H616
| Unknown_raw.

(** ** Output and input *)

(** One constructor per [fprintf] call of [output_boot0_info],
    [egon_checksum_verify] and the validators, with the arguments the call
    passes; one for each print function, with the array it prints. *)
Inductive msg : Type :=
| Wrong_magic (m : list byte)
| Header_size_mismatch (hs : Z)
| Filesize_not_multiple (fs : Z)
| Filesize_empty (fs : Z)
| Found_header
| Filesize_kB (kb : Z)
| Fread_failed (cause : string) (ret : Z)
| Checksum_mismatch (computed declared : Z)
| Checksum_matches
| Looking_for_dram
| Wrong_field (message field : string) (value : Z)
| Seem_valid (matches : string)
| Dram_print (v : dram_variant) (raw : dram_raw).

Inductive io_call : Type :=
| Fread (size nmemb : Z)
| Pseek (offset : Z).

(** The input stream: the bytes it still delivers from the current
    position (to the end of the file, or to where reading fails), and what
    [strerror(errno)] says after a short read. *)
Record FILE : Type := {
  content : list byte;
  strerror_errno : string
}.

Record world : Type := {
  inf : FILE;
  calls : list io_call;
  out : list msg
}.

Definition M (A : Type) : Type := world -> A * world.

Definition ret {A : Type} (a : A) : M A := fun w => (a, w).

Definition bind {A B : Type} (c : M A) (k : A -> M B) : M B :=
  fun w => let (a, w') := c w in k a w'.

Notation "x <- c ;; k" := (bind c (fun x => k))
  (at level 61, c at next level, right associativity).
Notation "c ;; k" := (bind c (fun _ => k))
  (at level 61, right associativity).

Definition fprintf (m : msg) : M unit :=
  fun w => (tt, {| inf := inf w; calls := calls w; out := out w ++ [m] |}).

(** [fread(buffer, sizeof(uint32_t), nmemb, inf)]: delivers the complete
    items among the next [4 * nmemb] bytes; the return value of the C call
    is the number of items delivered. *)
Definition fread (nmemb : Z) : M (list Z) :=
  fun w =>
    let bytes := firstn (Z.to_nat (4 * nmemb)) (content (inf w)) in
    let n := (List.length bytes / 4)%nat in
    (map (word_at bytes) (seq 0 n),
     {| inf := {| content := skipn (Z.to_nat (4 * nmemb)) (content (inf w));
                  strerror_errno := strerror_errno (inf w) |};
        calls := calls w ++ [Fread 4 nmemb];
        out := out w |}).

Definition strerror : M string :=
  fun w => (strerror_errno (inf w), w).

(** ** [egon_checksum_verify] *)

(** The first loop: sector 0, already in memory, without the checksum
    field. *)
Definition checksum_sector0 (sector0 : list byte) : Z :=
  fold_left
    (fun checksum i =>
       if Z.of_nat i =? checksum_offset then checksum
       else u32 (checksum + word_at sector0 i))
    (seq 0 (Z.to_nat BUFFER_COUNT)) EGON_CHECKSUM_SEED.

(** The inner loop: [for (i = 0; i < BUFFER_COUNT; i++) checksum += buffer[i]]. *)
Definition checksum_buffer (buffer : list Z) (checksum : Z) : Z :=
  fold_left (fun checksum i => u32 (checksum + nth i buffer 0))
    (seq 0 (Z.to_nat BUFFER_COUNT)) checksum.

(** The second loop, [for (; offset < header->filesize; offset += SECTOR_SIZE)].
    It ends with [inl ret] at the [return ret] of a short read and with
    [inr checksum] when the loop condition fails; [None] is running out of
    [fuel], which [egon_checksum_verify] never does
    (see [checksum_stream_fuel]).  [offset] is an [off_t]: it never passes
    [filesize + 512], so it is not wrapped. *)
Fixpoint checksum_stream (fuel : nat) (header : egon_header)
    (offset checksum : Z) : M (option (Z + Z)) :=
  if offset <? filesize header then
    match fuel with
    | O => ret None
    | S fuel' =>
        buffer <- fread BUFFER_COUNT ;;
        let r := Z.of_nat (List.length buffer) in
        if negb (r =? BUFFER_COUNT) then
          cause <- strerror ;;
          fprintf (Fread_failed cause r) ;;
          ret (Some (inl r))
        else
          checksum_stream fuel' header (offset + SECTOR_SIZE)
            (checksum_buffer buffer checksum)
    end
  else ret (Some (inr checksum)).

Definition egon_checksum_verify (header : egon_header) (sector0 : list byte)
  : M (option Z) :=
  r <- checksum_stream (Z.to_nat (filesize header)) header SECTOR_SIZE
         (checksum_sector0 sector0) ;;
  match r with
  | None => ret None
  | Some (inl e) => ret (Some e)
  | Some (inr sum) =>
      (if negb (sum =? checksum header)
       then fprintf (Checksum_mismatch sum (checksum header))
       else fprintf Checksum_matches) ;;
      ret (Some 0)
  end.

(** ** The DRAM parameter structs and their validators *)

Definition DRAM_PARAM_A10_MATCHES : string := "A10/A10s/A13/A20".
Definition DRAM_PARAM_A31_MATCHES : string := "A31/A23/A33/A83T/A64/H3".
Definition DRAM_PARAM_H6_MATCHES : string := "H6".
Definition DRAM_PARAM_H616_MATCHES : string := "H616/H700/A523".

(** [struct dram_param_a10]: each field is the word at its index. *)
Module dram_param_a10.
Definition baseaddr (raw : dram_raw) : Z := raw_field raw 0.
Definition clk (raw : dram_raw) : Z := raw_field raw 1.
Definition type (raw : dram_raw) : Z := raw_field raw 2.
Definition rank_num (raw : dram_raw) : Z := raw_field raw 3.
Definition chip_density (raw : dram_raw) : Z := raw_field raw 4.
Definition io_width (raw : dram_raw) : Z := raw_field raw 5.
Definition bus_width (raw : dram_raw) : Z := raw_field raw 6.
Definition cas (raw : dram_raw) : Z := raw_field raw 7.
Definition zq (raw : dram_raw) : Z := raw_field raw 8.
Definition odt_en (raw : dram_raw) : Z := raw_field raw 9.
Definition size (raw : dram_raw) : Z := raw_field raw 10.
Definition tpr0 (raw : dram_raw) : Z := raw_field raw 11.
Definition tpr1 (raw : dram_raw) : Z := raw_field raw 12.
Definition tpr2 (raw : dram_raw) : Z := raw_field raw 13.
Definition tpr3 (raw : dram_raw) : Z := raw_field raw 14.
Definition tpr4 (raw : dram_raw) : Z := raw_field raw 15.
Definition tpr5 (raw : dram_raw) : Z := raw_field raw 16.
Definition emr1 (raw : dram_raw) : Z := raw_field raw 17.
Definition emr2 (raw : dram_raw) : Z := raw_field raw 18.
Definition emr3 (raw : dram_raw) : Z := raw_field raw 19.
End dram_param_a10.

(** [struct dram_param_a31]: each field is the word at its index. *)
Module dram_param_a31.
Definition clk (raw : dram_raw) : Z := raw_field raw 0.
Definition type (raw : dram_raw) : Z := raw_field raw 1.
Definition zq (raw : dram_raw) : Z := raw_field raw 2.
Definition odt_en (raw : dram_raw) : Z := raw_field raw 3.
Definition para1 (raw : dram_raw) : Z := raw_field raw 4.
Definition para2 (raw : dram_raw) : Z := raw_field raw 5.
Definition mr0 (raw : dram_raw) : Z := raw_field raw 6.
Definition mr1 (raw : dram_raw) : Z := raw_field raw 7.
Definition mr2 (raw : dram_raw) : Z := raw_field raw 8.
Definition mr3 (raw : dram_raw) : Z := raw_field raw 9.
Definition tpr0 (raw : dram_raw) : Z := raw_field raw 10.
Definition tpr1 (raw : dram_raw) : Z := raw_field raw 11.
Definition tpr2 (raw : dram_raw) : Z := raw_field raw 12.
Definition tpr3 (raw : dram_raw) : Z := raw_field raw 13.
Definition tpr4 (raw : dram_raw) : Z := raw_field raw 14.
Definition tpr5 (raw : dram_raw) : Z := raw_field raw 15.
Definition tpr6 (raw : dram_raw) : Z := raw_field raw 16.
Definition tpr7 (raw : dram_raw) : Z := raw_field raw 17.
Definition tpr8 (raw : dram_raw) : Z := raw_field raw 18.
Definition tpr9 (raw : dram_raw) : Z := raw_field raw 19.
Definition tpr10 (raw : dram_raw) : Z := raw_field raw 20.
Definition tpr11 (raw : dram_raw) : Z := raw_field raw 21.
Definition tpr12 (raw : dram_raw) : Z := raw_field raw 22.
Definition tpr13 (raw : dram_raw) : Z := raw_field raw 23.
Definition bits (raw : dram_raw) : Z := raw_field raw 24.
End dram_param_a31.

(** [struct dram_param_h6]: each field is the word at its index. *)
Module dram_param_h6.
Definition clk (raw : dram_raw) : Z := raw_field raw 0.
Definition type (raw : dram_raw) : Z := raw_field raw 1.
Definition zq (raw : dram_raw) : Z := raw_field raw 2.
Definition odt_en (raw : dram_raw) : Z := raw_field raw 3.
Definition para1 (raw : dram_raw) : Z := raw_field raw 4.
Definition para2 (raw : dram_raw) : Z := raw_field raw 5.
Definition mr0 (raw : dram_raw) : Z := raw_field raw 6.
Definition mr1 (raw : dram_raw) : Z := raw_field raw 7.
Definition mr2 (raw : dram_raw) : Z := raw_field raw 8.
Definition mr3 (raw : dram_raw) : Z := raw_field raw 9.
Definition mr4 (raw : dram_raw) : Z := raw_field raw 10.
Definition mr5 (raw : dram_raw) : Z := raw_field raw 11.
Definition mr6 (raw : dram_raw) : Z := raw_field raw 12.
Definition tpr0 (raw : dram_raw) : Z := raw_field raw 13.
Definition tpr1 (raw : dram_raw) : Z := raw_field raw 14.
Definition tpr2 (raw : dram_raw) : Z := raw_field raw 15.
Definition tpr3 (raw : dram_raw) : Z := raw_field raw 16.
Definition tpr4 (raw : dram_raw) : Z := raw_field raw 17.
Definition tpr5 (raw : dram_raw) : Z := raw_field raw 18.
Definition tpr6 (raw : dram_raw) : Z := raw_field raw 19.
Definition tpr7 (raw : dram_raw) : Z := raw_field raw 20.
Definition tpr8 (raw : dram_raw) : Z := raw_field raw 21.
Definition tpr9 (raw : dram_raw) : Z := raw_field raw 22.
Definition tpr10 (raw : dram_raw) : Z := raw_field raw 23.
Definition tpr11 (raw : dram_raw) : Z := raw_field raw 24.
Definition tpr12 (raw : dram_raw) : Z := raw_field raw 25.
Definition tpr13 (raw : dram_raw) : Z := raw_field raw 26.
Definition bits (raw : dram_raw) : Z := raw_field raw 27.
End dram_param_h6.

(** [struct dram_param_h616]: each field is the word at its index. *)
Module dram_param_h616.
Definition clk (raw : dram_raw) : Z := raw_field raw 0.
Definition type (raw : dram_raw) : Z := raw_field raw 1.
Definition dx_odt (raw : dram_raw) : Z := raw_field raw 2.
Definition dx_dri (raw : dram_raw) : Z := raw_field raw 3.
Definition ca_dri (raw : dram_raw) : Z := raw_field raw 4.
Definition para0 (raw : dram_raw) : Z := raw_field raw 5.
Definition para1 (raw : dram_raw) : Z := raw_field raw 6.
Definition para2 (raw : dram_raw) : Z := raw_field raw 7.
Definition mr0 (raw : dram_raw) : Z := raw_field raw 8.
Definition mr1 (raw : dram_raw) : Z := raw_field raw 9.
Definition mr2 (raw : dram_raw) : Z := raw_field raw 10.
Definition mr3 (raw : dram_raw) : Z := raw_field raw 11.
Definition mr4 (raw : dram_raw) : Z := raw_field raw 12.
Definition mr5 (raw : dram_raw) : Z := raw_field raw 13.
Definition mr6 (raw : dram_raw) : Z := raw_field raw 14.
Definition mr11 (raw : dram_raw) : Z := raw_field raw 15.
Definition mr12 (raw : dram_raw) : Z := raw_field raw 16.
Definition mr13 (raw : dram_raw) : Z := raw_field raw 17.
Definition mr14 (raw : dram_raw) : Z := raw_field raw 18.
Definition mr16 (raw : dram_raw) : Z := raw_field raw 19.
Definition mr17 (raw : dram_raw) : Z := raw_field raw 20.
Definition mr22 (raw : dram_raw) : Z := raw_field raw 21.
Definition tpr0 (raw : dram_raw) : Z := raw_field raw 22.
Definition tpr1 (raw : dram_raw) : Z := raw_field raw 23.
Definition tpr2 (raw : dram_raw) : Z := raw_field raw 24.
Definition tpr3 (raw : dram_raw) : Z := raw_field raw 25.
Definition tpr6 (raw : dram_raw) : Z := raw_field raw 26.
Definition tpr10 (raw : dram_raw) : Z := raw_field raw 27.
Definition tpr11 (raw : dram_raw) : Z := raw_field raw 28.
Definition tpr12 (raw : dram_raw) : Z := raw_field raw 29.
Definition tpr13 (raw : dram_raw) : Z := raw_field raw 30.
Definition tpr14 (raw : dram_raw) : Z := raw_field raw 31.
End dram_param_h616.

Definition invalid_structure_for (matches : string) : string :=
  ("Invalid structure for " ++ matches)%string.

Definition dram_param_a10_validate (raw : dram_raw) : M Z :=
  let message := invalid_structure_for DRAM_PARAM_A10_MATCHES in
  if negb (Z.land (dram_param_a10.baseaddr raw) 0x0FFFFFFF =? 0) then
    fprintf (Wrong_field message "baseaddr" (dram_param_a10.baseaddr raw)) ;;
    ret (-1)
  else if (dram_param_a10.clk raw <? 100) || (dram_param_a10.clk raw >? 1000) then
    fprintf (Wrong_field message "clk" (dram_param_a10.clk raw)) ;;
    ret (-1)
  else if negb (dram_param_a10.type raw =? 2)
          && negb (dram_param_a10.type raw =? 3) then
    fprintf (Wrong_field message "type" (dram_param_a10.type raw)) ;;
    ret (-1)
  else if negb (dram_param_a10.odt_en raw =? 0)
          && negb (dram_param_a10.odt_en raw =? 1) then
    fprintf (Wrong_field message "odt_en" (dram_param_a10.odt_en raw)) ;;
    ret (-1)
  else
    fprintf (Seem_valid DRAM_PARAM_A10_MATCHES) ;;
    ret 0.

Definition dram_param_a31_validate (raw : dram_raw) : M Z :=
  let message := invalid_structure_for DRAM_PARAM_A31_MATCHES in
  if (dram_param_a31.clk raw <? 100) || (dram_param_a31.clk raw >? 1000) then
    fprintf (Wrong_field message "clk" (dram_param_a31.clk raw)) ;;
    ret (-1)
  else if negb (dram_param_a31.type raw =? 2)
          && negb (dram_param_a31.type raw =? 3)
          && negb (dram_param_a31.type raw =? 6)
          && negb (dram_param_a31.type raw =? 7) then
    fprintf (Wrong_field message "type" (dram_param_a31.type raw)) ;;
    ret (-1)
  else if negb (dram_param_a31.odt_en raw =? 0)
          && negb (dram_param_a31.odt_en raw =? 1) then
    fprintf (Wrong_field message "odt_en" (dram_param_a31.odt_en raw)) ;;
    ret (-1)
  else
    fprintf (Seem_valid DRAM_PARAM_A31_MATCHES) ;;
    ret 0.

Definition dram_param_h6_validate (raw : dram_raw) : M Z :=
  let message := invalid_structure_for DRAM_PARAM_H6_MATCHES in
  if (dram_param_h6.clk raw <? 100) || (dram_param_h6.clk raw >? 1000) then
    fprintf (Wrong_field message "clk" (dram_param_h6.clk raw)) ;;
    ret (-1)
  else if negb (dram_param_h6.type raw =? 2)
          && negb (dram_param_h6.type raw =? 3)
          && negb (dram_param_h6.type raw =? 6)
          && negb (dram_param_h6.type raw =? 7) then
    fprintf (Wrong_field message "type" (dram_param_h6.type raw)) ;;
    ret (-1)
  else if negb (dram_param_h6.odt_en raw =? 0)
          && negb (dram_param_h6.odt_en raw =? 1) then
    fprintf (Wrong_field message "odt_en" (dram_param_h6.odt_en raw)) ;;
    ret (-1)
  else if negb (dram_param_h6.bits raw =? 16)
          && negb (dram_param_h6.bits raw =? 32) then
    fprintf (Wrong_field message "bits" (dram_param_h6.bits raw)) ;;
    ret (-1)
  else
    fprintf (Seem_valid DRAM_PARAM_H6_MATCHES) ;;
    ret 0.

Definition dram_param_h616_validate (raw : dram_raw) : M Z :=
  let message := invalid_structure_for DRAM_PARAM_H616_MATCHES in
  if (dram_param_h616.clk raw <? 100) || (dram_param_h616.clk raw >? 1200) then
    fprintf (Wrong_field message "clk" (dram_param_h616.clk raw)) ;;
    ret (-1)
  else if negb (dram_param_h616.type raw =? 2)
          && negb (dram_param_h616.type raw =? 3)
          && negb (dram_param_h616.type raw =? 4)
          && negb (dram_param_h616.type raw =? 6)
          && negb (dram_param_h616.type raw =? 7)
          && negb (dram_param_h616.type raw =? 8) then
    fprintf (Wrong_field message "type" (dram_param_h616.type raw)) ;;
    ret (-1)
  else if negb (Z.land (dram_param_h616.dx_odt raw) 0xF0F0F0F0 =? 0) then
    fprintf (Wrong_field message "dx_odt" (dram_param_h616.dx_odt raw)) ;;
    ret (-1)
  else if negb (Z.land (dram_param_h616.dx_dri raw) 0xF0F0F0F0 =? 0) then
    fprintf (Wrong_field message "dx_dri" (dram_param_h616.dx_dri raw)) ;;
    ret (-1)
  else
    fprintf (Seem_valid DRAM_PARAM_H616_MATCHES) ;;
    ret 0.

(** The print functions write every field of the struct they are named
    after ([dram_param_raw_print]: the 32 words); [render] gives the text. *)
Definition dram_param_a10_print (raw : dram_raw) : M unit :=
  fprintf (Dram_print A10 raw).

Definition dram_param_a31_print (raw : dram_raw) : M unit :=
  fprintf (Dram_print A31 raw).

Definition dram_param_h6_print (raw : dram_raw) : M unit :=
  fprintf (Dram_print H6 raw).

Definition dram_param_h616_print (raw : dram_raw) : M unit :=
  fprintf (Dram_print H616 raw).

Definition dram_param_raw_print (raw : dram_raw) : M unit :=
  fprintf (Dram_print Unknown_raw raw).

(** ** [output_boot0_info] *)

(** [secondary->dram_param] for [secondary = (void * ) header + header_size]:
    the array starts 8 bytes into [struct egon_header_secondary]. *)
Definition dram_param_at (sector : list byte) (header_size : Z) : dram_raw :=
  map (fun i => load32 sector (Z.to_nat (header_size + 8) + 4 * i))
    (seq 0 EGON_DRAM_PARAM_COUNT).

(** Lines 646-657: the chain of validators, each followed by its print
    function when it returns 0. *)
Definition dram_param_report (dram_param : dram_raw) : M unit :=
  fprintf Looking_for_dram ;;
  r <- dram_param_a10_validate dram_param ;;
  if r =? 0 then dram_param_a10_print dram_param else
  r <- dram_param_h6_validate dram_param ;;
  if r =? 0 then dram_param_h6_print dram_param else
  r <- dram_param_a31_validate dram_param ;;
  if r =? 0 then dram_param_a31_print dram_param else
  r <- dram_param_h616_validate dram_param ;;
  if r =? 0 then dram_param_h616_print dram_param else
  dram_param_raw_print dram_param.

Section Output_boot0_info.

(** [pseek] is declared in [sunxi-fw.h]; its code is not in this file.
    It is called on the stream with a byte count and returns 0 when the
    skip succeeded. *)
Variable pseek : FILE -> Z -> Z * FILE.

Definition pseek_call (offset : Z) : M Z :=
  fun w =>
    let (r, f) := pseek (inf w) offset in
    (r, {| inf := f; calls := calls w ++ [Pseek offset]; out := out w |}).

(** The result is [Some] of the C return value; [None] only if
    [egon_checksum_verify] ran out of fuel, which it never does
    (see [output_boot0_info_total]). *)
Definition output_boot0_info (sector : list byte) (verbose : bool)
  : M (option Z) :=
  let header := egon_header_at sector in
  let sectors_left :=
    to_int (u32 (filesize header / SECTOR_SIZE - 1)) in
  if memcmp (magic header) EGON_MAGIC_0 8 >? 0 then
    fprintf (Wrong_magic (magic header)) ;;
    ret (Some 0)
  else if negb (header_size header =? sizeof_egon_header) then
    fprintf (Header_size_mismatch (header_size header)) ;;
    ret (Some 0)
  else if negb (Z.land (filesize header) (EGON_FILESIZE_ALIGN - 1) =? 0) then
    fprintf (Filesize_not_multiple (filesize header)) ;;
    ret (Some 0)
  else if filesize header =? 0 then
    fprintf (Filesize_empty (filesize header)) ;;
    ret (Some 0)
  else if verbose then
    let dram_param := dram_param_at sector (header_size header) in
    fprintf Found_header ;;
    fprintf (Filesize_kB (Z.shiftr (filesize header) 10)) ;;
    r <- egon_checksum_verify header sector ;;
    match r with
    | None => ret None
    | Some r =>
        if negb (r =? 0) then ret (Some 0)
        else
          dram_param_report dram_param ;;
          ret (Some sectors_left)
    end
  else
    r <- pseek_call (u32 (filesize header - SECTOR_SIZE)) ;;
    if negb (r =? 0) then ret (Some 0)
    else ret (Some sectors_left).

End Output_boot0_info.

(** ** The text of the messages

    [render] is the text each [fprintf] call writes: the format string of
    the call with its conversions applied to the arguments. *)

Module Printf.

Local Open Scope string_scope.

Definition NL : string := String "010"%char EmptyString.
Definition TAB : string := String "009"%char EmptyString.

(** [%d] given an [int]. *)
Definition fmt_int (z : Z) : string :=
  DecimalString.NilZero.string_of_int (Z.to_int z).

(** [%d] given a [uint32_t]: the same bits read as an [int]. *)
Definition fmt_d (z : Z) : string := fmt_int (to_int z).

Definition upcase (c : ascii) : ascii :=
  if (("a" <=? c) && (c <=? "f"))%char
  then ascii_of_nat (nat_of_ascii c - 32)
  else c.

Fixpoint map_string (f : ascii -> ascii) (s : string) : string :=
  match s with
  | EmptyString => EmptyString
  | String c s' => String (f c) (map_string f s')
  end.

Fixpoint zeros (n : nat) : string :=
  match n with
  | O => EmptyString
  | S n' => String "0" (zeros n')
  end.

(** [%x] and [%X] ([upper]) with a minimum field width padded with
    zeros: [%08X] is [fmt_x true 8]. *)
Definition fmt_x (upper : bool) (width : nat) (z : Z) : string :=
  let digits := HexadecimalString.NilZero.string_of_uint
                  (N.to_hex_uint (Z.to_N z)) in
  let digits := if upper then map_string upcase digits else digits in
  zeros (width - String.length digits) ++ digits.

(** [%02d] given a small non-negative [int]. *)
Definition fmt_02d (z : Z) : string :=
  let digits := fmt_int z in
  zeros (2 - String.length digits) ++ digits.

(** [%c] for each of [m[0]] .. [m[n-1]]. *)
Definition fmt_chars (m : list byte) (n : nat) : string :=
  string_of_list_byte (map (fun i => nth i m Byte.x00) (seq 0 n)).

Definition dram_param_a10_text (raw : dram_raw) : string :=
  String.concat EmptyString
    [ NL ++ "; " ++ DRAM_PARAM_A10_MATCHES ++ NL;
      "[dram para]" ++ NL ++ NL;
      "dram_baseaddr" ++ TAB ++ "   = 0x"
      ++ fmt_x false 0 (dram_param_a10.baseaddr raw) ++ NL;
      "dram_clk" ++ TAB ++ "   = " ++ fmt_d (dram_param_a10.clk raw) ++ NL;
      "dram_type" ++ TAB ++ "   = " ++ fmt_d (dram_param_a10.type raw) ++ NL;
      "dram_rank_num" ++ TAB ++ "   = 0x"
      ++ fmt_x false 0 (dram_param_a10.rank_num raw) ++ NL;
      "dram_chip_density  = 0x"
      ++ fmt_x false 0 (dram_param_a10.chip_density raw) ++ NL;
      "dram_io_width" ++ TAB ++ "   = 0x"
      ++ fmt_x false 0 (dram_param_a10.io_width raw) ++ NL;
      "dram_bus_width" ++ TAB ++ "   = 0x"
      ++ fmt_x false 0 (dram_param_a10.bus_width raw) ++ NL;
      "dram_cas" ++ TAB ++ "   = 0x"
      ++ fmt_x false 0 (dram_param_a10.cas raw) ++ NL;
      "dram_zq" ++ TAB ++ TAB ++ "   = 0x"
      ++ fmt_x false 0 (dram_param_a10.zq raw) ++ NL;
      "dram_odt_en" ++ TAB ++ "   = "
      ++ fmt_d (dram_param_a10.odt_en raw) ++ NL;
      "dram_size" ++ TAB ++ "   = 0x"
      ++ fmt_x false 0 (dram_param_a10.size raw) ++ NL;
      "dram_tpr0" ++ TAB ++ "   = 0x"
      ++ fmt_x false 0 (dram_param_a10.tpr0 raw) ++ NL;
      "dram_tpr1" ++ TAB ++ "   = 0x"
      ++ fmt_x false 0 (dram_param_a10.tpr1 raw) ++ NL;
      "dram_tpr2" ++ TAB ++ "   = 0x"
      ++ fmt_x false 0 (dram_param_a10.tpr2 raw) ++ NL;
      "dram_tpr3" ++ TAB ++ "   = 0x"
      ++ fmt_x false 0 (dram_param_a10.tpr3 raw) ++ NL;
      "dram_tpr4" ++ TAB ++ "   = 0x"
      ++ fmt_x false 0 (dram_param_a10.tpr4 raw) ++ NL;
      "dram_tpr5" ++ TAB ++ "   = 0x"
      ++ fmt_x false 0 (dram_param_a10.tpr5 raw) ++ NL;
      "dram_emr1" ++ TAB ++ "   = 0x"
      ++ fmt_x false 0 (dram_param_a10.emr1 raw) ++ NL;
      "dram_emr2" ++ TAB ++ "   = 0x"
      ++ fmt_x false 0 (dram_param_a10.emr2 raw) ++ NL;
      "dram_emr3" ++ TAB ++ "   = 0x"
      ++ fmt_x false 0 (dram_param_a10.emr3 raw) ++ NL;
      NL ].

Definition dram_param_a31_text (raw : dram_raw) : string :=
  String.concat EmptyString
    [ NL ++ "; For " ++ DRAM_PARAM_A31_MATCHES ++ NL;
      "[dram para]" ++ NL ++ NL;
      "dram_clk" ++ TAB ++ "= " ++ fmt_d (dram_param_a31.clk raw) ++ NL;
      "dram_type" ++ TAB ++ "= " ++ fmt_d (dram_param_a31.type raw) ++ NL;
      "dram_zq" ++ TAB ++ TAB ++ "= 0x"
      ++ fmt_x false 0 (dram_param_a31.zq raw) ++ NL;
      "dram_odt_en" ++ TAB ++ "= "
      ++ fmt_d (dram_param_a31.odt_en raw) ++ NL;
      "dram_para1" ++ TAB ++ "= 0x"
      ++ fmt_x false 0 (dram_param_a31.para1 raw) ++ NL;
      "dram_para2" ++ TAB ++ "= 0x"
      ++ fmt_x false 0 (dram_param_a31.para2 raw) ++ NL;
      "dram_mr0" ++ TAB ++ "= 0x"
      ++ fmt_x false 0 (dram_param_a31.mr0 raw) ++ NL;
      "dram_mr1" ++ TAB ++ "= 0x"
      ++ fmt_x false 0 (dram_param_a31.mr1 raw) ++ NL;
      "dram_mr2" ++ TAB ++ "= 0x"
      ++ fmt_x false 0 (dram_param_a31.mr2 raw) ++ NL;
      "dram_mr3" ++ TAB ++ "= 0x"
      ++ fmt_x false 0 (dram_param_a31.mr3 raw) ++ NL;
      "dram_tpr0" ++ TAB ++ "= 0x"
      ++ fmt_x false 8 (dram_param_a31.tpr0 raw) ++ NL;
      "dram_tpr1" ++ TAB ++ "= 0x"
      ++ fmt_x false 8 (dram_param_a31.tpr1 raw) ++ NL;
      "dram_tpr2" ++ TAB ++ "= 0x"
      ++ fmt_x false 8 (dram_param_a31.tpr2 raw) ++ NL;
      "dram_tpr3" ++ TAB ++ "= 0x"
      ++ fmt_x false 8 (dram_param_a31.tpr3 raw) ++ NL;
      "dram_tpr4" ++ TAB ++ "= 0x"
      ++ fmt_x false 0 (dram_param_a31.tpr4 raw) ++ NL;
      "dram_tpr5" ++ TAB ++ "= 0x"
      ++ fmt_x false 0 (dram_param_a31.tpr5 raw) ++ NL;
      "dram_tpr6" ++ TAB ++ "= 0x"
      ++ fmt_x false 0 (dram_param_a31.tpr6 raw) ++ NL;
      "dram_tpr7" ++ TAB ++ "= 0x"
      ++ fmt_x false 0 (dram_param_a31.tpr7 raw) ++ NL;
      "dram_tpr8" ++ TAB ++ "= 0x"
      ++ fmt_x false 0 (dram_param_a31.tpr8 raw) ++ NL;
      "dram_tpr9" ++ TAB ++ "= 0x"
      ++ fmt_x false 0 (dram_param_a31.tpr9 raw) ++ NL;
      "dram_tpr10" ++ TAB ++ "= 0x"
      ++ fmt_x false 0 (dram_param_a31.tpr10 raw) ++ NL;
      "dram_tpr11" ++ TAB ++ "= 0x"
      ++ fmt_x false 8 (dram_param_a31.tpr11 raw) ++ NL;
      "dram_tpr12" ++ TAB ++ "= 0x"
      ++ fmt_x false 8 (dram_param_a31.tpr12 raw) ++ NL;
      "dram_tpr13" ++ TAB ++ "= 0x"
      ++ fmt_x false 8 (dram_param_a31.tpr13 raw) ++ NL;
      NL ].

Definition dram_param_h6_text (raw : dram_raw) : string :=
  String.concat EmptyString
    [ NL ++ "; For " ++ DRAM_PARAM_H6_MATCHES ++ NL;
      "[dram para]" ++ NL ++ NL;
      "dram_clk" ++ TAB ++ "= " ++ fmt_d (dram_param_h6.clk raw) ++ NL;
      "dram_type" ++ TAB ++ "= " ++ fmt_d (dram_param_h6.type raw) ++ NL;
      "dram_zq" ++ TAB ++ TAB ++ "= 0x"
      ++ fmt_x false 0 (dram_param_h6.zq raw) ++ NL;
      "dram_odt_en" ++ TAB ++ "= " ++ fmt_d (dram_param_h6.odt_en raw) ++ NL;
      "dram_para1" ++ TAB ++ "= 0x"
      ++ fmt_x false 0 (dram_param_h6.para1 raw) ++ NL;
      "dram_para2" ++ TAB ++ "= 0x"
      ++ fmt_x false 0 (dram_param_h6.para2 raw) ++ NL;
      "dram_mr0" ++ TAB ++ "= 0x"
      ++ fmt_x false 0 (dram_param_h6.mr0 raw) ++ NL;
      "dram_mr1" ++ TAB ++ "= 0x"
      ++ fmt_x false 0 (dram_param_h6.mr1 raw) ++ NL;
      "dram_mr2" ++ TAB ++ "= 0x"
      ++ fmt_x false 0 (dram_param_h6.mr2 raw) ++ NL;
      "dram_mr3" ++ TAB ++ "= 0x"
      ++ fmt_x false 0 (dram_param_h6.mr3 raw) ++ NL;
      "dram_mr4" ++ TAB ++ "= 0x"
      ++ fmt_x false 0 (dram_param_h6.mr4 raw) ++ NL;
      "dram_mr5" ++ TAB ++ "= 0x"
      ++ fmt_x false 0 (dram_param_h6.mr5 raw) ++ NL;
      "dram_mr6" ++ TAB ++ "= 0x"
      ++ fmt_x false 0 (dram_param_h6.mr6 raw) ++ NL;
      "dram_tpr0" ++ TAB ++ "= 0x"
      ++ fmt_x false 8 (dram_param_h6.tpr0 raw) ++ NL;
      "dram_tpr1" ++ TAB ++ "= 0x"
      ++ fmt_x false 8 (dram_param_h6.tpr1 raw) ++ NL;
      "dram_tpr2" ++ TAB ++ "= 0x"
      ++ fmt_x false 8 (dram_param_h6.tpr2 raw) ++ NL;
      "dram_tpr3" ++ TAB ++ "= 0x"
      ++ fmt_x false 8 (dram_param_h6.tpr3 raw) ++ NL;
      "dram_tpr4" ++ TAB ++ "= 0x"
      ++ fmt_x false 0 (dram_param_h6.tpr4 raw) ++ NL;
      "dram_tpr5" ++ TAB ++ "= 0x"
      ++ fmt_x false 0 (dram_param_h6.tpr5 raw) ++ NL;
      "dram_tpr6" ++ TAB ++ "= 0x"
      ++ fmt_x false 0 (dram_param_h6.tpr6 raw) ++ NL;
      "dram_tpr7" ++ TAB ++ "= 0x"
      ++ fmt_x false 0 (dram_param_h6.tpr7 raw) ++ NL;
      "dram_tpr8" ++ TAB ++ "= 0x"
      ++ fmt_x false 0 (dram_param_h6.tpr8 raw) ++ NL;
      "dram_tpr9" ++ TAB ++ "= 0x"
      ++ fmt_x false 0 (dram_param_h6.tpr9 raw) ++ NL;
      "dram_tpr10" ++ TAB ++ "= 0x"
      ++ fmt_x false 0 (dram_param_h6.tpr10 raw) ++ NL;
      "dram_tpr11" ++ TAB ++ "= 0x"
      ++ fmt_x false 8 (dram_param_h6.tpr11 raw) ++ NL;
      "dram_tpr12" ++ TAB ++ "= 0x"
      ++ fmt_x false 8 (dram_param_h6.tpr12 raw) ++ NL;
      "dram_tpr13" ++ TAB ++ "= 0x"
      ++ fmt_x false 8 (dram_param_h6.tpr13 raw) ++ NL;
      "dram_bits" ++ TAB ++ "= " ++ fmt_d (dram_param_h6.bits raw) ++ NL;
      NL ].

Definition dram_param_h616_text (raw : dram_raw) : string :=
  String.concat EmptyString
    [ NL ++ "; For " ++ DRAM_PARAM_H616_MATCHES ++ NL;
      "[dram para]" ++ NL ++ NL;
      "dram_clk" ++ TAB ++ "   = "
      ++ fmt_d (dram_param_h616.clk raw) ++ "," ++ NL;
      "dram_type" ++ TAB ++ "   = "
      ++ fmt_d (dram_param_h616.type raw) ++ "," ++ NL;
      "dram_dx_odt" ++ TAB ++ "   = 0x"
      ++ fmt_x true 8 (dram_param_h616.dx_odt raw) ++ "," ++ NL;
      "dram_dx_dri" ++ TAB ++ "   = 0x"
      ++ fmt_x true 8 (dram_param_h616.dx_dri raw) ++ "," ++ NL;
      "dram_ca_dri" ++ TAB ++ "   = 0x"
      ++ fmt_x true 8 (dram_param_h616.ca_dri raw) ++ "," ++ NL;
      "dram_para0" ++ TAB ++ "   = 0x"
      ++ fmt_x true 8 (dram_param_h616.para0 raw)
      ++ ", ; aka odt_en on H616/H700" ++ NL;
      "dram_para1" ++ TAB ++ "   = 0x"
      ++ fmt_x true 8 (dram_param_h616.para1 raw) ++ "," ++ NL;
      "dram_para2" ++ TAB ++ "   = 0x"
      ++ fmt_x true 8 (dram_param_h616.para2 raw) ++ "," ++ NL;
      "dram_mr0" ++ TAB ++ "   = 0x"
      ++ fmt_x true 0 (dram_param_h616.mr0 raw) ++ "," ++ NL;
      "dram_mr1" ++ TAB ++ "   = 0x"
      ++ fmt_x true 0 (dram_param_h616.mr1 raw) ++ "," ++ NL;
      "dram_mr2" ++ TAB ++ "   = 0x"
      ++ fmt_x true 0 (dram_param_h616.mr2 raw) ++ "," ++ NL;
      "dram_mr3" ++ TAB ++ "   = 0x"
      ++ fmt_x true 0 (dram_param_h616.mr3 raw) ++ "," ++ NL;
      "dram_mr4" ++ TAB ++ "   = 0x"
      ++ fmt_x true 0 (dram_param_h616.mr4 raw) ++ "," ++ NL;
      "dram_mr5" ++ TAB ++ "   = 0x"
      ++ fmt_x true 0 (dram_param_h616.mr5 raw) ++ "," ++ NL;
      "dram_mr6" ++ TAB ++ "   = 0x"
      ++ fmt_x true 0 (dram_param_h616.mr6 raw) ++ "," ++ NL;
      "dram_mr11" ++ TAB ++ "   = 0x"
      ++ fmt_x true 0 (dram_param_h616.mr11 raw) ++ "," ++ NL;
      "dram_mr12" ++ TAB ++ "   = 0x"
      ++ fmt_x true 0 (dram_param_h616.mr12 raw) ++ "," ++ NL;
      "dram_mr13" ++ TAB ++ "   = 0x"
      ++ fmt_x true 0 (dram_param_h616.mr13 raw) ++ "," ++ NL;
      "dram_mr14" ++ TAB ++ "   = 0x"
      ++ fmt_x true 0 (dram_param_h616.mr14 raw) ++ "," ++ NL;
      "dram_mr16" ++ TAB ++ "   = 0x"
      ++ fmt_x true 0 (dram_param_h616.mr16 raw) ++ "," ++ NL;
      "dram_mr17" ++ TAB ++ "   = 0x"
      ++ fmt_x true 0 (dram_param_h616.mr17 raw) ++ "," ++ NL;
      "dram_mr22" ++ TAB ++ "   = 0x"
      ++ fmt_x true 0 (dram_param_h616.mr22 raw) ++ "," ++ NL;
      "dram_tpr0" ++ TAB ++ "   = 0x"
      ++ fmt_x true 8 (dram_param_h616.tpr0 raw) ++ "," ++ NL;
      "dram_tpr1" ++ TAB ++ "   = 0x"
      ++ fmt_x true 0 (dram_param_h616.tpr1 raw) ++ "," ++ NL;
      "dram_tpr2" ++ TAB ++ "   = 0x"
      ++ fmt_x true 0 (dram_param_h616.tpr2 raw) ++ "," ++ NL;
      "dram_tpr3" ++ TAB ++ "   = 0x"
      ++ fmt_x true 0 (dram_param_h616.tpr3 raw) ++ "," ++ NL;
      "dram_tpr6" ++ TAB ++ "   = 0x"
      ++ fmt_x true 8 (dram_param_h616.tpr6 raw) ++ "," ++ NL;
      "dram_tpr10" ++ TAB ++ "   = 0x"
      ++ fmt_x true 8 (dram_param_h616.tpr10 raw) ++ "," ++ NL;
      "dram_tpr11" ++ TAB ++ "   = 0x"
      ++ fmt_x true 8 (dram_param_h616.tpr11 raw) ++ "," ++ NL;
      "dram_tpr12" ++ TAB ++ "   = 0x"
      ++ fmt_x true 8 (dram_param_h616.tpr12 raw) ++ "," ++ NL;
      "dram_tpr13" ++ TAB ++ "   = 0x"
      ++ fmt_x true 0 (dram_param_h616.tpr13 raw) ++ "," ++ NL;
      "dram_tpr14" ++ TAB ++ "   = 0x"
      ++ fmt_x true 0 (dram_param_h616.tpr14 raw)
      ++ ", ; unused and 0 on anything but A523" ++ NL;
      NL ].

Definition dram_param_raw_text (raw : dram_raw) : string :=
  String.concat EmptyString
    (("; Unknown structure" ++ NL)
     :: map (fun i => "dram_" ++ fmt_02d (Z.of_nat i) ++ TAB ++ "= 0x"
                      ++ fmt_x true 8 (nth i raw 0%Z) ++ NL)
          (seq 0 EGON_DRAM_PARAM_COUNT)).

Definition render (m : msg) : string :=
  match m with
  | Wrong_magic m =>
      TAB ++ "ERROR: wrong header magic: " ++ fmt_chars m 8 ++ NL
  | Header_size_mismatch hs =>
      TAB ++ "ERROR: egon header size mismatch: " ++ fmt_d hs ++ NL
  | Filesize_not_multiple fs =>
      TAB ++ "ERROR: boot0 file size not a multiple of "
      ++ fmt_int EGON_FILESIZE_ALIGN ++ ": " ++ fmt_d fs
      ++ " bytes (0x" ++ fmt_x true 4 fs ++ ")." ++ NL
  | Filesize_empty fs =>
      TAB ++ "ERROR: boot0 file is supposedly empty: 0x"
      ++ fmt_x true 4 fs ++ "." ++ NL
  | Found_header => "Found eGON header." ++ NL
  | Filesize_kB kb => "Boot0 Filesize is " ++ fmt_d kb ++ "kB." ++ NL
  | Fread_failed cause r =>
      "Error: egon_checksum_verify(): fread failed: " ++ cause
      ++ " (" ++ fmt_int r ++ ")" ++ NL
  | Checksum_mismatch computed declared =>
      "eGON checksum mismatch: 0x" ++ fmt_x true 8 computed
      ++ " vs 0x" ++ fmt_x true 8 declared ++ NL
  | Checksum_matches => "eGON checksum matches." ++ NL
  | Looking_for_dram =>
      NL ++ "Looking for a valid dram parameter structure..." ++ NL
  | Wrong_field message field value =>
      message ++ ": wrong " ++ field ++ ": 0x" ++ fmt_x true 8 value ++ NL
  | Seem_valid matches => "Parameters seem valid for " ++ matches ++ "." ++ NL
  | Dram_print A10 raw => dram_param_a10_text raw
  | Dram_print A31 raw => dram_param_a31_text raw
  | Dram_print H6 raw => dram_param_h6_text raw
  | Dram_print H616 raw => dram_param_h616_text raw
  | Dram_print Unknown_raw raw => dram_param_raw_text raw
  end.

(** Everything written to [stream]. *)
Definition render_all (ms : list msg) : string :=
  String.concat EmptyString (map render ms).

End Printf.

(** ** What the specification says

    These definitions follow the words of the specification, not the
    code; the theorems below compare the two. *)

Module Spec.

Definition sum_words (ws : list Z) : Z := fold_right Z.add 0 ws.

(** The 128 words of sector 0 without the one at the checksum field's
    own word index. *)
Definition sector0_words (sector0 : list byte) : list Z :=
  map (word_at sector0) (filter (fun i => negb (i =? 3)%nat) (seq 0 128)).

(** The sectors after sector 0 that start before [filesize]: sector [k]
    starts at byte [512 * k]. *)
Definition later_sectors (filesize : Z) : list nat :=
  seq 1 (Z.to_nat ((filesize - 1) / 512)).

(** The 128 words of sector [k >= 1] of the image, [rest] being the
    bytes of the file that follow sector 0. *)
Definition sector_words (rest : list byte) (k : nat) : list Z :=
  map (fun i => word_at rest (128 * (k - 1) + i)) (seq 0 128).

Definition reference_checksum (sector0 rest : list byte) (filesize : Z) : Z :=
  (0x5f0a6c39
   + sum_words (sector0_words sector0)
   + sum_words (flat_map (sector_words rest) (later_sectors filesize)))
  mod 2 ^ 32.

(** The table of plausibility predicates, a row per variant. *)
Definition a10_plausible (raw : dram_raw) : Prop :=
  dram_param_a10.baseaddr raw mod 2 ^ 28 = 0
  /\ 100 <= dram_param_a10.clk raw <= 1000
  /\ (dram_param_a10.type raw = 2 \/ dram_param_a10.type raw = 3)
  /\ (dram_param_a10.odt_en raw = 0 \/ dram_param_a10.odt_en raw = 1).

Definition h6_plausible (raw : dram_raw) : Prop :=
  100 <= dram_param_h6.clk raw <= 1000
  /\ In (dram_param_h6.type raw) [2; 3; 6; 7]
  /\ In (dram_param_h6.odt_en raw) [0; 1]
  /\ In (dram_param_h6.bits raw) [16; 32].

Definition a31_plausible (raw : dram_raw) : Prop :=
  100 <= dram_param_a31.clk raw <= 1000
  /\ In (dram_param_a31.type raw) [2; 3; 6; 7]
  /\ In (dram_param_a31.odt_en raw) [0; 1].

Definition h616_plausible (raw : dram_raw) : Prop :=
  100 <= dram_param_h616.clk raw <= 1200
  /\ In (dram_param_h616.type raw) [2; 3; 4; 6; 7; 8]
  /\ Z.land (dram_param_h616.dx_odt raw) 0xF0F0F0F0 = 0
  /\ Z.land (dram_param_h616.dx_dri raw) 0xF0F0F0F0 = 0.

Definition plausible (v : dram_variant) (raw : dram_raw) : Prop :=
  match v with
  | A10 => a10_plausible raw
  | H6 => h6_plausible raw
  | A31 => a31_plausible raw
  | H616 => h616_plausible raw
  | Unknown_raw => True
  end.

(** The same table as a test. *)
Definition plausibleb (v : dram_variant) (raw : dram_raw) : bool :=
  match v with
  | A10 =>
      (dram_param_a10.baseaddr raw mod 2 ^ 28 =? 0)
      && (100 <=? dram_param_a10.clk raw) && (dram_param_a10.clk raw <=? 1000)
      && existsb (Z.eqb (dram_param_a10.type raw)) [2; 3]
      && existsb (Z.eqb (dram_param_a10.odt_en raw)) [0; 1]
  | H6 =>
      (100 <=? dram_param_h6.clk raw) && (dram_param_h6.clk raw <=? 1000)
      && existsb (Z.eqb (dram_param_h6.type raw)) [2; 3; 6; 7]
      && existsb (Z.eqb (dram_param_h6.odt_en raw)) [0; 1]
      && existsb (Z.eqb (dram_param_h6.bits raw)) [16; 32]
  | A31 =>
      (100 <=? dram_param_a31.clk raw) && (dram_param_a31.clk raw <=? 1000)
      && existsb (Z.eqb (dram_param_a31.type raw)) [2; 3; 6; 7]
      && existsb (Z.eqb (dram_param_a31.odt_en raw)) [0; 1]
  | H616 =>
      (100 <=? dram_param_h616.clk raw) && (dram_param_h616.clk raw <=? 1200)
      && existsb (Z.eqb (dram_param_h616.type raw)) [2; 3; 4; 6; 7; 8]
      && (Z.land (dram_param_h616.dx_odt raw) 0xF0F0F0F0 =? 0)
      && (Z.land (dram_param_h616.dx_dri raw) 0xF0F0F0F0 =? 0)
  | Unknown_raw => true
  end.

(** Try the candidates in the order given; the first that is plausible
    is accepted, Unknown-raw when none is. *)
Fixpoint first_plausible (order : list dram_variant) (raw : dram_raw)
  : dram_variant :=
  match order with
  | [] => Unknown_raw
  | v :: order' => if plausibleb v raw then v else first_plausible order' raw
  end.

(** The fixed priority order of the specification. *)
Definition identify (raw : dram_raw) : dram_variant :=
  first_plausible [H6; A31; A10; H616] raw.

(** A PrimaryHeader the boot0 inspector is meant for: the boot0 magic,
    the known header size, a positive file size that is a multiple of
    4096. *)
Definition valid_boot0_header (h : egon_header) : Prop :=
  magic h = EGON_MAGIC_0
  /\ header_size h = 48
  /\ 0 < filesize h
  /\ filesize h mod 4096 = 0.

End Spec.

(** ** Observations on a run *)

(** The header gets through the four checks of [output_boot0_info]: a
    magic that does not compare greater than "eGON.BT0", the known header
    size, a file size that is a multiple of 4096 and not 0. *)
Definition passes_header_checks (h : egon_header) : Prop :=
  memcmp (magic h) EGON_MAGIC_0 8 <= 0
  /\ header_size h = sizeof_egon_header
  /\ 0 < filesize h
  /\ filesize h mod EGON_FILESIZE_ALIGN = 0.

(** The print functions that ran, in order. *)
Definition printed (ms : list msg) : list dram_variant :=
  flat_map (fun m => match m with Dram_print v _ => [v] | _ => [] end) ms.

(** The messages of the validators. *)
Definition validator_msg (m : msg) : bool :=
  match m with
  | Wrong_field _ _ _ | Seem_valid _ => true
  | _ => false
  end.

(** One message was added to the output, nothing else changed. *)
Definition emits (w w' : world) (m : msg) : Prop :=
  w' = {| inf := inf w; calls := calls w; out := out w ++ [m] |}.

(** The forward seeks among the calls on the input stream. *)
Definition seeks (cs : list io_call) : list Z :=
  flat_map (fun c => match c with Pseek n => [n] | Fread _ _ => [] end) cs.

(** A world at the start of a call: [rest] follows sector 0 in the file,
    [cause] is what [strerror(errno)] would say. *)
Definition start (rest : list byte) (cause : string) : world :=
  {| inf := {| content := rest; strerror_errno := cause |};
     calls := [];
     out := [] |}.

(** The world after [n] full reads of one sector each. *)
Definition after_reads (n : nat) (w : world) : world :=
  {| inf := {| content := skipn (512 * n) (content (inf w));
               strerror_errno := strerror_errno (inf w) |};
     calls := calls w ++ repeat (Fread 4 128) n;
     out := out w |}.

(** The sum [egon_checksum_verify] holds when its second loop ends, for the
    image made of [sector0] and [rest]; [None] when a read is short. *)
Definition computed_checksum (sector0 rest : list byte) : option Z :=
  let header := egon_header_at sector0 in
  match fst (checksum_stream (Z.to_nat (filesize header)) header SECTOR_SIZE
               (checksum_sector0 sector0) (start rest EmptyString)) with
  | Some (inr sum) => Some sum
  | _ => None
  end.

(** The four error lines of the header checks. *)
Definition header_error (m : msg) : bool :=
  match m with
  | Wrong_magic _ | Header_size_mismatch _
  | Filesize_not_multiple _ | Filesize_empty _ => true
  | _ => false
  end.

(** What a call added to the output: the messages after those of [w]. *)
Definition written (w w' : world) : list msg :=
  skipn (List.length (out w)) (out w').

(** The name each validator prints for its layout. *)
Definition matches_of (v : dram_variant) : string :=
  match v with
  | A10 => DRAM_PARAM_A10_MATCHES
  | H6 => DRAM_PARAM_H6_MATCHES
  | A31 => DRAM_PARAM_A31_MATCHES
  | H616 => DRAM_PARAM_H616_MATCHES
  | Unknown_raw => EmptyString
  end.

(** The rejection line of the validator of layout [v], whatever the field. *)
Definition rejection_of (v : dram_variant) (m : msg) : bool :=
  match m with
  | Wrong_field message _ _ =>
      String.eqb message (invalid_structure_for (matches_of v))
  | _ => false
  end.

(** The layouts [dram_param_report] has tried and turned down when it
    prints layout [v]. *)
Definition tried_before (v : dram_variant) : list dram_variant :=
  match v with
  | A10 => []
  | H6 => [A10]
  | A31 => [A10; H6]
  | H616 => [A10; H6; A31]
  | Unknown_raw => [A10; H6; A31; H616]
  end.

(** The line with which the validator of layout [v] accepts; none for the
    raw dump, which has no validator. *)
Definition acceptance_of (v : dram_variant) : list msg :=
  match v with
  | Unknown_raw => []
  | _ => [Seem_valid (matches_of v)]
  end.

(** Reading a hexadecimal numeral back, digits of either case, as
    [strtoul(s, NULL, 16)] does: the inverse of [%x] and [%X], used to
    state what the raw dump keeps of its input. *)
Definition hex_digit_value (c : ascii) : option Z :=
  let n := Z.of_nat (nat_of_ascii c) in
  if (48 <=? n) && (n <=? 57) then Some (n - 48)
  else if (65 <=? n) && (n <=? 70) then Some (n - 55)
  else if (97 <=? n) && (n <=? 102) then Some (n - 87)
  else None.

Fixpoint hex_value_acc (s : string) (acc : Z) : option Z :=
  match s with
  | EmptyString => Some acc
  | String c s' =>
      match hex_digit_value c with
      | Some d => hex_value_acc s' (d + 16 * acc)
      | None => None
      end
  end.

Definition hex_value (s : string) : option Z := hex_value_acc s 0.

(** Hexadecimal digits only. *)
Fixpoint hex_string (s : string) : bool :=
  match s with
  | EmptyString => true
  | String c s' =>
      match hex_digit_value c with Some _ => hex_string s' | None => false end
  end.

(** An upper-case hexadecimal digit: [0] to [9], [A] to [F]. *)
Definition upper_hex_digit (c : ascii) : bool :=
  let n := Z.of_nat (nat_of_ascii c) in
  ((48 <=? n) && (n <=? 57)) || ((65 <=? n) && (n <=? 70)).

Fixpoint upper_hex_string (s : string) : bool :=
  match s with
  | EmptyString => true
  | String c s' => upper_hex_digit c && upper_hex_string s'
  end.

(** [s] is what [%08X] writes for [v]: eight hexadecimal digits, the
    letters in upper case, that read back as [v]. *)
Definition shows_08X (s : string) (v : Z) : Prop :=
  String.length s = 8%nat /\ upper_hex_string s = true /\ hex_value s = Some v.

(** Reading a decimal numeral back, with its minus sign if it has one, as
    [strtol(s, NULL, 10)] does: the inverse of [%d]. *)
Definition dec_value (s : string) : option Z :=
  option_map Z.of_int (DecimalString.NilZero.int_of_string s).

(** The two verdict lines of [egon_checksum_verify]. *)
Definition verdict_line (m : msg) : bool :=
  match m with
  | Checksum_matches | Checksum_mismatch _ _ => true
  | _ => false
  end.

(** The line the loop of [dram_param_raw_print] writes for index [i]. *)
Definition raw_line (raw : dram_raw) (i : nat) : string :=
  ("dram_" ++ Printf.fmt_02d (Z.of_nat i) ++ Printf.TAB ++ "= 0x"
   ++ Printf.fmt_x true 8 (nth i raw 0%Z) ++ Printf.NL)%string.

(** ** Concrete images, for the examples *)

Module Sample.

Definition words (ws : list Z) : list byte := flat_map (le_split 4) ws.

Definition zeros (n : nat) : list byte := repeat Byte.x00 n.

(** A sector 0 with the given magic, checksum, file size and header size,
    and [dram] as the DRAM parameter array (32 words). *)
Definition sector0 (magic : list byte) (checksum filesize header_size : Z)
    (dram : list Z) : list byte :=
  words [0xEA000016] ++ magic ++ words [checksum; filesize; header_size]
  ++ zeros 24 ++ zeros 8 ++ words dram ++ zeros 328.

(** An H6 array that is also a plausible A31 array: clock 200, type 3,
    odt_en 0, bits 16. *)
Definition dram_h6 : list Z :=
  [200; 3; 0; 0] ++ repeat 0 23 ++ [16] ++ repeat 0 4.

(** A plausible A10 array: base address 0x40000000, clock 400, type 3,
    odt_en 1. *)
Definition dram_a10 : list Z :=
  [0x40000000; 400; 3] ++ repeat 0 6 ++ [1] ++ repeat 0 22.

(** A boot0 header in a sector 0: file size 4096, header size 48, a
    checksum field of 0. *)
Definition boot0_sector : list byte :=
  sector0 EGON_MAGIC_0 0 4096 48 dram_h6.

(** The same sector 0 with 47 in the header size field (word 5). *)
Definition boot0_sector_47 : list byte :=
  sector0 EGON_MAGIC_0 0 4096 47 dram_h6.

(** The same sector 0 with 8192 in the file size field. *)
Definition boot0_sector_8192 : list byte :=
  sector0 EGON_MAGIC_0 0 8192 48 dram_h6.

(** Fifteen sectors to follow sector 0: seven of zeros, then one whose
    first word is [2^32 - 4096], then seven of zeros. *)
Definition fifteen_sectors : list byte :=
  zeros 3584 ++ words [2 ^ 32 - 4096] ++ zeros 4092.

(** The same sector 0 with a file size of 0, and with one of 4608. *)
Definition boot0_sector_empty : list byte :=
  sector0 EGON_MAGIC_0 0 0 48 dram_h6.

Definition boot0_sector_4608 : list byte :=
  sector0 EGON_MAGIC_0 0 4608 48 dram_h6.

(** The same sector 0 with the sum of the image made of it and seven
    sectors of zeros in its checksum field. *)
Definition boot0_sector_sealed : list byte :=
  sector0 EGON_MAGIC_0 0xc7ae06ed 4096 48 dram_h6.

(** A plausible A31 array that is no H6 array: clock 200, type 3, odt_en
    0, and 0 where H6 has its bits field. *)
Definition dram_a31 : list Z := [200; 3; 0; 0] ++ repeat 0 28.

(** The sample sector 0 with 0xFFFFFFFF in the header size field. *)
Definition boot0_sector_header_size_high : list byte :=
  sector0 EGON_MAGIC_0 0 4096 0xFFFFFFFF dram_h6.

(** The sample sector 0 with a file size of 0x80000200, which is not a
    multiple of 4096. *)
Definition boot0_sector_filesize_high : list byte :=
  sector0 EGON_MAGIC_0 0 0x80000200 48 dram_h6.

(** A magic that is neither of the eGON constants. *)
Definition magic_AAAAAAAA : list byte := list_byte_of_string "AAAAAAAA".

(** A [pseek] that succeeds when the file has the bytes to skip. *)
Definition pseek_file (f : FILE) (n : Z) : Z * FILE :=
  if n <=? Z.of_nat (List.length (content f)) then
    (0, {| content := skipn (Z.to_nat n) (content f);
           strerror_errno := strerror_errno f |})
  else (-1, f).

End Sample.

(** * Proofs *)

(** ** Words and wrap-around *)

Lemma load_bytes_length (m : list byte) (off n : nat) :
  (List.length (load_bytes m off n) <= n)%nat.
Proof. unfold load_bytes. rewrite length_firstn. lia. Qed.

Lemma load32_range (m : list byte) (off : nat) : 0 <= load32 m off < 2 ^ 32.
Proof.
  unfold load32.
  pose proof (le_combine_bound (load_bytes m off 4)) as Hb.
  pose proof (load_bytes_length m off 4) as Hl.
  assert (2 ^ (8 * Z.of_nat (List.length (load_bytes m off 4))) <= 2 ^ 32)
    by (apply Z.pow_le_mono_r; lia).
  lia.
Qed.

Lemma word_at_range (m : list byte) (i : nat) : 0 <= word_at m i < 2 ^ 32.
Proof. apply load32_range. Qed.

Lemma u32_range (z : Z) : 0 <= u32 z < 2 ^ 32.
Proof. unfold u32. apply Z.mod_pos_bound. lia. Qed.

Lemma u32_small (z : Z) : 0 <= z < 2 ^ 32 -> u32 z = z.
Proof. intros. unfold u32. apply Z.mod_small. lia. Qed.

Lemma u32_add_l (a b : Z) : u32 (u32 a + b) = u32 (a + b).
Proof. unfold u32. apply Zplus_mod_idemp_l. Qed.

(** A loop of wrapping additions idx one wrap of the exact sum. *)
Lemma fold_u32_add (f : nat -> Z) (idx : list nat) (acc : Z) :
  u32 (fold_left (fun c i => u32 (c + f i)) idx acc)
  = u32 (acc + Spec.sum_words (map f idx)).
Proof.
  revert acc. induction idx as [|i idx IH]; intros acc; simpl.
  - f_equal. lia.
  - rewrite IH, u32_add_l. f_equal. lia.
Qed.

Lemma fold_u32_add_range (f : nat -> Z) (idx : list nat) (acc : Z) :
  0 <= acc < 2 ^ 32 ->
  0 <= fold_left (fun c i => u32 (c + f i)) idx acc < 2 ^ 32.
Proof.
  revert acc. induction idx as [|i idx IH]; intros acc Hacc; simpl.
  - exact Hacc.
  - apply IH, u32_range.
Qed.

Lemma sum_words_app (xs ys : list Z) :
  Spec.sum_words (xs ++ ys) = Spec.sum_words xs + Spec.sum_words ys.
Proof.
  induction xs as [|x xs IH]; simpl; [reflexivity | rewrite IH; lia].
Qed.

(** ** The first loop of [egon_checksum_verify] *)

Lemma checksum_sector0_range (sector0 : list byte) :
  0 <= checksum_sector0 sector0 < 2 ^ 32.
Proof.
  unfold checksum_sector0.
  generalize (seq 0 (Z.to_nat BUFFER_COUNT)).
  assert (0 <= EGON_CHECKSUM_SEED < 2 ^ 32) as Hs
    by (unfold EGON_CHECKSUM_SEED; lia).
  revert Hs. generalize EGON_CHECKSUM_SEED.
  intros acc Hacc idx. revert acc Hacc.
  induction idx as [|i idx IH]; intros acc Hacc; simpl.
  - exact Hacc.
  - apply IH. destruct (Z.of_nat i =? checksum_offset); [exact Hacc | apply u32_range].
Qed.

Lemma checksum_sector0_skip (sector0 : list byte) (idx : list nat) (acc : Z) :
  u32 (fold_left
         (fun checksum i =>
            if Z.of_nat i =? checksum_offset then checksum
            else u32 (checksum + word_at sector0 i)) idx acc)
  = u32 (acc + Spec.sum_words
                 (map (word_at sector0)
                    (filter (fun i => negb (i =? 3)%nat) idx))).
Proof.
  revert acc. induction idx as [|i idx IH]; intros acc; simpl.
  - f_equal. lia.
  - rewrite IH. unfold checksum_offset.
    change (12 / 4) with 3.
    destruct (Nat.eqb_spec i 3) as [->|Hne]; simpl.
    + reflexivity.
    + destruct (Z.eqb_spec (Z.of_nat i) 3) as [He|_]; [lia|].
      rewrite u32_add_l. f_equal. lia.
Qed.

Lemma checksum_sector0_spec (sector0 : list byte) :
  checksum_sector0 sector0
  = u32 (EGON_CHECKSUM_SEED + Spec.sum_words (Spec.sector0_words sector0)).
Proof.
  rewrite <- (u32_small (checksum_sector0 sector0))
    by apply checksum_sector0_range.
  unfold checksum_sector0. rewrite checksum_sector0_skip.
  unfold Spec.sector0_words.
  change (Z.to_nat BUFFER_COUNT) with 128%nat. reflexivity.
Qed.

(** ** Reading sectors from the stream *)

Lemma word_at_firstn (m : list byte) (n i : nat) :
  (4 * i + 4 <= n)%nat -> word_at (firstn n m) i = word_at m i.
Proof.
  intros Hi. unfold word_at, load32, load_bytes.
  rewrite skipn_firstn_comm, firstn_firstn.
  replace (Nat.min 4 (n - 4 * i)) with 4%nat by lia. reflexivity.
Qed.

Lemma word_at_skipn (m : list byte) (k i : nat) :
  word_at (skipn (4 * k) m) i = word_at m (k + i).
Proof.
  unfold word_at, load32, load_bytes. rewrite skipn_skipn.
  do 3 f_equal. lia.
Qed.

Lemma map_nth_seq (l : list Z) :
  map (fun i => nth i l 0) (seq 0 (List.length l)) = l.
Proof.
  induction l as [|x l IH]; simpl; [reflexivity|].
  f_equal. rewrite <- seq_shift, map_map. exact IH.
Qed.

Lemma fread_full (w : world) :
  (512 <= List.length (content (inf w)))%nat ->
  fread BUFFER_COUNT w
  = (map (word_at (content (inf w))) (seq 0 128), after_reads 1 w).
Proof.
  intros Hlen. unfold fread, after_reads.
  change (Z.to_nat (4 * BUFFER_COUNT)) with 512%nat.
  change (4 * BUFFER_COUNT) with 512. change BUFFER_COUNT with 128.
  rewrite length_firstn.
  replace (Nat.min 512 (List.length (content (inf w)))) with 512%nat by lia.
  change (512 / 4)%nat with 128%nat.
  f_equal.
  apply map_ext_in. intros i Hi. apply in_seq in Hi.
  apply word_at_firstn. lia.
Qed.

Lemma fread_short (w : world) :
  (List.length (content (inf w)) < 512)%nat ->
  exists buffer,
    fread BUFFER_COUNT w = (buffer, after_reads 1 w)
    /\ List.length buffer = (List.length (content (inf w)) / 4)%nat.
Proof.
  intros Hlen. unfold fread, after_reads.
  change (Z.to_nat (4 * BUFFER_COUNT)) with 512%nat.
  change BUFFER_COUNT with 128.
  eexists. split; [reflexivity|].
  rewrite length_map, length_seq, length_firstn.
  f_equal. lia.
Qed.

Lemma after_reads_S (n : nat) (w : world) :
  after_reads n (after_reads 1 w) = after_reads (S n) w.
Proof.
  unfold after_reads. cbn [inf content strerror_errno calls out].
  rewrite skipn_skipn, <- app_assoc.
  f_equal.
  f_equal. f_equal. lia.
Qed.

Lemma checksum_buffer_full (buffer : list Z) (checksum : Z) :
  List.length buffer = 128%nat ->
  0 <= checksum < 2 ^ 32 ->
  checksum_buffer buffer checksum = u32 (checksum + Spec.sum_words buffer).
Proof.
  intros Hlen Hc. unfold checksum_buffer.
  change (Z.to_nat BUFFER_COUNT) with 128%nat.
  rewrite <- (u32_small (fold_left _ _ _))
    by (apply (fold_u32_add_range (fun i => nth i buffer 0)); exact Hc).
  rewrite (fold_u32_add (fun i => nth i buffer 0)).
  rewrite <- Hlen, map_nth_seq. reflexivity.
Qed.

Lemma map_word_at_seq (m : list byte) (k n s : nat) :
  map (word_at (skipn (4 * k) m)) (seq s n) = map (word_at m) (seq (k + s) n).
Proof.
  revert s. induction n as [|n IH]; intros s; cbn [map seq]; [reflexivity|].
  rewrite word_at_skipn. f_equal.
  rewrite IH. f_equal. f_equal. lia.
Qed.

(** ** The second loop of [egon_checksum_verify] *)

Lemma after_reads_0 (w : world) : after_reads 0 w = w.
Proof.
  destruct w as [[c e] cs o]. unfold after_reads.
  cbn [inf content strerror_errno calls out repeat Nat.mul skipn].
  rewrite app_nil_r. reflexivity.
Qed.

Lemma checksum_stream_eq (fuel : nat) (header : egon_header)
    (offset checksum : Z) :
  checksum_stream fuel header offset checksum
  = if offset <? filesize header then
      match fuel with
      | O => ret None
      | S fuel' =>
          buffer <- fread BUFFER_COUNT ;;
          let r := Z.of_nat (List.length buffer) in
          if negb (r =? BUFFER_COUNT) then
            cause <- strerror ;;
            fprintf (Fread_failed cause r) ;;
            ret (Some (inl r))
          else
            checksum_stream fuel' header (offset + SECTOR_SIZE)
              (checksum_buffer buffer checksum)
      end
    else ret (Some (inr checksum)).
Proof. destruct fuel; reflexivity. Qed.

(** While whole sectors come in, the loop runs to its end and holds the
    wrapped sum of the words it read. *)
Lemma checksum_stream_full (header : egon_header) (n : nat) :
  forall (fuel : nat) (offset cs : Z) (w : world),
    (n <= fuel)%nat ->
    filesize header <= offset + 512 * Z.of_nat n ->
    ((0 < n)%nat -> offset + 512 * (Z.of_nat n - 1) < filesize header) ->
    (512 * n <= List.length (content (inf w)))%nat ->
    0 <= cs < 2 ^ 32 ->
    checksum_stream fuel header offset cs w
    = (Some (inr (u32 (cs + Spec.sum_words
                              (map (word_at (content (inf w)))
                                 (seq 0 (128 * n)))))),
       after_reads n w).
Proof.
  induction n as [|n IH]; intros fuel offset cs w Hfuel Hend Hrun Hlen Hcs;
    rewrite checksum_stream_eq.
  - destruct (Z.ltb_spec offset (filesize header)) as [Hlt|_]; [lia|].
    unfold ret. rewrite after_reads_0.
    change (seq 0 (128 * 0)) with (@nil nat). cbn [map Spec.sum_words fold_right].
    rewrite Z.add_0_r, u32_small by exact Hcs. reflexivity.
  - destruct (Z.ltb_spec offset (filesize header)) as [_|Hge]; [|lia].
    destruct fuel as [|fuel]; [lia|].
    unfold bind at 1. rewrite fread_full by lia.
    rewrite length_map, length_seq.
    change (negb (Z.of_nat 128 =? BUFFER_COUNT)) with false. cbv iota.
    rewrite checksum_buffer_full
      by (rewrite ?length_map, ?length_seq; auto).
    rewrite IH; try lia.
    + rewrite after_reads_S. f_equal. f_equal. f_equal.
      rewrite u32_add_l.
      unfold after_reads at 1. cbn [inf content].
      change (512 * 1)%nat with (4 * 128)%nat.
      rewrite map_word_at_seq.
      replace (128 * S n)%nat with (128 + 128 * n)%nat by lia.
      rewrite seq_app, map_app, sum_words_app.
      rewrite Nat.add_0_r, Nat.add_0_l. f_equal. lia.
    + unfold SECTOR_SIZE. lia.
    + intros Hn. unfold SECTOR_SIZE. lia.
    + unfold after_reads. cbn [inf content]. rewrite length_skipn. lia.
    + apply u32_range.
Qed.

(** A read that delivers fewer than 128 items ends the loop at once, with
    the number of items as the result. *)
Lemma checksum_stream_short (header : egon_header) (k : nat) :
  forall (fuel : nat) (offset cs : Z) (w : world),
    (k < fuel)%nat ->
    offset + 512 * Z.of_nat k < filesize header ->
    (512 * k <= List.length (content (inf w)) < 512 * k + 512)%nat ->
    0 <= cs < 2 ^ 32 ->
    let r := Z.of_nat ((List.length (content (inf w)) - 512 * k) / 4) in
    checksum_stream fuel header offset cs w
    = (Some (inl r),
       {| inf := inf (after_reads (S k) w);
          calls := calls (after_reads (S k) w);
          out := out w ++ [Fread_failed (strerror_errno (inf w)) r] |}).
Proof.
  induction k as [|k IH]; intros fuel offset cs w Hfuel Hoff Hlen Hcs r;
    rewrite checksum_stream_eq;
    (destruct (Z.ltb_spec offset (filesize header)) as [_|Hge]; [|lia]);
    (destruct fuel as [|fuel]; [lia|]); unfold bind at 1.
  - destruct (fread_short w) as (buffer & Hread & Hbuf); [lia|].
    rewrite Hread, Hbuf.
    assert (Hr : Z.of_nat (List.length (content (inf w)) / 4) = r)
      by (subst r; do 2 f_equal; lia).
    rewrite Hr.
    assert (Hr128 : r < 128).
    { subst r. apply Nat2Z.inj_lt with (m := 128%nat).
      apply Nat.Div0.div_lt_upper_bound. lia. }
    destruct (Z.eqb_spec r BUFFER_COUNT) as [He|_];
      [change BUFFER_COUNT with 128 in He; lia|].
    reflexivity.
  - rewrite fread_full by lia.
    rewrite length_map, length_seq.
    change (negb (Z.of_nat 128 =? BUFFER_COUNT)) with false. cbv iota.
    rewrite IH.
    + rewrite after_reads_S.
      subst r. unfold after_reads. cbn [inf content strerror_errno out calls].
      rewrite length_skipn.
      replace (List.length (content (inf w)) - 512 * 1 - 512 * k)%nat
        with (List.length (content (inf w)) - 512 * S k)%nat by lia.
      reflexivity.
    + lia.
    + unfold SECTOR_SIZE. lia.
    + unfold after_reads. cbn [inf content]. rewrite length_skipn. lia.
    + rewrite checksum_buffer_full
        by (rewrite ?length_map, ?length_seq; auto).
      apply u32_range.
Qed.

(** The fuel [egon_checksum_verify] gives the loop is enough. *)
Lemma checksum_stream_fuel (header : egon_header) (fuel : nat) :
  forall (offset cs : Z) (w : world),
    filesize header - offset <= 512 * Z.of_nat fuel ->
    fst (checksum_stream fuel header offset cs w) <> None.
Proof.
  induction fuel as [|fuel IH]; intros offset cs w Hfuel;
    rewrite checksum_stream_eq;
    destruct (Z.ltb_spec offset (filesize header)) as [Hlt|Hge];
    try (cbn; discriminate); try lia.
  unfold bind at 1.
  destruct (fread BUFFER_COUNT w) as [buffer w1].
  cbv zeta.
  destruct (negb (Z.of_nat (List.length buffer) =? BUFFER_COUNT)).
  - cbn. discriminate.
  - apply IH. unfold SECTOR_SIZE. lia.
Qed.

(** ** The checksum against the reference definition *)

Lemma later_sectors_In (filesize : Z) (k : nat) :
  In k (Spec.later_sectors filesize)
  <-> (1 <= k)%nat /\ 512 * Z.of_nat k < filesize.
Proof.
  unfold Spec.later_sectors. rewrite in_seq.
  destruct (Z.le_gt_cases filesize 0) as [Hle|Hgt].
  - assert ((filesize - 1) / 512 < 0)
      by (apply Z.div_lt_upper_bound; lia).
    lia.
  - assert (0 <= (filesize - 1) / 512) by (apply Z.div_pos; lia).
    pose proof (Z.div_mod (filesize - 1) 512 ltac:(lia)).
    pose proof (Z.mod_pos_bound (filesize - 1) 512 ltac:(lia)).
    lia.
Qed.

Lemma later_sectors_bounds (filesize : Z) :
  let n := Z.of_nat (List.length (Spec.later_sectors filesize)) in
  filesize <= 512 + 512 * n
  /\ (0 < n -> 512 * n < filesize)
  /\ n <= Z.of_nat (Z.to_nat filesize).
Proof.
  unfold Spec.later_sectors. rewrite length_seq. cbv zeta.
  destruct (Z.le_gt_cases filesize 0) as [Hle|Hgt].
  - assert ((filesize - 1) / 512 < 0)
      by (apply Z.div_lt_upper_bound; lia).
    lia.
  - assert (0 <= (filesize - 1) / 512) by (apply Z.div_pos; lia).
    pose proof (Z.div_mod (filesize - 1) 512 ltac:(lia)).
    pose proof (Z.mod_pos_bound (filesize - 1) 512 ltac:(lia)).
    lia.
Qed.

Lemma map_seq_add (f : nat -> Z) (k len s : nat) :
  map (fun i => f (k + i)%nat) (seq s len) = map f (seq (k + s) len).
Proof.
  revert s. induction len as [|len IH]; intros s; cbn [seq map].
  - reflexivity.
  - f_equal. rewrite IH. do 2 f_equal. lia.
Qed.

Lemma flat_map_sector_words (rest : list byte) (n : nat) :
  flat_map (Spec.sector_words rest) (seq 1 n)
  = map (word_at rest) (seq 0 (128 * n)).
Proof.
  induction n as [|n IH].
  - reflexivity.
  - rewrite seq_S, flat_map_app, IH.
    replace (128 * S n)%nat with (128 * n + 128)%nat by lia.
    rewrite seq_app, map_app. f_equal.
    cbn [flat_map]. rewrite app_nil_r.
    unfold Spec.sector_words.
    replace (1 + n - 1)%nat with n by lia.
    rewrite (map_seq_add (word_at rest)). do 2 f_equal. lia.
Qed.

Lemma reference_checksum_eq (sector0 rest : list byte) (filesize : Z) :
  Spec.reference_checksum sector0 rest filesize
  = u32 (checksum_sector0 sector0
         + Spec.sum_words
             (map (word_at rest)
                (seq 0 (128 * List.length (Spec.later_sectors filesize))))).
Proof.
  unfold Spec.reference_checksum.
  rewrite checksum_sector0_spec, u32_add_l.
  unfold Spec.later_sectors at 1. rewrite flat_map_sector_words.
  unfold Spec.later_sectors. rewrite length_seq.
  unfold u32, EGON_CHECKSUM_SEED. reflexivity.
Qed.

Lemma checksum_stream_reference (header : egon_header) (sector0 : list byte)
    (w : world) :
  let n := List.length (Spec.later_sectors (filesize header)) in
  (512 * n <= List.length (content (inf w)))%nat ->
  checksum_stream (Z.to_nat (filesize header)) header SECTOR_SIZE
    (checksum_sector0 sector0) w
  = (Some (inr (Spec.reference_checksum sector0 (content (inf w))
                  (filesize header))),
     after_reads n w).
Proof.
  intros n Hlen.
  pose proof (later_sectors_bounds (filesize header)) as (Hend & Hrun & Hfuel).
  fold n in Hend, Hrun, Hfuel.
  rewrite (checksum_stream_full header n).
  - rewrite reference_checksum_eq. reflexivity.
  - lia.
  - unfold SECTOR_SIZE. lia.
  - intros Hn. unfold SECTOR_SIZE. lia.
  - exact Hlen.
  - apply checksum_sector0_range.
Qed.

(** ** The validators *)

Lemma land_low28 (x : Z) : Z.land x 0x0FFFFFFF = x mod 2 ^ 28.
Proof. change 0x0FFFFFFF with (Z.ones 28). apply Z.land_ones. lia. Qed.

(** A word whose low 28 bits are zero is not a clock any layout accepts. *)
Lemma low28_zero_not_clock (x : Z) :
  x mod 2 ^ 28 = 0 -> ~ 100 <= x <= 1200.
Proof.
  intros Hlow Hclk. rewrite Z.mod_small in Hlow; lia.
Qed.

Ltac bool_to_prop :=
  repeat match goal with
    | H : _ |- _ =>
        first [ rewrite orb_true_iff in H | rewrite orb_false_iff in H
              | rewrite andb_true_iff in H | rewrite andb_false_iff in H
              | rewrite negb_true_iff in H | rewrite negb_false_iff in H
              | rewrite Z.gtb_ltb in H
              | rewrite Z.eqb_eq in H | rewrite Z.eqb_neq in H
              | rewrite Z.ltb_lt in H | rewrite Z.ltb_ge in H
              | rewrite Z.leb_le in H | rewrite Z.leb_gt in H ]
    end.

(** Runs a validator: every test of its chain is decided, and each leaf is
    left with the tests as hypotheses. *)
Ltac run_validator :=
  unfold bind, fprintf, ret;
  repeat match goal with
    | |- context [if ?b then _ else _] => destruct b eqn:?
    end;
  cbn [fst snd].

Lemma dram_param_a10_validate_run (raw : dram_raw) (w : world) :
  exists m, validator_msg m = true
            /\ emits w (snd (dram_param_a10_validate raw w)) m.
Proof.
  unfold dram_param_a10_validate, emits. run_validator;
    eexists; split; try reflexivity; reflexivity.
Qed.

Lemma dram_param_h6_validate_run (raw : dram_raw) (w : world) :
  exists m, validator_msg m = true
            /\ emits w (snd (dram_param_h6_validate raw w)) m.
Proof.
  unfold dram_param_h6_validate, emits. run_validator;
    eexists; split; try reflexivity; reflexivity.
Qed.

Lemma dram_param_a31_validate_run (raw : dram_raw) (w : world) :
  exists m, validator_msg m = true
            /\ emits w (snd (dram_param_a31_validate raw w)) m.
Proof.
  unfold dram_param_a31_validate, emits. run_validator;
    eexists; split; try reflexivity; reflexivity.
Qed.

Lemma dram_param_h616_validate_run (raw : dram_raw) (w : world) :
  exists m, validator_msg m = true
            /\ emits w (snd (dram_param_h616_validate raw w)) m.
Proof.
  unfold dram_param_h616_validate, emits. run_validator;
    eexists; split; try reflexivity; reflexivity.
Qed.

Lemma dram_param_a10_validate_ok (raw : dram_raw) (w : world) :
  fst (dram_param_a10_validate raw w) = 0 <-> Spec.a10_plausible raw.
Proof.
  unfold dram_param_a10_validate, Spec.a10_plausible.
  rewrite <- land_low28.
  run_validator; bool_to_prop; split; intros; lia.
Qed.

Lemma dram_param_h6_validate_ok (raw : dram_raw) (w : world) :
  fst (dram_param_h6_validate raw w) = 0 <-> Spec.h6_plausible raw.
Proof.
  unfold dram_param_h6_validate, Spec.h6_plausible. cbn [In].
  run_validator; bool_to_prop; split; intros; lia.
Qed.

Lemma dram_param_a31_validate_ok (raw : dram_raw) (w : world) :
  fst (dram_param_a31_validate raw w) = 0 <-> Spec.a31_plausible raw.
Proof.
  unfold dram_param_a31_validate, Spec.a31_plausible. cbn [In].
  run_validator; bool_to_prop; split; intros; lia.
Qed.

Lemma dram_param_h616_validate_ok (raw : dram_raw) (w : world) :
  fst (dram_param_h616_validate raw w) = 0 <-> Spec.h616_plausible raw.
Proof.
  unfold dram_param_h616_validate, Spec.h616_plausible. cbn [In].
  run_validator; bool_to_prop; split; intros; lia.
Qed.

Lemma plausibleb_spec (v : dram_variant) (raw : dram_raw) :
  Spec.plausibleb v raw = true <-> Spec.plausible v raw.
Proof.
  destruct v; cbn [Spec.plausibleb Spec.plausible existsb];
    unfold Spec.a10_plausible, Spec.h6_plausible, Spec.a31_plausible,
      Spec.h616_plausible; cbn [In];
    rewrite ?andb_true_iff, ?orb_true_iff, ?orb_false_r, ?Z.eqb_eq, ?Z.leb_le;
    try tauto; intuition lia.
Qed.

(** ** The order in which [output_boot0_info] tries the layouts *)

Lemma bool_eq_iff (a b : bool) : (a = true <-> b = true) -> a = b.
Proof. destruct a, b; intuition congruence. Qed.

Section Validator_step.

Variable validate : dram_raw -> M Z.
Variable v : dram_variant.
Hypothesis validate_run :
  forall raw w, exists m,
    validator_msg m = true /\ emits w (snd (validate raw w)) m.
Hypothesis validate_ok :
  forall raw w, fst (validate raw w) = 0 <-> Spec.plausible v raw.

Lemma validator_step (raw : dram_raw) (w : world) (r : Z) (w' : world) :
  validate raw w = (r, w') ->
  (r =? 0) = Spec.plausibleb v raw
  /\ exists m, validator_msg m = true
               /\ w' = {| inf := inf w; calls := calls w; out := out w ++ [m] |}.
Proof.
  intros Hrun.
  pose proof (validate_ok raw w) as Hok.
  destruct (validate_run raw w) as (m & Hm & Hw).
  rewrite Hrun in Hok, Hw. cbn [fst snd] in Hok, Hw.
  split.
  - apply bool_eq_iff. rewrite Z.eqb_eq, plausibleb_spec. exact Hok.
  - exists m. split; [exact Hm | exact Hw].
Qed.

End Validator_step.

(** The chain of lines 646-657 prints the first layout, in the order A10,
    H6, A31, H616, whose validator accepts. *)
Lemma dram_param_report_code_order (raw : dram_raw) (w : world) :
  exists diag,
    forallb validator_msg diag = true
    /\ dram_param_report raw w
       = (tt,
          {| inf := inf w;
             calls := calls w;
             out := out w
                    ++ Looking_for_dram :: diag
                    ++ [Dram_print
                          (Spec.first_plausible [A10; H6; A31; H616] raw) raw]
          |}).
Proof.
  unfold dram_param_report, bind at 1. unfold fprintf at 1.
  unfold bind at 1.
  destruct (dram_param_a10_validate raw _) as [r1 w1] eqn:E1.
  apply (validator_step _ A10 dram_param_a10_validate_run
           dram_param_a10_validate_ok) in E1 as (Hr1 & m1 & Hm1 & ->).
  rewrite Hr1. cbn [Spec.first_plausible].
  destruct (Spec.plausibleb A10 raw).
  { exists [m1]. cbn [forallb]. rewrite Hm1. split; [reflexivity|].
    unfold dram_param_a10_print, fprintf. cbn [inf calls out].
    rewrite <- !app_assoc. reflexivity. }
  unfold bind at 1.
  destruct (dram_param_h6_validate raw _) as [r2 w2] eqn:E2.
  apply (validator_step _ H6 dram_param_h6_validate_run
           dram_param_h6_validate_ok) in E2 as (Hr2 & m2 & Hm2 & ->).
  rewrite Hr2.
  destruct (Spec.plausibleb H6 raw).
  { exists [m1; m2]. cbn [forallb]. rewrite Hm1, Hm2. split; [reflexivity|].
    unfold dram_param_h6_print, fprintf. cbn [inf calls out].
    rewrite <- !app_assoc. reflexivity. }
  unfold bind at 1.
  destruct (dram_param_a31_validate raw _) as [r3 w3] eqn:E3.
  apply (validator_step _ A31 dram_param_a31_validate_run
           dram_param_a31_validate_ok) in E3 as (Hr3 & m3 & Hm3 & ->).
  rewrite Hr3.
  destruct (Spec.plausibleb A31 raw).
  { exists [m1; m2; m3]. cbn [forallb]. rewrite Hm1, Hm2, Hm3.
    split; [reflexivity|].
    unfold dram_param_a31_print, fprintf. cbn [inf calls out].
    rewrite <- !app_assoc. reflexivity. }
  unfold bind at 1.
  destruct (dram_param_h616_validate raw _) as [r4 w4] eqn:E4.
  apply (validator_step _ H616 dram_param_h616_validate_run
           dram_param_h616_validate_ok) in E4 as (Hr4 & m4 & Hm4 & ->).
  rewrite Hr4.
  exists [m1; m2; m3; m4]. cbn [forallb]. rewrite Hm1, Hm2, Hm3, Hm4.
  split; [reflexivity|].
  destruct (Spec.plausibleb H616 raw);
    unfold dram_param_h616_print, dram_param_raw_print, fprintf;
    cbn [inf calls out]; rewrite <- !app_assoc; reflexivity.
Qed.

(** A10 excludes the other three: its base address is their clock. *)
Lemma a10_excludes (raw : dram_raw) :
  Spec.plausibleb A10 raw = true ->
  Spec.plausibleb H6 raw = false
  /\ Spec.plausibleb A31 raw = false
  /\ Spec.plausibleb H616 raw = false.
Proof.
  intros Ha10. apply plausibleb_spec in Ha10.
  destruct Ha10 as (Hlow & _).
  pose proof (low28_zero_not_clock _ Hlow) as Hclk.
  unfold dram_param_a10.baseaddr in Hclk.
  repeat split; apply not_true_is_false; intros H;
    apply plausibleb_spec in H; destruct H as (Hc & _);
    unfold dram_param_h6.clk, dram_param_a31.clk, dram_param_h616.clk in Hc;
    lia.
Qed.

Lemma first_plausible_orders (raw : dram_raw) :
  Spec.first_plausible [A10; H6; A31; H616] raw = Spec.identify raw.
Proof.
  unfold Spec.identify. cbn [Spec.first_plausible].
  destruct (Spec.plausibleb A10 raw) eqn:Ha10.
  - destruct (a10_excludes raw Ha10) as (-> & -> & _). reflexivity.
  - reflexivity.
Qed.

Lemma printed_app (xs ys : list msg) :
  printed (xs ++ ys) = printed xs ++ printed ys.
Proof. unfold printed. apply flat_map_app. Qed.

Lemma printed_validator_msgs (diag : list msg) :
  forallb validator_msg diag = true -> printed diag = [].
Proof.
  induction diag as [|m diag IH]; cbn [forallb]; intros H; [reflexivity|].
  apply andb_true_iff in H as (Hm & Hd).
  destruct m; try discriminate Hm; cbn; apply IH, Hd.
Qed.

(** ** The header checks of [output_boot0_info] *)

Lemma filesize_range (sector : list byte) :
  0 <= filesize (egon_header_at sector) < 2 ^ 32.
Proof. apply load32_range. Qed.

Lemma land_align (x : Z) : Z.land x (EGON_FILESIZE_ALIGN - 1) = x mod 4096.
Proof.
  change (EGON_FILESIZE_ALIGN - 1) with (Z.ones 12).
  rewrite Z.land_ones by lia. reflexivity.
Qed.

Lemma valid_boot0_header_passes (h : egon_header) :
  Spec.valid_boot0_header h -> passes_header_checks h.
Proof.
  intros (Hmagic & Hsize & Hpos & Halign).
  unfold passes_header_checks. rewrite Hmagic.
  repeat split; try assumption. vm_compute. discriminate.
Qed.

Lemma header_checks_pass (h : egon_header) :
  passes_header_checks h ->
  (memcmp (magic h) EGON_MAGIC_0 8 >? 0) = false
  /\ negb (header_size h =? sizeof_egon_header) = false
  /\ negb (Z.land (filesize h) (EGON_FILESIZE_ALIGN - 1) =? 0) = false
  /\ (filesize h =? 0) = false.
Proof.
  intros (Hmagic & Hsize & Hpos & Halign).
  unfold EGON_FILESIZE_ALIGN in Halign.
  rewrite Hsize, land_align, Halign.
  repeat split; try reflexivity.
  - destruct (Z.gtb_spec (memcmp (magic h) EGON_MAGIC_0 8) 0); [lia | reflexivity].
  - apply Z.eqb_neq. lia.
Qed.

Lemma sectors_left_value (fs : Z) :
  0 < fs < 2 ^ 32 -> fs mod 4096 = 0 ->
  to_int (u32 (fs / SECTOR_SIZE - 1)) = fs / 512 - 1
  /\ 7 <= fs / 512 - 1.
Proof.
  intros Hfs Halign. unfold SECTOR_SIZE.
  assert (H : 8 <= fs / 512 < 2 ^ 23).
  { apply Z.mod_divide in Halign; [|lia].
    destruct Halign as [q ->].
    replace (q * 4096) with (q * 8 * 512) by lia.
    rewrite Z.div_mul by lia. lia. }
  rewrite u32_small by lia. unfold to_int.
  destruct (Z.ltb_spec (fs / 512 - 1) (2 ^ 31)); lia.
Qed.

Lemma later_sectors_aligned (fs : Z) :
  0 < fs -> fs mod 4096 = 0 ->
  List.length (Spec.later_sectors fs) = Z.to_nat (fs / 512 - 1).
Proof.
  intros Hfs Halign. unfold Spec.later_sectors. rewrite length_seq.
  f_equal.
  apply Z.mod_divide in Halign; [|lia].
  destruct Halign as [q ->].
  replace (q * 4096) with (q * 8 * 512) by lia.
  rewrite Z.div_mul by lia.
  replace (q * 8 * 512 - 1) with ((q * 8 - 1) * 512 + 511) by lia.
  rewrite Z.div_add_l by lia.
  change (511 / 512) with 0. lia.
Qed.

Lemma sub_sector_size (fs : Z) :
  0 < fs < 2 ^ 32 -> fs mod 4096 = 0 -> u32 (fs - SECTOR_SIZE) = fs - 512.
Proof.
  intros Hfs Halign. unfold SECTOR_SIZE.
  apply Z.mod_divide in Halign; [|lia].
  destruct Halign as [q Hq].
  apply u32_small. lia.
Qed.

Lemma egon_checksum_verify_total (header : egon_header) (sector0 : list byte)
    (w : world) :
  0 <= filesize header < 2 ^ 32 ->
  fst (egon_checksum_verify header sector0 w) <> None.
Proof.
  intros Hfs. unfold egon_checksum_verify, bind at 1.
  pose proof (checksum_stream_fuel header (Z.to_nat (filesize header))
                SECTOR_SIZE (checksum_sector0 sector0) w) as Hfuel.
  destruct (checksum_stream _ header SECTOR_SIZE _ w) as [[[e|sum]|] w1].
  - cbn. discriminate.
  - unfold bind.
    destruct (negb (sum =? checksum header)); cbn; discriminate.
  - exfalso. apply Hfuel; [|reflexivity]. unfold SECTOR_SIZE. lia.
Qed.

(** ** [output_boot0_info] on a valid header *)

Section Runs.

Variable pseek : FILE -> Z -> Z * FILE.

Lemma output_boot0_info_verbose (sector : list byte) (w : world) :
  let h := egon_header_at sector in
  passes_header_checks h ->
  output_boot0_info pseek sector true w
  = let w1 := {| inf := inf w;
                 calls := calls w;
                 out := out w ++ [Found_header;
                                  Filesize_kB (Z.shiftr (filesize h) 10)] |} in
    match egon_checksum_verify h sector w1 with
    | (None, w2) => (None, w2)
    | (Some r, w2) =>
        if negb (r =? 0) then (Some 0, w2)
        else (Some (filesize h / 512 - 1),
              snd (dram_param_report (dram_param_at sector 48) w2))
    end.
Proof.
  intros h Hvalid.
  destruct (header_checks_pass h Hvalid) as (H1 & H2 & H3 & H4).
  pose proof (filesize_range sector) as Hrange. fold h in Hrange.
  destruct Hvalid as (_ & Hsize & Hpos & Halign).
  unfold EGON_FILESIZE_ALIGN in Halign. unfold sizeof_egon_header in Hsize.
  destruct (sectors_left_value (filesize h)) as (Hleft & _); [lia | exact Halign |].
  unfold output_boot0_info. fold h. cbv zeta.
  rewrite H1, H2, H3, H4, Hleft, Hsize.
  unfold bind at 1. unfold fprintf at 1.
  unfold bind at 1. unfold fprintf at 1.
  cbn [inf calls out]. rewrite <- app_assoc. cbn [app].
  unfold bind at 1.
  destruct (egon_checksum_verify h sector _) as [[r|] w2]; [|reflexivity].
  destruct (negb (r =? 0)); [reflexivity|].
  unfold bind at 1.
  destruct (dram_param_report (dram_param_at sector 48) w2) as [[] w3].
  reflexivity.
Qed.

Lemma output_boot0_info_quiet (sector : list byte) (w : world) :
  let h := egon_header_at sector in
  passes_header_checks h ->
  output_boot0_info pseek sector false w
  = (Some (if fst (pseek (inf w) (filesize h - 512)) =? 0
           then filesize h / 512 - 1 else 0),
     {| inf := snd (pseek (inf w) (filesize h - 512));
        calls := calls w ++ [Pseek (filesize h - 512)];
        out := out w |}).
Proof.
  intros h Hvalid.
  destruct (header_checks_pass h Hvalid) as (H1 & H2 & H3 & H4).
  pose proof (filesize_range sector) as Hrange. fold h in Hrange.
  destruct Hvalid as (_ & Hsize & Hpos & Halign).
  unfold EGON_FILESIZE_ALIGN in Halign. unfold sizeof_egon_header in Hsize.
  destruct (sectors_left_value (filesize h)) as (Hleft & _); [lia | exact Halign |].
  unfold output_boot0_info. fold h. cbv zeta.
  rewrite H1, H2, H3, H4, Hleft, sub_sector_size by (lia || exact Halign).
  unfold bind, pseek_call.
  destruct (pseek (inf w) (filesize h - 512)) as [r f]. cbn [fst snd].
  destruct (r =? 0); reflexivity.
Qed.

(** The four rejections, in the order the code tests them. *)
Lemma output_boot0_info_rejects (sector : list byte) (verbose : bool)
    (w : world) :
  let h := egon_header_at sector in
  let reject m :=
    output_boot0_info pseek sector verbose w
    = (Some 0, {| inf := inf w; calls := calls w; out := out w ++ [m] |}) in
  (0 < memcmp (magic h) EGON_MAGIC_0 8 -> reject (Wrong_magic (magic h)))
  /\ (memcmp (magic h) EGON_MAGIC_0 8 <= 0 ->
      header_size h <> 48 -> reject (Header_size_mismatch (header_size h)))
  /\ (memcmp (magic h) EGON_MAGIC_0 8 <= 0 ->
      header_size h = 48 -> filesize h mod 4096 <> 0 ->
      reject (Filesize_not_multiple (filesize h)))
  /\ (memcmp (magic h) EGON_MAGIC_0 8 <= 0 ->
      header_size h = 48 -> filesize h = 0 ->
      reject (Filesize_empty (filesize h))).
Proof.
  intros h reject. subst reject. cbv beta.
  unfold output_boot0_info. fold h. cbv zeta.
  rewrite land_align. unfold sizeof_egon_header.
  repeat split.
  - intros Hm. apply Z.gtb_lt in Hm. rewrite Hm. reflexivity.
  - intros Hm Hs.
    destruct (Z.gtb_spec (memcmp (magic h) EGON_MAGIC_0 8) 0); [lia|].
    apply Z.eqb_neq in Hs. rewrite Hs. reflexivity.
  - intros Hm Hs Ha.
    destruct (Z.gtb_spec (memcmp (magic h) EGON_MAGIC_0 8) 0); [lia|].
    rewrite Hs. apply Z.eqb_neq in Ha. rewrite Ha. reflexivity.
  - intros Hm Hs Hf.
    destruct (Z.gtb_spec (memcmp (magic h) EGON_MAGIC_0 8) 0); [lia|].
    rewrite Hs, Hf. reflexivity.
Qed.

(** The C function always returns: the fuel of the loop never runs out. *)
Lemma output_boot0_info_total (sector : list byte) (verbose : bool)
    (w : world) :
  fst (output_boot0_info pseek sector verbose w) <> None.
Proof.
  unfold output_boot0_info. cbv zeta.
  repeat match goal with
    | |- context [if ?b then _ else _] => destruct b; try (cbn; discriminate)
    end.
  - unfold bind at 1. unfold fprintf at 1.
    unfold bind at 1. unfold fprintf at 1.
    unfold bind at 1.
    match goal with
    | |- context [egon_checksum_verify ?h ?s ?w0] =>
        pose proof (egon_checksum_verify_total h s w0 (filesize_range sector))
          as Htotal;
        destruct (egon_checksum_verify h s w0) as [[r|] w1]
    end.
    + destruct (negb (r =? 0)); [cbn; discriminate|].
      unfold bind. destruct (dram_param_report _ w1). cbn. discriminate.
    + exfalso. apply Htotal. reflexivity.
  - unfold bind, pseek_call. destruct (pseek _ _) as [r f].
    destruct (negb (r =? 0)); cbn; discriminate.
Qed.

End Runs.

Lemma detector_report_shape (raw : dram_raw) (w : world) :
  exists diag,
    forallb validator_msg diag = true
    /\ dram_param_report raw w
       = (tt,
          {| inf := inf w;
             calls := calls w;
             out := out w ++ Looking_for_dram :: diag
                    ++ [Dram_print (Spec.identify raw) raw] |}).
Proof.
  destruct (dram_param_report_code_order raw w) as (diag & Hdiag & Hrun).
  rewrite first_plausible_orders in Hrun.
  exists diag. split; assumption.
Qed.

(** With every sector read in full, [egon_checksum_verify] returns 0
    after one message: the verdict on the reference checksum. *)
Lemma egon_checksum_verify_full (header : egon_header)
    (sector0 : list byte) (w : world) :
  let n := List.length (Spec.later_sectors (filesize header)) in
  let reference :=
    Spec.reference_checksum sector0 (content (inf w)) (filesize header) in
  (512 * n <= List.length (content (inf w)))%nat ->
  egon_checksum_verify header sector0 w
  = (Some 0,
     {| inf := inf (after_reads n w);
        calls := calls (after_reads n w);
        out := out w ++ [if reference =? checksum header
                         then Checksum_matches
                         else Checksum_mismatch reference (checksum header)]
     |}).
Proof.
  intros n reference Hlen.
  pose proof (checksum_stream_reference header sector0 w Hlen) as Hloop.
  fold n reference in Hloop.
  unfold egon_checksum_verify, bind at 1. rewrite Hloop.
  destruct (reference =? checksum header); reflexivity.
Qed.

Lemma computed_checksum_reference (sector0 rest : list byte) :
  let fs := filesize (egon_header_at sector0) in
  (512 * List.length (Spec.later_sectors fs) <= List.length rest)%nat ->
  computed_checksum sector0 rest
  = Some (Spec.reference_checksum sector0 rest fs).
Proof.
  intros fs Hlen. unfold computed_checksum.
  rewrite checksum_stream_reference by exact Hlen.
  reflexivity.
Qed.


(** ** One word changed *)

Lemma sum_words_change (f g : nat -> Z) (idx : list nat) (j : nat) :
  NoDup idx -> In j idx ->
  (forall i, In i idx -> i <> j -> f i = g i) ->
  Spec.sum_words (map f idx) = Spec.sum_words (map g idx) + (f j - g j).
Proof.
  induction idx as [|a idx IH]; intros Hnd Hin Hagree; [contradiction|].
  inversion Hnd as [|? ? Hnotin Hnd']; subst.
  cbn [map Spec.sum_words fold_right].
  fold (Spec.sum_words (map f idx)). fold (Spec.sum_words (map g idx)).
  destruct Hin as [->|Hin].
  - rewrite (map_ext_in f g idx); [lia|].
    intros i Hi. apply Hagree; [right; exact Hi|].
    intros ->. contradiction.
  - rewrite IH; auto.
    + rewrite (Hagree a); [lia | left; reflexivity |].
      intros ->. contradiction.
    + intros i Hi. apply Hagree. right. exact Hi.
Qed.

Lemma mod32_change (x d : Z) :
  d <> 0 -> - 2 ^ 32 < d < 2 ^ 32 -> (x + d) mod 2 ^ 32 <> x mod 2 ^ 32.
Proof.
  intros Hd Hrange Heq.
  pose proof (Z.div_mod (x + d) (2 ^ 32) ltac:(lia)) as H1.
  pose proof (Z.div_mod x (2 ^ 32) ltac:(lia)) as H2.
  rewrite Heq in H1.
  change (2 ^ 32) with 4294967296 in *. lia.
Qed.

Lemma sector0_words_change (s s' : list byte) (j : nat) :
  (j < 128)%nat -> j <> 3%nat ->
  (forall i, (i < 128)%nat -> i <> j -> word_at s' i = word_at s i) ->
  Spec.sum_words (Spec.sector0_words s')
  = Spec.sum_words (Spec.sector0_words s) + (word_at s' j - word_at s j).
Proof.
  intros Hj H3 Hagree. unfold Spec.sector0_words.
  apply sum_words_change.
  - apply NoDup_filter, seq_NoDup.
  - apply filter_In. split; [apply in_seq; lia|].
    apply negb_true_iff, Nat.eqb_neq, H3.
  - intros i Hi Hne. apply filter_In in Hi as (Hi & _).
    apply in_seq in Hi. apply Hagree; [lia | exact Hne].
Qed.

Lemma sector0_words_checksum_field (s s' : list byte) :
  (forall i, (i < 128)%nat -> i <> 3%nat -> word_at s' i = word_at s i) ->
  Spec.sector0_words s' = Spec.sector0_words s.
Proof.
  intros Hagree. unfold Spec.sector0_words.
  apply map_ext_in. intros i Hi.
  apply filter_In in Hi as (Hi & H3). apply in_seq in Hi.
  apply negb_true_iff, Nat.eqb_neq in H3.
  apply Hagree; [lia | exact H3].
Qed.

Lemma word_at_diff_range (m m' : list byte) (i : nat) :
  - 2 ^ 32 < word_at m' i - word_at m i < 2 ^ 32.
Proof.
  pose proof (word_at_range m i). pose proof (word_at_range m' i). lia.
Qed.

Lemma words_agree_dec (m m' : list byte) (j n : nat) :
  forallb (fun i => (i =? j)%nat || (word_at m' i =? word_at m i)) (seq 0 n)
  = true ->
  forall i, (i < n)%nat -> i <> j -> word_at m' i = word_at m i.
Proof.
  intros Hall i Hi Hne.
  rewrite forallb_forall in Hall.
  specialize (Hall i ltac:(apply in_seq; lia)).
  apply orb_true_iff in Hall as [He|He].
  - apply Nat.eqb_eq in He. contradiction.
  - apply Z.eqb_eq, He.
Qed.

(** ** Reading printed numbers back *)

Lemma hex_value_acc_upper d acc :
  hex_value_acc (Printf.map_string Printf.upcase
                   (HexadecimalString.NilEmpty.string_of_uint d)) (Z.pos acc)
  = Some (Z.pos (Pos.of_hex_uint_acc d acc)).
Proof.
  revert acc; induction d; intros acc; try reflexivity;
    cbn [HexadecimalString.NilEmpty.string_of_uint Printf.map_string
         hex_value_acc Pos.of_hex_uint_acc];
    match goal with
    | |- context [hex_digit_value ?c] =>
        let v := eval vm_compute in (hex_digit_value c) in
        change (hex_digit_value c) with v
    end; cbv iota; apply IHd.
Qed.

Lemma hex_value_acc_lower d acc :
  hex_value_acc (HexadecimalString.NilEmpty.string_of_uint d) (Z.pos acc)
  = Some (Z.pos (Pos.of_hex_uint_acc d acc)).
Proof.
  revert acc; induction d; intros acc; try reflexivity;
    cbn [HexadecimalString.NilEmpty.string_of_uint
         hex_value_acc Pos.of_hex_uint_acc];
    match goal with
    | |- context [hex_digit_value ?c] =>
        let v := eval vm_compute in (hex_digit_value c) in
        change (hex_digit_value c) with v
    end; cbv iota; apply IHd.
Qed.

Lemma hex_value_digits (upper : bool) d :
  hex_value (let digits := HexadecimalString.NilEmpty.string_of_uint d in
             if upper then Printf.map_string Printf.upcase digits else digits)
  = Some (Z.of_N (N.of_hex_uint d)).
Proof.
  unfold hex_value, N.of_hex_uint. cbv zeta.
  induction d; try reflexivity;
    try (destruct upper;
         cbn [HexadecimalString.NilEmpty.string_of_uint Printf.map_string
              hex_value_acc Pos.of_hex_uint];
         match goal with
         | |- context [hex_digit_value ?c] =>
             let v := eval vm_compute in (hex_digit_value c) in
             change (hex_digit_value c) with v
         end; cbv iota;
         first [ apply hex_value_acc_upper | apply hex_value_acc_lower ]).
  - destruct upper; reflexivity.
  - destruct upper;
      cbn [HexadecimalString.NilEmpty.string_of_uint Printf.map_string
           hex_value_acc Pos.of_hex_uint];
      match goal with
      | |- context [hex_digit_value ?c] =>
          let v := eval vm_compute in (hex_digit_value c) in
          change (hex_digit_value c) with v
      end; cbv iota; exact IHd.
Qed.

Lemma hex_value_acc_zeros k s :
  hex_value_acc (Printf.zeros k ++ s) 0 = hex_value_acc s 0.
Proof. induction k; [reflexivity | exact IHk]. Qed.

Lemma hex_value_fmt_x upper width v :
  0 <= v -> hex_value (Printf.fmt_x upper width v) = Some v.
Proof.
  intros Hv. unfold Printf.fmt_x, hex_value. cbv zeta.
  rewrite hex_value_acc_zeros.
  unfold HexadecimalString.NilZero.string_of_uint.
  pose proof (hex_value_digits upper (N.to_hex_uint (Z.to_N v))) as H.
  rewrite HexadecimalN.Unsigned.of_to, Z2N.id in H by exact Hv.
  unfold hex_value in H. cbv zeta in H.
  destruct (N.to_hex_uint (Z.to_N v)); try exact H.
  destruct upper; cbn in H |- *; exact H.
Qed.

Lemma hex_value_acc_hex_string s : forall acc v,
  hex_value_acc s acc = Some v -> hex_string s = true.
Proof.
  induction s as [|c s IH]; intros acc v H; [reflexivity|].
  cbn [hex_value_acc hex_string] in *.
  destruct (hex_digit_value c); [eauto | discriminate].
Qed.

Lemma hex_string_fmt_x upper width v :
  0 <= v -> hex_string (Printf.fmt_x upper width v) = true.
Proof.
  intros Hv. eapply hex_value_acc_hex_string.
  exact (hex_value_fmt_x upper width v Hv).
Qed.

Lemma string_append_assoc (a b c : string) :
  ((a ++ b) ++ c = a ++ (b ++ c))%string.
Proof. induction a; cbn; [reflexivity | now rewrite IHa]. Qed.

Lemma append_inv_head (p a b : string) :
  (p ++ a = p ++ b)%string -> a = b.
Proof. induction p; cbn; intros H; [exact H | injection H; auto]. Qed.

Lemma concat_empty_cons x xs :
  String.concat EmptyString (x :: xs)
  = (x ++ String.concat EmptyString xs)%string.
Proof.
  destruct xs; cbn [String.concat]; [|reflexivity].
  induction x; cbn; [reflexivity | now rewrite <- IHx].
Qed.

(** A run of hexadecimal digits ends at the first newline. *)
Lemma hex_line_split a : forall a' r r',
  hex_string a = true -> hex_string a' = true ->
  (a ++ Printf.NL ++ r = a' ++ Printf.NL ++ r')%string ->
  a = a' /\ r = r'.
Proof.
  induction a as [|c a IH]; intros [|c' a'] r r' Ha Ha' H; cbn in H.
  - injection H as H. auto.
  - injection H as Hc H. subst c'. cbn in Ha'. discriminate.
  - injection H as Hc H. subst c. cbn in Ha. discriminate.
  - injection H as Hc H. subst c'.
    cbn [hex_string] in Ha, Ha'.
    destruct (hex_digit_value c); [|discriminate].
    destruct (IH a' r r' Ha Ha' H) as [-> ->]. auto.
Qed.

Lemma raw_lines_determine_words (raw raw' : dram_raw) (idx : list nat) :
  (forall i, In i idx -> 0 <= nth i raw 0 /\ 0 <= nth i raw' 0) ->
  String.concat EmptyString (map (raw_line raw) idx)
  = String.concat EmptyString (map (raw_line raw') idx) ->
  forall i, In i idx -> nth i raw 0 = nth i raw' 0.
Proof.
  induction idx as [|j idx IH]; intros Hpos H i Hi; [destruct Hi|].
  cbn [map] in H. rewrite !concat_empty_cons in H.
  unfold raw_line at 1 3 in H.
  rewrite !string_append_assoc in H.
  apply append_inv_head in H.
  apply append_inv_head in H.
  apply append_inv_head in H.
  apply append_inv_head in H.
  destruct (Hpos j (or_introl eq_refl)) as [Hj Hj'].
  apply hex_line_split in H;
    [| apply hex_string_fmt_x; assumption
     | apply hex_string_fmt_x; assumption ].
  destruct H as [Hd Hrest].
  destruct Hi as [<- | Hi].
  - pose proof (hex_value_fmt_x true 8 _ Hj) as E.
    pose proof (hex_value_fmt_x true 8 _ Hj') as E'.
    rewrite Hd in E. congruence.
  - apply IH; auto. intros k Hk. apply Hpos. now right.
Qed.

Lemma string_length_append (a b : string) :
  String.length (a ++ b) = (String.length a + String.length b)%nat.
Proof. induction a; cbn; [reflexivity | now rewrite IHa]. Qed.

Lemma length_zeros k : String.length (Printf.zeros k) = k.
Proof. induction k; cbn; [reflexivity | now rewrite IHk]. Qed.

Lemma length_map_string f s :
  String.length (Printf.map_string f s) = String.length s.
Proof. induction s; cbn; [reflexivity | now rewrite IHs]. Qed.

Lemma length_hex_digits d :
  String.length (HexadecimalString.NilEmpty.string_of_uint d)
  = Hexadecimal.nb_digits d.
Proof. induction d; cbn; try reflexivity; now rewrite IHd. Qed.

Lemma of_hex_uint_acc_lower_bound d : forall acc,
  16 ^ Z.of_nat (Hexadecimal.nb_digits d) * Z.pos acc
  <= Z.pos (Pos.of_hex_uint_acc d acc).
Proof.
  induction d; intros acc;
    cbn [Hexadecimal.nb_digits Pos.of_hex_uint_acc];
    try (cbn; lia);
    rewrite Nat2Z.inj_succ, Z.pow_succ_r by lia;
    (eapply Z.le_trans; [|apply IHd]);
    assert (0 < 16 ^ Z.of_nat (Hexadecimal.nb_digits d))
      by (apply Z.pow_pos_nonneg; lia);
    nia.
Qed.

Lemma nzhead_not_D0 d d' : Hexadecimal.nzhead d <> Hexadecimal.D0 d'.
Proof. induction d; cbn; try discriminate; exact IHd. Qed.

Lemma nb_digits_to_hex_uint (n : N) :
  (n < 16 ^ 8)%N ->
  (String.length (HexadecimalString.NilZero.string_of_uint (N.to_hex_uint n))
   <= 8)%nat.
Proof.
  intros Hn.
  pose proof (HexadecimalN.Unsigned.of_to n) as Hof.
  pose proof (HexadecimalN.Unsigned.to_of (N.to_hex_uint n)) as Hnorm.
  rewrite Hof in Hnorm.
  remember (N.to_hex_uint n) as d eqn:Hd. clear Hd.
  unfold HexadecimalString.NilZero.string_of_uint.
  assert (Hbound : forall l acc,
            N.pos (Pos.of_hex_uint_acc l acc) = n ->
            (Hexadecimal.nb_digits l < 8)%nat).
  { intros l acc E.
    pose proof (of_hex_uint_acc_lower_bound l acc) as Hl.
    assert (Z.pos (Pos.of_hex_uint_acc l acc) < 16 ^ 8).
    { change (Z.pos (Pos.of_hex_uint_acc l acc))
        with (Z.of_N (N.pos (Pos.of_hex_uint_acc l acc))).
      rewrite E. change (16 ^ 8) with (Z.of_N (16 ^ 8)). lia. }
    destruct (Nat.lt_ge_cases (Hexadecimal.nb_digits l) 8) as [|Hge]; [assumption|].
    exfalso.
    assert (16 ^ 8 <= 16 ^ Z.of_nat (Hexadecimal.nb_digits l))
      by (apply Z.pow_le_mono_r; lia).
    nia. }
  destruct d; cbn [String.length HexadecimalString.NilEmpty.string_of_uint];
    try (cbn; lia);
    try (rewrite length_hex_digits;
         unfold N.of_hex_uint in Hof; cbn [Pos.of_hex_uint] in Hof;
         specialize (Hbound _ _ Hof); lia).
  (* D0 *)
  unfold Hexadecimal.unorm in Hnorm. cbn [Hexadecimal.nzhead] in Hnorm.
  destruct (Hexadecimal.nzhead d) eqn:Hz;
    try discriminate Hnorm.
  - injection Hnorm as E. subst d. cbn. lia.
  - exfalso. exact (nzhead_not_D0 d _ Hz).
Qed.

Lemma length_fmt_x_8 upper v :
  0 <= v < 2 ^ 32 -> String.length (Printf.fmt_x upper 8 v) = 8%nat.
Proof.
  intros Hv. unfold Printf.fmt_x. cbv zeta.
  rewrite string_length_append, length_zeros.
  assert (H : (String.length
                 (HexadecimalString.NilZero.string_of_uint
                    (N.to_hex_uint (Z.to_N v))) <= 8)%nat).
  { apply nb_digits_to_hex_uint.
    change (16 ^ 8)%N with (Z.to_N (2 ^ 32)). lia. }
  destruct upper; [rewrite length_map_string|]; lia.
Qed.

Lemma upper_hex_digits d :
  upper_hex_string (Printf.map_string Printf.upcase
                      (HexadecimalString.NilEmpty.string_of_uint d)) = true.
Proof. induction d; try reflexivity; exact IHd. Qed.

Lemma upper_hex_string_app a b :
  upper_hex_string a = true -> upper_hex_string b = true ->
  upper_hex_string (a ++ b) = true.
Proof.
  induction a; cbn; intros Ha Hb; [exact Hb|].
  apply andb_true_iff in Ha as [Hc Ha]. rewrite Hc. cbn. auto.
Qed.

Lemma upper_hex_zeros k : upper_hex_string (Printf.zeros k) = true.
Proof. induction k; [reflexivity | exact IHk]. Qed.

Lemma upper_hex_fmt_x width v :
  upper_hex_string (Printf.fmt_x true width v) = true.
Proof.
  unfold Printf.fmt_x. cbv zeta.
  apply upper_hex_string_app; [apply upper_hex_zeros|].
  destruct (N.to_hex_uint (Z.to_N v)); [reflexivity | ..];
    match goal with
    | |- context [HexadecimalString.NilZero.string_of_uint ?x] =>
        exact (upper_hex_digits x)
    end.
Qed.

Lemma shows_08X_fmt_x v :
  0 <= v < 2 ^ 32 -> shows_08X (Printf.fmt_x true 8 v) v.
Proof.
  intros Hv. split; [apply length_fmt_x_8; exact Hv|].
  split; [apply upper_hex_fmt_x | apply hex_value_fmt_x; lia].
Qed.

Lemma dec_value_fmt_int z : dec_value (Printf.fmt_int z) = Some z.
Proof.
  unfold dec_value, Printf.fmt_int.
  rewrite DecimalString.NilZero.isi.
  - cbn [option_map]. now rewrite DecimalZ.of_to.
  - destruct z; cbn; try discriminate;
      intros E; injection E as E; exact (DecimalPos.Unsigned.to_uint_nonnil _ E).
  - destruct z; cbn; try discriminate;
      intros E; injection E as E; exact (DecimalPos.Unsigned.to_uint_nonnil _ E).
Qed.

Lemma render_all_one (m : msg) : Printf.render_all [m] = Printf.render m.
Proof. reflexivity. Qed.

Lemma filter_verdict_validator_msgs (diag : list msg) :
  forallb validator_msg diag = true -> filter verdict_line diag = [].
Proof.
  induction diag as [|m diag IH]; cbn [forallb filter]; intros H;
    [reflexivity|].
  apply andb_true_iff in H as (Hm & Hd).
  destruct m; try discriminate Hm; cbn [verdict_line]; auto.
Qed.

(** The array of the secondary header, for a header size of 48: words 14
    to 45 of sector 0. *)
Lemma dram_param_at_48 (s : list byte) :
  dram_param_at s 48 = map (word_at s) (seq 14 32).
Proof.
  unfold dram_param_at, EGON_DRAM_PARAM_COUNT.
  change (seq 14 32) with (seq (14 + 0) 32).
  rewrite <- (map_seq_add (word_at s) 14 32 0).
  apply map_ext. intros i. unfold word_at. f_equal.
  change (Z.to_nat (48 + 8)) with 56%nat. lia.
Qed.

Lemma reference_checksum_range (sector0 rest : list byte) (fs : Z) :
  0 <= Spec.reference_checksum sector0 rest fs < 2 ^ 32.
Proof. unfold Spec.reference_checksum. apply Z.mod_pos_bound. lia. Qed.

(** * The claims *)

(** C1. When every sector the header's file size calls for can be read in
    full, the sum [egon_checksum_verify] holds at the end of its second
    loop is the reference checksum of the specification: the seed
    0x5f0a6c39, plus the 128 little-endian words of sector 0 without word
    3, plus the 128 words of every later sector that starts before
    [filesize], modulo 2^32.  That sum is what the function compares with
    the header's checksum field and shows in its message. *)
Theorem egon_checksum_verify_reference (header : egon_header)
    (sector0 : list byte) (w : world) :
  let n := List.length (Spec.later_sectors (filesize header)) in
  let reference :=
    Spec.reference_checksum sector0 (content (inf w)) (filesize header) in
  (512 * n <= List.length (content (inf w)))%nat ->
  checksum_stream (Z.to_nat (filesize header)) header SECTOR_SIZE
    (checksum_sector0 sector0) w
  = (Some (inr reference), after_reads n w)
  /\ egon_checksum_verify header sector0 w
     = (Some 0,
        {| inf := inf (after_reads n w);
           calls := calls (after_reads n w);
           out := out w ++ [if reference =? checksum header
                            then Checksum_matches
                            else Checksum_mismatch reference (checksum header)]
        |}).
Proof.
  intros n reference Hlen. split.
  - apply checksum_stream_reference. exact Hlen.
  - apply egon_checksum_verify_full. exact Hlen.
Qed.

(** C1 on the sample sector 0 followed by seven sectors of zeros. *)
Lemma egon_checksum_verify_reference_witness :
  let sector0 := Sample.sector0 EGON_MAGIC_0 0 4096 48 Sample.dram_h6 in
  let w := start (Sample.zeros 3584) EmptyString in
  (512 * List.length (Spec.later_sectors 4096) <= 3584)%nat
  /\ egon_checksum_verify (egon_header_at sector0) sector0 w
     = (Some 0,
        {| inf := {| content := []; strerror_errno := EmptyString |};
           calls := repeat (Fread 4 128) 7;
           out := [Checksum_mismatch 3350071021 0] |}).
Proof.
  cbv zeta.
  assert (H : (512 * List.length (Spec.later_sectors 4096) <= 3584)%nat)
    by (apply Nat.leb_le; vm_compute; reflexivity).
  split; [exact H|].
  etransitivity;
    [ exact (proj2 (egon_checksum_verify_reference
                      (egon_header_at
                         (Sample.sector0 EGON_MAGIC_0 0 4096 48 Sample.dram_h6))
                      (Sample.sector0 EGON_MAGIC_0 0 4096 48 Sample.dram_h6)
                      (start (Sample.zeros 3584) EmptyString) H))
    | vm_compute; reflexivity ].
Defined.

(** C2: the code at two magics.  The magic check is
    [memcmp(header->magic, EGON_MAGIC_0, 8) > 0]: the recognized constant
    "eGON.BT1" compares greater than "eGON.BT0" and is rejected with the
    wrong-magic message, and a magic that is neither constant but compares
    smaller, here "AAAAAAAA", is accepted: the seek is made and 7 sectors
    are reported. *)
Theorem magic_check_is_an_order_test :
  0 < memcmp EGON_MAGIC_1 EGON_MAGIC_0 8
  /\ output_boot0_info Sample.pseek_file
       (Sample.sector0 EGON_MAGIC_1 0 4096 48 Sample.dram_h6) false
       (start (Sample.zeros 3584) EmptyString)
     = (Some 0,
        {| inf := {| content := Sample.zeros 3584;
                     strerror_errno := EmptyString |};
           calls := [];
           out := [Wrong_magic EGON_MAGIC_1] |})
  /\ memcmp Sample.magic_AAAAAAAA EGON_MAGIC_0 8 < 0
  /\ Sample.magic_AAAAAAAA <> EGON_MAGIC_0
  /\ Sample.magic_AAAAAAAA <> EGON_MAGIC_1
  /\ output_boot0_info Sample.pseek_file
       (Sample.sector0 Sample.magic_AAAAAAAA 0 4096 48 Sample.dram_h6) false
       (start (Sample.zeros 3584) EmptyString)
     = (Some 7,
        {| inf := {| content := []; strerror_errno := EmptyString |};
           calls := [Pseek 3584];
           out := [] |}).
Proof.
  repeat split; try (vm_compute; reflexivity); vm_compute; discriminate.
Qed.

(** C3. For every 32-word array, the print function [output_boot0_info]
    runs (lines 646-657) is the one of the layout found by trying H6, then
    A31, then A10, then H616 and taking the first whose plausibility
    predicates all hold, [dram_param_raw_print] when none does; the code
    tries A10 first, which gives the same choice.  In particular an array
    that satisfies both the H6 and the A31 predicates is printed as H6. *)
Theorem detector_follows_spec_order (raw : dram_raw) (w : world) :
  let w' := snd (dram_param_report raw w) in
  (exists diag,
      forallb validator_msg diag = true
      /\ w' = {| inf := inf w;
                 calls := calls w;
                 out := out w ++ Looking_for_dram :: diag
                        ++ [Dram_print (Spec.identify raw) raw] |})
  /\ printed (out w') = printed (out w) ++ [Spec.identify raw]
  /\ (Spec.h6_plausible raw -> Spec.a31_plausible raw ->
      printed (out w') = printed (out w) ++ [H6]).
Proof.
  cbv zeta.
  destruct (dram_param_report_code_order raw w) as (diag & Hdiag & Hrun).
  rewrite first_plausible_orders in Hrun. rewrite Hrun. cbn [snd out].
  assert (Hprinted :
           printed (out w ++ Looking_for_dram :: diag
                    ++ [Dram_print (Spec.identify raw) raw])
           = printed (out w) ++ [Spec.identify raw]).
  { rewrite printed_app. f_equal.
    change (Looking_for_dram :: diag ++ [Dram_print (Spec.identify raw) raw])
      with ([Looking_for_dram] ++ diag ++ [Dram_print (Spec.identify raw) raw]).
    rewrite !printed_app, (printed_validator_msgs diag Hdiag). reflexivity. }
  split; [exists diag; split; [exact Hdiag | reflexivity] |].
  split; [exact Hprinted |].
  intros Hh6 _. rewrite Hprinted. do 2 f_equal.
  unfold Spec.identify. cbn [Spec.first_plausible].
  apply (plausibleb_spec H6) in Hh6. rewrite Hh6. reflexivity.
Qed.

(** C3 on the array of the specification's example: clock 200, type 3,
    odt_en 0, bits 16. *)
Lemma detector_follows_spec_order_witness :
  Spec.h6_plausible Sample.dram_h6
  /\ Spec.a31_plausible Sample.dram_h6
  /\ printed (out (snd (dram_param_report Sample.dram_h6
                          (start [] EmptyString)))) = [H6].
Proof.
  assert (Hh6 : Spec.h6_plausible Sample.dram_h6)
    by (apply (plausibleb_spec H6); vm_compute; reflexivity).
  assert (Ha31 : Spec.a31_plausible Sample.dram_h6)
    by (apply (plausibleb_spec A31); vm_compute; reflexivity).
  split; [exact Hh6 |]. split; [exact Ha31 |].
  exact (proj2 (proj2 (detector_follows_spec_order Sample.dram_h6
                         (start [] EmptyString))) Hh6 Ha31).
Defined.

(** C4. Each validator returns 0 exactly when the predicates the
    specification tabulates for its layout hold on the array read through
    that layout's struct; a validator that does not return 0 returns -1.
    For H616: clk (word 0) in [100,1200], type (word 1) one of 2, 3, 4, 6,
    7, 8, and dx_odt (word 2) and dx_dri (word 3) without a bit of
    0xF0F0F0F0.  For H6: clk (word 0) in [100,1000], type (word 1) one of
    2, 3, 6, 7, odt_en (word 3) 0 or 1, bits (word 27) 16 or 32. *)
Theorem validators_accept_iff_plausible (raw : dram_raw) (w : world) :
  (fst (dram_param_a10_validate raw w) = 0 <-> Spec.a10_plausible raw)
  /\ (fst (dram_param_a31_validate raw w) = 0 <-> Spec.a31_plausible raw)
  /\ (fst (dram_param_h616_validate raw w) = 0
      <-> 100 <= dram_param_h616.clk raw <= 1200
          /\ In (dram_param_h616.type raw) [2; 3; 4; 6; 7; 8]
          /\ Z.land (dram_param_h616.dx_odt raw) 0xF0F0F0F0 = 0
          /\ Z.land (dram_param_h616.dx_dri raw) 0xF0F0F0F0 = 0)
  /\ (fst (dram_param_h6_validate raw w) = 0
      <-> 100 <= dram_param_h6.clk raw <= 1000
          /\ In (dram_param_h6.type raw) [2; 3; 6; 7]
          /\ In (dram_param_h6.odt_en raw) [0; 1]
          /\ In (dram_param_h6.bits raw) [16; 32])
  /\ (dram_param_h616.clk raw = nth 0 raw 0
      /\ dram_param_h616.type raw = nth 1 raw 0
      /\ dram_param_h616.dx_odt raw = nth 2 raw 0
      /\ dram_param_h616.dx_dri raw = nth 3 raw 0)
  /\ (dram_param_h6.clk raw = nth 0 raw 0
      /\ dram_param_h6.type raw = nth 1 raw 0
      /\ dram_param_h6.odt_en raw = nth 3 raw 0
      /\ dram_param_h6.bits raw = nth 27 raw 0)
  /\ In (fst (dram_param_a10_validate raw w)) [0; -1]
  /\ In (fst (dram_param_a31_validate raw w)) [0; -1]
  /\ In (fst (dram_param_h616_validate raw w)) [0; -1]
  /\ In (fst (dram_param_h6_validate raw w)) [0; -1].
Proof.
  split; [apply dram_param_a10_validate_ok |].
  split; [apply dram_param_a31_validate_ok |].
  split; [apply dram_param_h616_validate_ok |].
  split; [apply dram_param_h6_validate_ok |].
  split; [repeat split |]. split; [repeat split |].
  unfold dram_param_a10_validate, dram_param_a31_validate,
    dram_param_h616_validate, dram_param_h6_validate.
  repeat split; run_validator; cbn [In]; auto.
Qed.

(** C5, as the code has it.  In verbose mode, on a header that passes the
    four checks, a read that delivers between 1 and 127 items ends the
    inspection:
    [egon_checksum_verify] writes the cause ([strerror(errno)]) and the
    number of items the read delivered, no checksum verdict and no DRAM
    parameter report follow, and [output_boot0_info] returns 0.  Here [k]
    sectors were read in full before the short read, which is the one at
    byte offset [512 + 512 * k] of the image. *)
Theorem short_read_aborts (pseek : FILE -> Z -> Z * FILE)
    (sector : list byte) (w : world) (k : nat) :
  let h := egon_header_at sector in
  let len := List.length (content (inf w)) in
  let r := Z.of_nat ((len - 512 * k) / 4) in
  passes_header_checks h ->
  512 + 512 * Z.of_nat k < filesize h ->
  (512 * k <= len < 512 * k + 512)%nat ->
  0 < r ->
  r < 128
  /\ output_boot0_info pseek sector true w
     = (Some 0,
        {| inf := inf (after_reads (S k) w);
           calls := calls (after_reads (S k) w);
           out := out w
                  ++ [Found_header;
                      Filesize_kB (Z.shiftr (filesize h) 10);
                      Fread_failed (strerror_errno (inf w)) r] |})
  /\ printed (out (snd (output_boot0_info pseek sector true w)))
     = printed (out w)
  /\ Printf.render (Fread_failed (strerror_errno (inf w)) r)
     = ("Error: egon_checksum_verify(): fread failed: "
        ++ strerror_errno (inf w) ++ " (" ++ Printf.fmt_int r ++ ")"
        ++ Printf.NL)%string.
Proof.
  intros h len r Hvalid Hoff Hlen Hr.
  split.
  { subst r. apply Nat2Z.inj_lt with (m := 128%nat).
    apply Nat.Div0.div_lt_upper_bound. lia. }
  assert (Hrun :
           output_boot0_info pseek sector true w
           = (Some 0,
              {| inf := inf (after_reads (S k) w);
                 calls := calls (after_reads (S k) w);
                 out := out w
                        ++ [Found_header;
                            Filesize_kB (Z.shiftr (filesize h) 10);
                            Fread_failed (strerror_errno (inf w)) r] |})).
  2: { split; [exact Hrun|]. split; [|reflexivity].
       rewrite Hrun. cbn [snd out]. rewrite printed_app.
       apply app_nil_r. }
  rewrite (output_boot0_info_verbose pseek sector w Hvalid). fold h. cbv zeta.
  unfold egon_checksum_verify, bind at 1.
  rewrite (checksum_stream_short h k).
  - cbn [inf content strerror_errno calls out]. fold len r.
    unfold ret.
    destruct (Z.eqb_spec r 0) as [He|_]; [lia|].
    cbn [negb]. unfold after_reads. cbn [inf calls out].
    rewrite <- app_assoc. reflexivity.
  - lia.
  - unfold SECTOR_SIZE. lia.
  - exact Hlen.
  - apply checksum_sector0_range.
Qed.

(** C5 on the sample image cut eight bytes into its second sector: the
    read at offset 1024 delivers 2 items. *)
Lemma short_read_aborts_witness :
  let w := start (Sample.zeros 520) "Input/output error" in
  passes_header_checks (egon_header_at Sample.boot0_sector)
  /\ 512 + 512 * 1 < 4096
  /\ (512 * 1 <= 520 < 512 * 1 + 512)%nat
  /\ 0 < Z.of_nat ((520 - 512 * 1) / 4)
  /\ output_boot0_info Sample.pseek_file Sample.boot0_sector true w
     = (Some 0,
        {| inf := {| content := [];
                     strerror_errno := "Input/output error" |};
           calls := [Fread 4 128; Fread 4 128];
           out := [Found_header; Filesize_kB 4;
                   Fread_failed "Input/output error" 2] |}).
Proof.
  cbv zeta.
  assert (Hvalid : passes_header_checks (egon_header_at Sample.boot0_sector))
    by (repeat split; vm_compute; (reflexivity || discriminate)).
  split; [exact Hvalid |].
  split; [reflexivity |].
  split; [split; apply Nat.leb_le; vm_compute; reflexivity |].
  split; [reflexivity |].
  etransitivity;
    [ refine (proj1 (proj2 (short_read_aborts Sample.pseek_file
                              Sample.boot0_sector
                              (start (Sample.zeros 520) "Input/output error")
                              1 Hvalid _ _ _)));
      [ vm_compute; reflexivity
      | split; apply Nat.leb_le; vm_compute; reflexivity
      | vm_compute; reflexivity ]
    | vm_compute; reflexivity ].
Defined.

(** The read that delivers no item, in general: when the stream ends
    within three bytes of a sector boundary inside the image,
    [egon_checksum_verify] returns the 0 items of its last read, which
    [output_boot0_info] takes for success. *)
Lemma read_of_no_item_is_taken_for_success (pseek : FILE -> Z -> Z * FILE)
    (sector : list byte) (w : world) (k : nat) :
  let h := egon_header_at sector in
  let len := List.length (content (inf w)) in
  let raw := dram_param_at sector 48 in
  passes_header_checks h ->
  512 + 512 * Z.of_nat k < filesize h ->
  (512 * k <= len < 512 * k + 4)%nat ->
  exists diag,
    forallb validator_msg diag = true
    /\ output_boot0_info pseek sector true w
       = (Some (filesize h / 512 - 1),
          {| inf := inf (after_reads (S k) w);
             calls := calls (after_reads (S k) w);
             out := out w
                    ++ [Found_header;
                        Filesize_kB (Z.shiftr (filesize h) 10);
                        Fread_failed (strerror_errno (inf w)) 0;
                        Looking_for_dram]
                    ++ diag
                    ++ [Dram_print (Spec.identify raw) raw] |}).
Proof.
  intros h len raw Hvalid Hoff Hlen.
  rewrite (output_boot0_info_verbose pseek sector w Hvalid). fold h. cbv zeta.
  unfold egon_checksum_verify, bind at 1.
  rewrite (checksum_stream_short h k).
  - cbn [inf content strerror_errno calls out]. fold len.
    replace ((len - 512 * k) / 4)%nat with 0%nat
      by (symmetry; apply Nat.div_small; lia).
    unfold ret. change (negb (Z.of_nat 0 =? 0)) with false. cbv iota.
    match goal with
    | |- context [dram_param_report ?r ?w2] =>
        destruct (detector_report_shape r w2) as (diag & Hdiag & Hrep)
    end.
    exists diag. split; [exact Hdiag|].
    rewrite Hrep. cbn [snd inf calls out]. unfold after_reads.
    cbn [inf calls out content strerror_errno].
    rewrite <- !app_assoc. reflexivity.
  - lia.
  - unfold SECTOR_SIZE. lia.
  - cbn [inf content]. fold len. lia.
  - apply checksum_sector0_range.
Qed.

(** C5: the code at a read of zero words.  On the sample header, whose
    file size calls for seven sectors after sector 0, and a stream that
    holds one: the second read returns no word, [egon_checksum_verify]
    writes the fread line and returns the 0 items of that read (line 100),
    and [output_boot0_info] takes the 0 for success (line 643): the DRAM
    parameter report is printed and the result is 7, where a read of 1 to
    127 words ends the inspection with 0 ([short_read_aborts]).  The
    fread line carries the number of items, not a byte offset: a read of
    two words at offset 512 and one at offset 1024 write the same line. *)
Lemma short_read_of_no_item_goes_on :
  output_boot0_info Sample.pseek_file Sample.boot0_sector true
    (start (Sample.zeros 512) "Success")
  = (Some 7,
     {| inf := {| content := []; strerror_errno := "Success" |};
        calls := [Fread 4 128; Fread 4 128];
        out := [Found_header; Filesize_kB 4; Fread_failed "Success" 0;
                Looking_for_dram;
                Wrong_field "Invalid structure for A10/A10s/A13/A20"
                  "baseaddr" 200;
                Seem_valid "H6";
                Dram_print H6 Sample.dram_h6] |})
  /\ printed (out (snd (output_boot0_info Sample.pseek_file
                          Sample.boot0_sector true
                          (start (Sample.zeros 512) "Success")))) = [H6]
  /\ out (snd (output_boot0_info Sample.pseek_file Sample.boot0_sector true
                 (start (Sample.zeros 8) "Success")))
     = [Found_header; Filesize_kB 4; Fread_failed "Success" 2]
  /\ out (snd (output_boot0_info Sample.pseek_file Sample.boot0_sector true
                 (start (Sample.zeros 520) "Success")))
     = [Found_header; Filesize_kB 4; Fread_failed "Success" 2].
Proof. repeat split; vm_compute; reflexivity. Qed.

(** C6, as the code has it.  On a valid boot0 header in non-verbose mode
    [output_boot0_info] calls [pseek] once, forward by [filesize - 512]
    bytes, writes nothing, and returns [filesize / 512 - 1] when [pseek]
    returns 0, and 0 when it does not. *)
Theorem quiet_mode_seeks_once (pseek : FILE -> Z -> Z * FILE)
    (sector : list byte) (w : world) :
  let h := egon_header_at sector in
  let run := output_boot0_info pseek sector false w in
  Spec.valid_boot0_header h ->
  run = (Some (if fst (pseek (inf w) (filesize h - 512)) =? 0
               then filesize h / 512 - 1 else 0),
         {| inf := snd (pseek (inf w) (filesize h - 512));
            calls := calls w ++ [Pseek (filesize h - 512)];
            out := out w |})
  /\ seeks (calls (snd run)) = seeks (calls w) ++ [filesize h - 512]
  /\ 0 < filesize h - 512
  /\ 7 <= filesize h / 512 - 1.
Proof.
  intros h run Hvalid. subst run.
  rewrite (output_boot0_info_quiet pseek sector w
             (valid_boot0_header_passes _ Hvalid)). fold h.
  split; [reflexivity|].
  split.
  { cbn [snd calls]. unfold seeks. rewrite flat_map_app. reflexivity. }
  pose proof (filesize_range sector) as Hrange. fold h in Hrange.
  destruct Hvalid as (_ & _ & Hpos & Halign).
  destruct (sectors_left_value (filesize h)) as (_ & Hleft); [lia | exact Halign |].
  split; [|exact Hleft].
  apply Z.mod_divide in Halign; [|lia].
  destruct Halign as [q Hq]. lia.
Qed.

(** C6 on the sample image, whole: one seek of 3584 bytes, result 7. *)
Lemma quiet_mode_seeks_once_witness :
  let w := start (Sample.zeros 3584) EmptyString in
  Spec.valid_boot0_header (egon_header_at Sample.boot0_sector)
  /\ output_boot0_info Sample.pseek_file Sample.boot0_sector false w
     = (Some 7,
        {| inf := {| content := []; strerror_errno := EmptyString |};
           calls := [Pseek 3584];
           out := [] |}).
Proof.
  cbv zeta.
  assert (Hvalid : Spec.valid_boot0_header (egon_header_at Sample.boot0_sector))
    by (repeat split; vm_compute; reflexivity).
  split; [exact Hvalid |].
  etransitivity;
    [ exact (proj1 (quiet_mode_seeks_once Sample.pseek_file
                      Sample.boot0_sector
                      (start (Sample.zeros 3584) EmptyString) Hvalid))
    | vm_compute; reflexivity ].
Defined.

(** C6 as stated fails: on a valid boot0 header of file size 4096 whose
    file ends one byte early, the seek of 3584 bytes is made and fails, and
    the result is 0, not 4096 / 512 - 1 = 7. *)
Lemma quiet_mode_failed_seek_returns_0 :
  Spec.valid_boot0_header (egon_header_at Sample.boot0_sector)
  /\ filesize (egon_header_at Sample.boot0_sector) / 512 - 1 = 7
  /\ fst (output_boot0_info Sample.pseek_file Sample.boot0_sector false
            (start (Sample.zeros 3583) EmptyString)) = Some 0
  /\ output_boot0_info Sample.pseek_file Sample.boot0_sector false
       (start (Sample.zeros 3583) EmptyString)
     = (Some 0,
        {| inf := {| content := Sample.zeros 3583;
                     strerror_errno := EmptyString |};
           calls := [Pseek 3584];
           out := [] |}).
Proof. repeat split; vm_compute; reflexivity. Qed.

(** C7: the code at a magic mismatch with every other field valid.  In
    verbose mode a sector 0 whose magic is eight zero bytes, with header
    size 48 and file size 4096, is inspected like a valid image: no
    wrong-magic message, the checksum is verified, the DRAM parameters are
    reported, and the result is 7, not 0. *)
Theorem magic_mismatch_is_not_rejected :
  let sector := Sample.sector0 (Sample.zeros 8) 0 4096 48 Sample.dram_h6 in
  magic (egon_header_at sector) <> EGON_MAGIC_0
  /\ magic (egon_header_at sector) <> EGON_MAGIC_1
  /\ header_size (egon_header_at sector) = 48
  /\ filesize (egon_header_at sector) = 4096
  /\ output_boot0_info Sample.pseek_file sector true
       (start (Sample.zeros 3584) EmptyString)
     = (Some 7,
        {| inf := {| content := []; strerror_errno := EmptyString |};
           calls := repeat (Fread 4 128) 7;
           out := [Found_header; Filesize_kB 4;
                   Checksum_mismatch 0x490a7d5a 0;
                   Looking_for_dram;
                   Wrong_field "Invalid structure for A10/A10s/A13/A20"
                     "baseaddr" 200;
                   Seem_valid "H6";
                   Dram_print H6 Sample.dram_h6] |}).
Proof.
  cbv zeta. repeat split; try (vm_compute; reflexivity);
    vm_compute; discriminate.
Qed.

(** The other three violations of C7, for any sector 0 whose magic the
    check lets through and in either mode: each is rejected with its own
    message and a result of 0, with nothing read or skipped. *)
Lemma size_violations_are_soft_failures (pseek : FILE -> Z -> Z * FILE)
    (sector : list byte) (verbose : bool) (w : world) :
  let h := egon_header_at sector in
  let reject m :=
    output_boot0_info pseek sector verbose w
    = (Some 0, {| inf := inf w; calls := calls w; out := out w ++ [m] |}) in
  magic h = EGON_MAGIC_0 ->
  (header_size h <> 48 -> reject (Header_size_mismatch (header_size h)))
  /\ (header_size h = 48 -> filesize h mod 4096 <> 0 ->
      reject (Filesize_not_multiple (filesize h)))
  /\ (header_size h = 48 -> filesize h = 0 ->
      reject (Filesize_empty (filesize h))).
Proof.
  intros h reject Hmagic.
  destruct (output_boot0_info_rejects pseek sector verbose w)
    as (_ & Hsize & Halign & Hempty).
  fold h in Hsize, Halign, Hempty. cbv zeta in Hsize, Halign, Hempty.
  assert (Hm : memcmp (magic h) EGON_MAGIC_0 8 <= 0)
    by (rewrite Hmagic; vm_compute; discriminate).
  subst reject. cbv beta. auto.
Qed.

(** C8. In verbose mode, on a header that passes the four checks (every
    valid boot0 header does, [valid_boot0_header_passes]), when every
    sector of the image is read in full and the accumulated sum differs
    from the header's checksum field, [output_boot0_info] writes the
    mismatch line, whose text gives the accumulated sum and then the
    checksum field, each as eight upper-case hexadecimal digits after
    [0x]; it goes on to the DRAM parameter array of the secondary header,
    which is the 32 words at byte 56 of sector 0 (words 14 to 45: the 48
    bytes of the header and the two 4-byte fields that start the secondary
    header come first), with the validators' messages and one print
    function on that array; and it returns [filesize / 512 - 1]. *)
Theorem checksum_mismatch_is_warning (pseek : FILE -> Z -> Z * FILE)
    (sector : list byte) (w : world) :
  let h := egon_header_at sector in
  let n := Z.to_nat (filesize h / 512 - 1) in
  let sum := Spec.reference_checksum sector (content (inf w)) (filesize h) in
  let raw := map (word_at sector) (seq 14 32) in
  passes_header_checks h ->
  (512 * n <= List.length (content (inf w)))%nat ->
  sum <> checksum h ->
  exists (diag : list msg) (hsum hdecl : string),
    computed_checksum sector (content (inf w)) = Some sum
    /\ forallb validator_msg diag = true
    /\ output_boot0_info pseek sector true w
       = (Some (filesize h / 512 - 1),
          {| inf := inf (after_reads n w);
             calls := calls (after_reads n w);
             out := out w
                    ++ [Found_header;
                        Filesize_kB (Z.shiftr (filesize h) 10);
                        Checksum_mismatch sum (checksum h);
                        Looking_for_dram]
                    ++ diag
                    ++ [Dram_print (Spec.identify raw) raw] |})
    /\ Printf.render (Checksum_mismatch sum (checksum h))
       = ("eGON checksum mismatch: 0x" ++ hsum
          ++ " vs 0x" ++ hdecl ++ Printf.NL)%string
    /\ shows_08X hsum sum
    /\ shows_08X hdecl (checksum h).
Proof.
  intros h n sum raw Hvalid Hlen Hne.
  assert (Hn : List.length (Spec.later_sectors (filesize h)) = n).
  { destruct Hvalid as (_ & _ & Hpos & Halign).
    apply later_sectors_aligned; assumption. }
  assert (Hrun :
    exists diag,
      forallb validator_msg diag = true
      /\ output_boot0_info pseek sector true w
         = (Some (filesize h / 512 - 1),
            {| inf := inf (after_reads n w);
               calls := calls (after_reads n w);
               out := out w
                      ++ [Found_header;
                          Filesize_kB (Z.shiftr (filesize h) 10);
                          Checksum_mismatch sum (checksum h);
                          Looking_for_dram]
                      ++ diag
                      ++ [Dram_print (Spec.identify raw) raw] |})).
  { subst raw. rewrite <- (dram_param_at_48 sector).
    rewrite (output_boot0_info_verbose pseek sector w Hvalid).
    fold h. cbv zeta.
    match goal with
    | |- context [egon_checksum_verify h sector ?w1] =>
        pose proof (egon_checksum_verify_full h sector w1) as Hv;
        cbv zeta in Hv;
        specialize (Hv ltac:(cbn [inf content]; rewrite Hn; exact Hlen))
    end.
    rewrite Hv, Hn. cbn [inf content]. fold sum.
    destruct (Z.eqb_spec sum (checksum h)) as [He|_]; [contradiction|].
    change (negb (0 =? 0)) with false. cbv iota.
    match goal with
    | |- context [dram_param_report ?r ?w2] =>
        destruct (detector_report_shape r w2) as (diag & Hdiag & Hrep)
    end.
    exists diag. split; [exact Hdiag|].
    rewrite Hrep. cbn [snd inf calls out]. unfold after_reads.
    cbn [inf calls out content strerror_errno].
    rewrite <- !app_assoc. reflexivity. }
  destruct Hrun as (diag & Hdiag & Hrun).
  exists diag, (Printf.fmt_x true 8 sum), (Printf.fmt_x true 8 (checksum h)).
  split.
  { apply computed_checksum_reference. fold h. rewrite Hn. exact Hlen. }
  split; [exact Hdiag|].
  split; [exact Hrun|].
  split; [reflexivity|].
  split; apply shows_08X_fmt_x.
  - apply reference_checksum_range.
  - exact (load32_range sector 12).
Qed.

(** C8 on the sample image, whose checksum field is 0 and whose sum is
    0xc7ae06ed: the line reads C7AE06ED and then 00000000, the H6 print
    follows, and the result is 7. *)
Lemma checksum_mismatch_is_warning_witness :
  let w := start (Sample.zeros 3584) EmptyString in
  passes_header_checks (egon_header_at Sample.boot0_sector)
  /\ (512 * 7 <= 3584)%nat
  /\ Spec.reference_checksum Sample.boot0_sector (Sample.zeros 3584) 4096 <> 0
  /\ exists (diag : list msg) (hsum hdecl : string),
       computed_checksum Sample.boot0_sector (Sample.zeros 3584)
       = Some 0xc7ae06ed
       /\ forallb validator_msg diag = true
       /\ output_boot0_info Sample.pseek_file Sample.boot0_sector true w
          = (Some 7,
             {| inf := {| content := []; strerror_errno := EmptyString |};
                calls := repeat (Fread 4 128) 7;
                out := [Found_header; Filesize_kB 4;
                        Checksum_mismatch 0xc7ae06ed 0; Looking_for_dram]
                       ++ diag ++ [Dram_print H6 Sample.dram_h6] |})
       /\ Printf.render (Checksum_mismatch 0xc7ae06ed 0)
          = ("eGON checksum mismatch: 0x" ++ hsum
             ++ " vs 0x" ++ hdecl ++ Printf.NL)%string
       /\ shows_08X hsum 0xc7ae06ed
       /\ shows_08X hdecl 0.
Proof.
  cbv zeta.
  assert (Hvalid : passes_header_checks (egon_header_at Sample.boot0_sector))
    by (repeat split; vm_compute; (reflexivity || discriminate)).
  assert (Hlen : (512 * Z.to_nat
                          (filesize (egon_header_at Sample.boot0_sector) / 512 - 1)
                  <= List.length
                       (content (inf (start (Sample.zeros 3584) EmptyString))))%nat)
    by (apply Nat.leb_le; vm_compute; reflexivity).
  assert (Hne : Spec.reference_checksum Sample.boot0_sector
                  (content (inf (start (Sample.zeros 3584) EmptyString)))
                  (filesize (egon_header_at Sample.boot0_sector))
                <> checksum (egon_header_at Sample.boot0_sector))
    by (vm_compute; discriminate).
  split; [exact Hvalid |].
  split; [apply Nat.leb_le; vm_compute; reflexivity |].
  split; [exact Hne |].
  destruct (checksum_mismatch_is_warning Sample.pseek_file
              Sample.boot0_sector
              (start (Sample.zeros 3584) EmptyString)
              Hvalid Hlen Hne)
    as (diag & hsum & hdecl & Hsum & Hdiag & Hrun & Htext & Hs & Hd).
  assert (Es : Spec.reference_checksum Sample.boot0_sector
                 (content (inf (start (Sample.zeros 3584) EmptyString)))
                 (filesize (egon_header_at Sample.boot0_sector))
               = 0xc7ae06ed) by (vm_compute; reflexivity).
  assert (Ec : checksum (egon_header_at Sample.boot0_sector) = 0)
    by (vm_compute; reflexivity).
  rewrite Es in Hsum, Hrun, Htext, Hs.
  rewrite Ec in Hrun, Htext, Hd.
  exists diag, hsum, hdecl.
  split; [exact Hsum |].
  split; [exact Hdiag |].
  split; [rewrite Hrun; vm_compute; reflexivity |].
  split; [exact Htext |].
  split; [exact Hs | exact Hd].
Defined.

(** C9, as the code has it.  For an image whose sectors are all read in
    full: changing one word of sector 0 other than the checksum field
    (word 3) and the file size field (word 4) changes the computed
    checksum; changing one word of a later sector of the image changes
    it; changing the checksum field leaves it as it was.  (The file size
    field decides how many sectors are summed, so it is left out.)  A
    changed image agrees with the original on every word but one. *)
Theorem checksum_detects_word_change (s rest : list byte) :
  let fs := filesize (egon_header_at s) in
  let n := List.length (Spec.later_sectors fs) in
  (512 * n <= List.length rest)%nat ->
  (forall (s' : list byte) (j : nat),
      (j < 128)%nat -> j <> 3%nat -> j <> 4%nat ->
      (forall i, (i < 128)%nat -> i <> j -> word_at s' i = word_at s i) ->
      word_at s' j <> word_at s j ->
      exists c c',
        computed_checksum s rest = Some c
        /\ computed_checksum s' rest = Some c'
        /\ c' <> c)
  /\ (forall (rest' : list byte) (p : nat),
         (p < 128 * n)%nat ->
         (512 * n <= List.length rest')%nat ->
         (forall i, (i < 128 * n)%nat -> i <> p ->
                    word_at rest' i = word_at rest i) ->
         word_at rest' p <> word_at rest p ->
         exists c c',
           computed_checksum s rest = Some c
           /\ computed_checksum s rest' = Some c'
           /\ c' <> c)
  /\ (forall s' : list byte,
         (forall i, (i < 128)%nat -> i <> 3%nat ->
                    word_at s' i = word_at s i) ->
         computed_checksum s' rest = computed_checksum s rest).
Proof.
  intros fs n Hlen.
  pose proof (computed_checksum_reference s rest Hlen) as Hs. fold fs in Hs.
  split; [|split].
  - intros s' j Hj H3 H4 Hagree Hdiff.
    assert (Hfs : filesize (egon_header_at s') = fs)
      by (apply (Hagree 4%nat); lia).
    pose proof (computed_checksum_reference s' rest) as Hs'.
    cbv zeta in Hs'. rewrite Hfs in Hs'. specialize (Hs' Hlen).
    eexists. eexists. split; [exact Hs|]. split; [exact Hs'|].
    unfold Spec.reference_checksum.
    rewrite (sector0_words_change s s' j Hj H3 Hagree).
    match goal with
    | |- (?a + (?b + ?d) + ?c) mod _ <> _ =>
        replace (a + (b + d) + c) with (a + b + c + d) by lia;
        apply (mod32_change (a + b + c) d)
    end; [lia | apply word_at_diff_range].
  - intros rest' p Hp Hlen' Hagree Hdiff.
    pose proof (computed_checksum_reference s rest' Hlen') as Hs'.
    fold fs in Hs'.
    eexists. eexists. split; [exact Hs|]. split; [exact Hs'|].
    rewrite !reference_checksum_eq. fold fs n.
    rewrite (sum_words_change (word_at rest') (word_at rest) _ p).
    + rewrite Z.add_assoc. unfold u32.
      match goal with
      | |- (?x + ?d) mod _ <> _ => apply (mod32_change x d)
      end; [lia | apply word_at_diff_range].
    + apply seq_NoDup.
    + apply in_seq. lia.
    + intros i Hi Hne. apply in_seq in Hi. apply Hagree; [lia | exact Hne].
  - intros s' Hagree.
    assert (Hfs : filesize (egon_header_at s') = fs)
      by (apply (Hagree 4%nat); lia).
    pose proof (computed_checksum_reference s' rest) as Hs'.
    cbv zeta in Hs'. rewrite Hfs in Hs'. specialize (Hs' Hlen).
    rewrite Hs, Hs'. f_equal.
    unfold Spec.reference_checksum.
    rewrite (sector0_words_checksum_field s s' Hagree). reflexivity.
Qed.

(** C9 on the sample image with word 5 of sector 0 changed from 48 to
    47. *)
Lemma checksum_detects_word_change_witness :
  (512 * List.length (Spec.later_sectors 4096) <= 3584)%nat
  /\ word_at Sample.boot0_sector_47 5 <> word_at Sample.boot0_sector 5
  /\ exists c c',
       computed_checksum Sample.boot0_sector (Sample.zeros 3584) = Some c
       /\ computed_checksum Sample.boot0_sector_47 (Sample.zeros 3584) = Some c'
       /\ c' <> c.
Proof.
  assert (Hlen : (512 * List.length
                          (Spec.later_sectors
                             (filesize (egon_header_at Sample.boot0_sector)))
                  <= List.length (Sample.zeros 3584))%nat)
    by (apply Nat.leb_le; vm_compute; reflexivity).
  assert (Hdiff : word_at Sample.boot0_sector_47 5
                  <> word_at Sample.boot0_sector 5)
    by (vm_compute; discriminate).
  split; [apply Nat.leb_le; vm_compute; reflexivity |].
  split; [exact Hdiff |].
  refine (proj1 (checksum_detects_word_change Sample.boot0_sector
                   (Sample.zeros 3584) Hlen)
            Sample.boot0_sector_47 5%nat _ _ _ _ Hdiff).
  - apply Nat.ltb_lt. reflexivity.
  - discriminate.
  - discriminate.
  - apply words_agree_dec. vm_compute. reflexivity.
Defined.

(** C9 as stated fails at the file size field.  Two images that differ
    in word 4 of sector 0 alone, 4096 in one and 8192 in the other, on
    the same fifteen later sectors: the second sums eight sectors more,
    whose words add up to [2^32 - 4096], and the computed checksum is the
    same. *)
Lemma filesize_word_change_cancels :
  forallb (fun i => (i =? 4)%nat
                    || (word_at Sample.boot0_sector_8192 i
                        =? word_at Sample.boot0_sector i))
    (seq 0 128) = true
  /\ word_at Sample.boot0_sector 4 = 4096
  /\ word_at Sample.boot0_sector_8192 4 = 8192
  /\ computed_checksum Sample.boot0_sector Sample.fifteen_sectors
     = Some 0xc7ae06ed
  /\ computed_checksum Sample.boot0_sector_8192 Sample.fifteen_sectors
     = computed_checksum Sample.boot0_sector Sample.fifteen_sectors.
Proof. repeat split; vm_compute; reflexivity. Qed.

(** C10. A word whose low 28 bits are zero (what A10 asks of word 0, its
    baseaddr) is not in [100,1200] (what H6, A31 and H616 ask of word 0,
    their clk, H6 and A31 within [100,1000]); so when the A10 validator
    accepts an array the other three reject it, and when one of the other
    three accepts, the A10 validator rejects and the chain of
    [output_boot0_info] prints what H6, A31, H616 tried in that order
    select: trying A10 first shadows none of them. *)
Theorem a10_excludes_other_layouts (raw : dram_raw) (w : world) :
  (forall x : Z, Z.land x 0x0FFFFFFF = 0 -> ~ 100 <= x <= 1200)
  /\ (fst (dram_param_a10_validate raw w) = 0 ->
      forall w' : world,
        fst (dram_param_h6_validate raw w') <> 0
        /\ fst (dram_param_a31_validate raw w') <> 0
        /\ fst (dram_param_h616_validate raw w') <> 0)
  /\ (Spec.h6_plausible raw \/ Spec.a31_plausible raw
      \/ Spec.h616_plausible raw ->
      fst (dram_param_a10_validate raw w) <> 0
      /\ printed (out (snd (dram_param_report raw w)))
         = printed (out w) ++ [Spec.first_plausible [H6; A31; H616] raw]).
Proof.
  split.
  { intros x Hlow. rewrite land_low28 in Hlow.
    apply low28_zero_not_clock, Hlow. }
  split.
  - intros Ha10 w'.
    apply dram_param_a10_validate_ok, (plausibleb_spec A10) in Ha10.
    destruct (a10_excludes raw Ha10) as (Hh6 & Ha31 & Hh616).
    repeat split; intros H;
      [ apply dram_param_h6_validate_ok, (plausibleb_spec H6) in H
      | apply dram_param_a31_validate_ok, (plausibleb_spec A31) in H
      | apply dram_param_h616_validate_ok, (plausibleb_spec H616) in H ];
      congruence.
  - intros Hother.
    assert (Ha10 : Spec.plausibleb A10 raw = false).
    { apply not_true_is_false. intros Ha10.
      destruct (a10_excludes raw Ha10) as (Hh6 & Ha31 & Hh616).
      destruct Hother as [H | [H | H]];
        [ apply (plausibleb_spec H6) in H
        | apply (plausibleb_spec A31) in H
        | apply (plausibleb_spec H616) in H ];
        congruence. }
    split.
    + intros H.
      apply dram_param_a10_validate_ok, (plausibleb_spec A10) in H.
      congruence.
    + destruct (dram_param_report_code_order raw w) as (diag & Hdiag & Hrun).
      rewrite Hrun. cbn [snd out].
      change (Looking_for_dram :: diag ++ ?l)
        with ([Looking_for_dram] ++ diag ++ l).
      rewrite !printed_app, (printed_validator_msgs diag Hdiag).
      cbn [Spec.first_plausible]. rewrite Ha10. reflexivity.
Qed.

(** C10 on an array the A10 validator accepts. *)
Lemma a10_excludes_other_layouts_witness :
  let w := start [] EmptyString in
  fst (dram_param_a10_validate Sample.dram_a10 w) = 0
  /\ fst (dram_param_h6_validate Sample.dram_a10 w) <> 0
  /\ fst (dram_param_a31_validate Sample.dram_a10 w) <> 0
  /\ fst (dram_param_h616_validate Sample.dram_a10 w) <> 0.
Proof.
  cbv zeta.
  assert (Ha10 : fst (dram_param_a10_validate Sample.dram_a10
                        (start [] EmptyString)) = 0)
    by (vm_compute; reflexivity).
  split; [exact Ha10 |].
  exact (proj1 (proj2 (a10_excludes_other_layouts Sample.dram_a10
                         (start [] EmptyString)))
           Ha10 (start [] EmptyString)).
Defined.

(** * Further properties of the code *)

(** ** [egon_checksum_verify] on any stream *)

(** Either every sector of the image is there and the verdict is written,
    or the stream ends early and the read that falls short ends the
    function with its item count. *)
Lemma egon_checksum_verify_cases (header : egon_header)
    (sector0 : list byte) (w : world) :
  let n := List.length (Spec.later_sectors (filesize header)) in
  let len := List.length (content (inf w)) in
  let k := (len / 512)%nat in
  let r := Z.of_nat ((len - 512 * k) / 4) in
  let sum :=
    Spec.reference_checksum sector0 (content (inf w)) (filesize header) in
  ((512 * n <= len)%nat
   /\ egon_checksum_verify header sector0 w
      = (Some 0,
         {| inf := inf (after_reads n w);
            calls := calls (after_reads n w);
            out := out w ++ [if sum =? checksum header
                             then Checksum_matches
                             else Checksum_mismatch sum (checksum header)]
         |}))
  \/ ((len < 512 * n)%nat /\ (k < n)%nat /\ 0 <= r < 128
      /\ egon_checksum_verify header sector0 w
         = (Some r,
            {| inf := inf (after_reads (S k) w);
               calls := calls (after_reads (S k) w);
               out := out w ++ [Fread_failed (strerror_errno (inf w)) r] |})).
Proof.
  intros n len k r sum.
  destruct (Nat.le_gt_cases (512 * n) len) as [Hfull|Hshort].
  - left. split; [exact Hfull|].
    apply egon_checksum_verify_full. exact Hfull.
  - right.
    pose proof (later_sectors_bounds (filesize header)) as (Hend & Hrun & Hfuel).
    fold n in Hend, Hrun, Hfuel.
    pose proof (Nat.div_mod_eq len 512) as Hdiv. fold k in Hdiv.
    pose proof (Nat.mod_upper_bound len 512 ltac:(lia)) as Hmod.
    assert (Hk : (k < n)%nat) by lia.
    assert (Hr : 0 <= r < 128).
    { subst r. split; [lia|].
      apply Nat2Z.inj_lt with (m := 128%nat).
      apply Nat.Div0.div_lt_upper_bound. lia. }
    split; [exact Hshort|]. split; [exact Hk|]. split; [exact Hr|].
    unfold egon_checksum_verify, bind at 1.
    rewrite (checksum_stream_short header k).
    + reflexivity.
    + lia.
    + unfold SECTOR_SIZE. lia.
    + fold len. lia.
    + apply checksum_sector0_range.
Qed.

(** ** [output_boot0_info] on any sector and any stream *)

Lemma header_check_cases (sector : list byte) :
  let h := egon_header_at sector in
  passes_header_checks h
  \/ 0 < memcmp (magic h) EGON_MAGIC_0 8
  \/ (memcmp (magic h) EGON_MAGIC_0 8 <= 0 /\ header_size h <> 48)
  \/ (memcmp (magic h) EGON_MAGIC_0 8 <= 0 /\ header_size h = 48
      /\ filesize h mod 4096 <> 0)
  \/ (memcmp (magic h) EGON_MAGIC_0 8 <= 0 /\ header_size h = 48
      /\ filesize h = 0).
Proof.
  intros h. unfold passes_header_checks, sizeof_egon_header, EGON_FILESIZE_ALIGN.
  pose proof (filesize_range sector) as Hrange. fold h in Hrange.
  destruct (Z.lt_ge_cases 0 (memcmp (magic h) EGON_MAGIC_0 8)); [tauto|].
  destruct (Z.eq_dec (header_size h) 48); [|right; right; left; lia].
  destruct (Z.eq_dec (filesize h mod 4096) 0); [|right; right; right; left; lia].
  destruct (Z.eq_dec (filesize h) 0); [right; right; right; right; lia|].
  left. lia.
Qed.

Section Any_run.

Variable pseek : FILE -> Z -> Z * FILE.

Lemma output_boot0_info_failed_check (sector : list byte) (verbose : bool)
    (w : world) :
  let h := egon_header_at sector in
  ~ passes_header_checks h ->
  exists m,
    header_error m = true
    /\ output_boot0_info pseek sector verbose w
       = (Some 0, {| inf := inf w; calls := calls w; out := out w ++ [m] |}).
Proof.
  intros h Hfail.
  destruct (output_boot0_info_rejects pseek sector verbose w)
    as (Hmagic & Hsize & Halign & Hempty).
  fold h in Hmagic, Hsize, Halign, Hempty.
  cbv zeta in Hmagic, Hsize, Halign, Hempty.
  pose proof (header_check_cases sector) as Hc.
  cbv zeta in Hc. fold h in Hc.
  destruct Hc
    as [Hp | [Hm | [(Hm & Hs) | [(Hm & Hs & Ha) | (Hm & Hs & Hf)]]]].
  - contradiction.
  - eexists. split; [|apply Hmagic; exact Hm]. reflexivity.
  - eexists. split; [|apply Hsize; assumption]. reflexivity.
  - eexists. split; [|apply Halign; assumption]. reflexivity.
  - eexists. split; [|apply Hempty; assumption]. reflexivity.
Qed.

(** Verbose mode on a header that passes the checks: the three ways the
    call can go, by where the stream ends. *)
Lemma output_boot0_info_verbose_cases (sector : list byte) (w : world) :
  let h := egon_header_at sector in
  let n := Z.to_nat (filesize h / 512 - 1) in
  let len := List.length (content (inf w)) in
  let k := (len / 512)%nat in
  let r := Z.of_nat ((len - 512 * k) / 4) in
  let sum := Spec.reference_checksum sector (content (inf w)) (filesize h) in
  let raw := dram_param_at sector 48 in
  let head := [Found_header; Filesize_kB (Z.shiftr (filesize h) 10)] in
  passes_header_checks h ->
  ((512 * n <= len)%nat
   /\ exists diag,
       forallb validator_msg diag = true
       /\ output_boot0_info pseek sector true w
          = (Some (filesize h / 512 - 1),
             {| inf := inf (after_reads n w);
                calls := calls (after_reads n w);
                out := out w ++ head
                       ++ [if sum =? checksum h
                           then Checksum_matches
                           else Checksum_mismatch sum (checksum h);
                           Looking_for_dram]
                       ++ diag ++ [Dram_print (Spec.identify raw) raw] |}))
  \/ ((len < 512 * n)%nat /\ (k < n)%nat /\ 0 < r < 128
      /\ output_boot0_info pseek sector true w
         = (Some 0,
            {| inf := inf (after_reads (S k) w);
               calls := calls (after_reads (S k) w);
               out := out w ++ head
                      ++ [Fread_failed (strerror_errno (inf w)) r] |}))
  \/ ((len < 512 * n)%nat /\ (k < n)%nat /\ r = 0
      /\ exists diag,
          forallb validator_msg diag = true
          /\ output_boot0_info pseek sector true w
             = (Some (filesize h / 512 - 1),
                {| inf := inf (after_reads (S k) w);
                   calls := calls (after_reads (S k) w);
                   out := out w ++ head
                          ++ [Fread_failed (strerror_errno (inf w)) 0;
                              Looking_for_dram]
                          ++ diag ++ [Dram_print (Spec.identify raw) raw] |})).
Proof.
  intros h n len k r sum raw head Hvalid.
  assert (Hn : List.length (Spec.later_sectors (filesize h)) = n).
  { destruct Hvalid as (_ & _ & Hpos & Halign).
    apply later_sectors_aligned; assumption. }
  rewrite (output_boot0_info_verbose pseek sector w Hvalid). fold h. cbv zeta.
  match goal with
  | |- context [egon_checksum_verify h sector ?w1] =>
      pose proof (egon_checksum_verify_cases h sector w1) as Hcases;
      cbv zeta in Hcases; cbn [inf content strerror_errno] in Hcases;
      rewrite Hn in Hcases; fold len k r sum in Hcases
  end.
  destruct Hcases as [(Hfull & Hrun) | (Hshort & Hk & Hr & Hrun)];
    rewrite Hrun.
  - left. split; [exact Hfull|].
    change (negb (0 =? 0)) with false. cbv iota.
    match goal with
    | |- context [dram_param_report ?a ?w2] =>
        destruct (detector_report_shape a w2) as (diag & Hdiag & Hrep)
    end.
    exists diag. split; [exact Hdiag|].
    rewrite Hrep. cbn [snd inf calls out]. unfold after_reads, head.
    cbn [inf calls out content strerror_errno].
    rewrite <- !app_assoc. reflexivity.
  - destruct (Z.eqb_spec r 0) as [Hzero|Hpos].
    + right. right. split; [exact Hshort|]. split; [exact Hk|].
      split; [exact Hzero|]. cbn [negb].
      match goal with
      | |- context [dram_param_report ?a ?w2] =>
          destruct (detector_report_shape a w2) as (diag & Hdiag & Hrep)
      end.
      exists diag. split; [exact Hdiag|].
      rewrite Hrep, Hzero. cbn [snd inf calls out]. unfold after_reads, head.
      cbn [inf calls out content strerror_errno].
      rewrite <- !app_assoc. reflexivity.
    + right. left. split; [exact Hshort|]. split; [exact Hk|].
      split; [lia|]. cbn [negb]. unfold after_reads, head.
      cbn [inf calls out content strerror_errno].
      rewrite <- !app_assoc. reflexivity.
Qed.

End Any_run.

Lemma written_app (w w' : world) (ms : list msg) :
  out w' = out w ++ ms -> written w w' = ms.
Proof.
  intros H. unfold written. rewrite H, skipn_app, skipn_all, Nat.sub_diag.
  reflexivity.
Qed.

Lemma validator_msgs_no_header_error (diag : list msg) :
  forallb validator_msg diag = true -> existsb header_error diag = false.
Proof.
  induction diag as [|m diag IH]; cbn [forallb existsb]; intros H;
    [reflexivity|].
  apply andb_true_iff in H as (Hm & Hd).
  rewrite (IH Hd). destruct m; try discriminate Hm; reflexivity.
Qed.

Lemma passes_header_checks_bounds (sector : list byte) :
  let h := egon_header_at sector in
  passes_header_checks h ->
  7 <= filesize h / 512 - 1 < 2 ^ 23
  /\ (filesize h / 512) mod 8 = 0
  /\ 512 * (filesize h / 512 - 1) = filesize h - 512.
Proof.
  intros h (_ & _ & Hpos & Halign).
  pose proof (filesize_range sector) as Hrange. fold h in Hrange.
  unfold EGON_FILESIZE_ALIGN in Halign.
  apply Z.mod_divide in Halign; [|lia].
  destruct Halign as [q Hq]. rewrite Hq.
  replace (q * 4096) with (q * 8 * 512) by lia.
  rewrite Z.div_mul by lia.
  rewrite Z.mod_mul by lia. lia.
Qed.

(** X1. A sector 0 whose header fails one of the four checks is turned
    down in either mode with one error line and a result of 0; the input
    stream is neither read nor skipped. *)
Theorem failed_header_check_is_soft (pseek : FILE -> Z -> Z * FILE)
    (sector : list byte) (verbose : bool) (w : world) :
  ~ passes_header_checks (egon_header_at sector) ->
  exists m,
    header_error m = true
    /\ output_boot0_info pseek sector verbose w
       = (Some 0, {| inf := inf w; calls := calls w; out := out w ++ [m] |}).
Proof. apply output_boot0_info_failed_check. Qed.

(** X1 on the sample sector 0 with 47 as its header size. *)
Lemma failed_header_check_is_soft_witness :
  ~ passes_header_checks (egon_header_at Sample.boot0_sector_47)
  /\ exists m,
       header_error m = true
       /\ output_boot0_info Sample.pseek_file Sample.boot0_sector_47 true
            (start (Sample.zeros 3584) EmptyString)
          = (Some 0,
             {| inf := inf (start (Sample.zeros 3584) EmptyString);
                calls := calls (start (Sample.zeros 3584) EmptyString);
                out := out (start (Sample.zeros 3584) EmptyString) ++ [m] |}).
Proof.
  assert (H : ~ passes_header_checks (egon_header_at Sample.boot0_sector_47)).
  { intros (_ & Hsize & _). vm_compute in Hsize. discriminate Hsize. }
  split; [exact H |].
  exact (failed_header_check_is_soft Sample.pseek_file Sample.boot0_sector_47
           true (start (Sample.zeros 3584) EmptyString) H).
Defined.

(** X2. The checks are made in the order magic, header size, alignment of
    the file size, empty file, and the first that fails decides the line
    written: a magic that compares greater than "eGON.BT0" is reported
    whatever the sizes are, a wrong header size whatever the file size is,
    and a file size of 0 gets through the alignment check and is reported
    as an empty file. *)
Theorem header_checks_in_order (pseek : FILE -> Z -> Z * FILE)
    (sector : list byte) (verbose : bool) (w : world) :
  let h := egon_header_at sector in
  let reject m :=
    output_boot0_info pseek sector verbose w
    = (Some 0, {| inf := inf w; calls := calls w; out := out w ++ [m] |}) in
  (0 < memcmp (magic h) EGON_MAGIC_0 8 -> reject (Wrong_magic (magic h)))
  /\ (memcmp (magic h) EGON_MAGIC_0 8 <= 0 -> header_size h <> 48 ->
      reject (Header_size_mismatch (header_size h)))
  /\ (memcmp (magic h) EGON_MAGIC_0 8 <= 0 -> header_size h = 48 ->
      filesize h mod 4096 <> 0 ->
      reject (Filesize_not_multiple (filesize h)))
  /\ (memcmp (magic h) EGON_MAGIC_0 8 <= 0 -> header_size h = 48 ->
      filesize h = 0 ->
      reject (Filesize_empty 0)).
Proof.
  intros h reject.
  destruct (output_boot0_info_rejects pseek sector verbose w)
    as (Hmagic & Hsize & Halign & Hempty).
  fold h in Hmagic, Hsize, Halign, Hempty.
  cbv zeta in Hmagic, Hsize, Halign, Hempty.
  subst reject. cbv beta.
  repeat split; auto.
  intros Hm Hs Hf. specialize (Hempty Hm Hs Hf). rewrite Hf in Hempty.
  exact Hempty.
Qed.

(** X2 on the sample sector 0 with a file size of 0. *)
Lemma header_checks_in_order_witness :
  let h := egon_header_at Sample.boot0_sector_empty in
  memcmp (magic h) EGON_MAGIC_0 8 <= 0
  /\ header_size h = 48
  /\ filesize h = 0
  /\ output_boot0_info Sample.pseek_file Sample.boot0_sector_empty false
       (start [] EmptyString)
     = (Some 0,
        {| inf := inf (start [] EmptyString);
           calls := calls (start [] EmptyString);
           out := out (start [] EmptyString) ++ [Filesize_empty 0] |}).
Proof.
  cbv zeta.
  assert (Hm : memcmp (magic (egon_header_at Sample.boot0_sector_empty))
                 EGON_MAGIC_0 8 <= 0) by (vm_compute; discriminate).
  assert (Hs : header_size (egon_header_at Sample.boot0_sector_empty) = 48)
    by (vm_compute; reflexivity).
  assert (Hf : filesize (egon_header_at Sample.boot0_sector_empty) = 0)
    by (vm_compute; reflexivity).
  split; [exact Hm |]. split; [exact Hs |]. split; [exact Hf |].
  exact (proj2 (proj2 (proj2 (header_checks_in_order Sample.pseek_file
                                Sample.boot0_sector_empty false
                                (start [] EmptyString)))) Hm Hs Hf).
Defined.

Lemma passes_header_checks_dec (sector : list byte) :
  passes_header_checks (egon_header_at sector)
  \/ ~ passes_header_checks (egon_header_at sector).
Proof.
  pose proof (header_check_cases sector) as Hc. cbv zeta in Hc.
  unfold passes_header_checks, sizeof_egon_header, EGON_FILESIZE_ALIGN in *.
  destruct Hc as [Hp | [Hm | [(Hm & Hs) | [(Hm & Hs & Ha) | (Hm & Hs & Hf)]]]];
    [left; exact Hp | right; lia ..].
Qed.

(** X3. One of the four header error lines is written exactly when the
    header fails a check: an accepted header never draws one, in either
    mode and whatever the stream holds. *)
Theorem error_line_iff_failed_check (pseek : FILE -> Z -> Z * FILE)
    (sector : list byte) (verbose : bool) (w : world) :
  existsb header_error
    (written w (snd (output_boot0_info pseek sector verbose w))) = true
  <-> ~ passes_header_checks (egon_header_at sector).
Proof.
  split.
  - intros Hline Hpass. revert Hline.
    destruct verbose.
    + pose proof (output_boot0_info_verbose_cases pseek sector w Hpass)
        as Hcases.
      cbv zeta in Hcases.
      destruct Hcases
        as [(_ & diag & Hdiag & Hrun)
           | [(_ & _ & _ & Hrun) | (_ & _ & _ & diag & Hdiag & Hrun)]];
        rewrite Hrun; cbn [snd];
        (erewrite written_app by reflexivity);
        rewrite ?existsb_app, ?(validator_msgs_no_header_error diag Hdiag);
        try (destruct (_ =? _)); cbn; intros H; discriminate H.
    + rewrite (output_boot0_info_quiet pseek sector w Hpass). cbn [snd].
      erewrite written_app by (cbn [out]; symmetry; apply app_nil_r).
      cbn. intros H. discriminate H.
  - intros Hfail.
    destruct (output_boot0_info_failed_check pseek sector verbose w Hfail)
      as (m & Hm & Hrun).
    rewrite Hrun. cbn [snd].
    erewrite written_app by reflexivity.
    cbn [existsb]. rewrite Hm. reflexivity.
Qed.

(** X4. Whatever the sector, the mode and the stream, the result is 0 or
    it is [filesize / 512 - 1] for a header that passed the checks; that
    number is at least 7, below 2^23, and one less than a multiple of 8,
    so the unsigned arithmetic of the return statement never wraps. *)
Theorem result_is_0_or_sectors_left (pseek : FILE -> Z -> Z * FILE)
    (sector : list byte) (verbose : bool) (w : world) :
  let h := egon_header_at sector in
  exists r,
    fst (output_boot0_info pseek sector verbose w) = Some r
    /\ (r = 0
        \/ (passes_header_checks h
            /\ r = filesize h / 512 - 1
            /\ 7 <= r < 2 ^ 23
            /\ (r + 1) mod 8 = 0)).
Proof.
  intros h.
  destruct (passes_header_checks_dec sector) as [Hpass|Hfail].
  - pose proof (passes_header_checks_bounds sector Hpass) as (Hb & Hm & _).
    fold h in Hb, Hm.
    assert (Hleft : passes_header_checks h
                    /\ filesize h / 512 - 1 = filesize h / 512 - 1
                    /\ 7 <= filesize h / 512 - 1 < 2 ^ 23
                    /\ (filesize h / 512 - 1 + 1) mod 8 = 0).
    { split; [exact Hpass|]. split; [reflexivity|]. split; [exact Hb|].
      replace (filesize h / 512 - 1 + 1) with (filesize h / 512) by lia.
      exact Hm. }
    destruct verbose.
    + pose proof (output_boot0_info_verbose_cases pseek sector w Hpass)
        as Hcases.
      cbv zeta in Hcases. fold h in Hcases.
      destruct Hcases
        as [(_ & diag & _ & Hrun)
           | [(_ & _ & _ & Hrun) | (_ & _ & _ & diag & _ & Hrun)]];
        rewrite Hrun; cbn [fst]; eexists; split; try reflexivity; auto.
    + rewrite (output_boot0_info_quiet pseek sector w Hpass). fold h.
      cbn [fst]. eexists. split; [reflexivity|].
      destruct (_ =? 0); auto.
  - destruct (output_boot0_info_failed_check pseek sector verbose w Hfail)
      as (m & _ & Hrun).
    rewrite Hrun. exists 0. split; [reflexivity | left; reflexivity].
Qed.

Lemma seeks_repeat_fread (cs : list io_call) (m : nat) :
  seeks (cs ++ repeat (Fread 4 128) m) = seeks cs.
Proof.
  unfold seeks. rewrite flat_map_app.
  induction m as [|m IH]; cbn [repeat flat_map]; [apply app_nil_r|].
  exact IH.
Qed.

(** X5. In verbose mode [output_boot0_info] never seeks and never reads
    past the end the header declares: whatever the sector and the stream,
    the calls it makes on the input are [m] reads of 128 items each, with
    [m = 0] or [512 + 512 * m <= filesize]. *)
Theorem verbose_mode_reads_within_image (pseek : FILE -> Z -> Z * FILE)
    (sector : list byte) (w : world) :
  let h := egon_header_at sector in
  let w' := snd (output_boot0_info pseek sector true w) in
  exists m : nat,
    calls w' = calls w ++ repeat (Fread 4 128) m
    /\ (m = 0%nat \/ 512 + 512 * Z.of_nat m <= filesize h)
    /\ seeks (calls w') = seeks (calls w).
Proof.
  intros h w'. subst w'.
  destruct (passes_header_checks_dec sector) as [Hpass|Hfail].
  - pose proof (passes_header_checks_bounds sector Hpass) as (Hb & _ & Hmul).
    fold h in Hb, Hmul.
    pose proof (output_boot0_info_verbose_cases pseek sector w Hpass)
      as Hcases.
    cbv zeta in Hcases. fold h in Hcases.
    destruct Hcases
      as [(_ & diag & _ & Hrun)
         | [(_ & Hk & _ & Hrun) | (_ & Hk & _ & diag & _ & Hrun)]];
      rewrite Hrun; cbn [snd calls]; unfold after_reads; cbn [calls];
      eexists; (split; [reflexivity|]);
      (split; [right; lia | apply seeks_repeat_fread]).
  - destruct (output_boot0_info_failed_check pseek sector true w Hfail)
      as (m & _ & Hrun).
    rewrite Hrun. cbn [snd calls]. exists 0%nat.
    cbn [repeat]. rewrite app_nil_r. auto.
Qed.

(** X6. In verbose mode, on a header that passes the checks and a stream
    that holds the rest of the image, [output_boot0_info] makes exactly
    [filesize / 512 - 1] reads of one sector each and leaves the stream
    [filesize - 512] bytes further, at the end of the image; the number it
    returns is the number of sectors it read, whether the checksum matches
    or not; it writes one verdict line and no other, "matches" when the
    sum equals the checksum field and the mismatch with both values when
    it does not; and one print function runs, that of the layout
    identified. *)
Theorem verbose_mode_reads_whole_image (pseek : FILE -> Z -> Z * FILE)
    (sector : list byte) (w : world) :
  let h := egon_header_at sector in
  let n := Z.to_nat (filesize h / 512 - 1) in
  let sum := Spec.reference_checksum sector (content (inf w)) (filesize h) in
  let run := output_boot0_info pseek sector true w in
  passes_header_checks h ->
  (512 * n <= List.length (content (inf w)))%nat ->
  fst run = Some (Z.of_nat n)
  /\ calls (snd run) = calls w ++ repeat (Fread 4 128) n
  /\ content (inf (snd run))
     = skipn (Z.to_nat (filesize h - 512)) (content (inf w))
  /\ (sum = checksum h ->
      filter verdict_line (written w (snd run)) = [Checksum_matches])
  /\ (sum <> checksum h ->
      filter verdict_line (written w (snd run))
      = [Checksum_mismatch sum (checksum h)])
  /\ printed (written w (snd run))
     = [Spec.identify (dram_param_at sector 48)].
Proof.
  intros h n sum run Hpass Hlen. subst run.
  pose proof (passes_header_checks_bounds sector Hpass) as (Hb & _ & Hmul).
  fold h in Hb, Hmul.
  pose proof (output_boot0_info_verbose_cases pseek sector w Hpass) as Hcases.
  cbv zeta in Hcases. fold h n sum in Hcases.
  destruct Hcases
    as [(_ & diag & Hdiag & Hrun)
       | [(Hshort & _) | (Hshort & _)]]; try lia.
  rewrite Hrun. cbn [fst snd calls inf].
  erewrite written_app by reflexivity.
  unfold after_reads. cbn [inf calls content].
  split; [f_equal; lia|].
  split; [reflexivity|].
  split; [f_equal; lia|].
  split; [|split].
  - intros He. apply Z.eqb_eq in He. rewrite He.
    rewrite !filter_app, (filter_verdict_validator_msgs diag Hdiag).
    reflexivity.
  - intros Hne. apply Z.eqb_neq in Hne. rewrite Hne.
    rewrite !filter_app, (filter_verdict_validator_msgs diag Hdiag).
    reflexivity.
  - rewrite !printed_app, (printed_validator_msgs diag Hdiag).
    destruct (sum =? checksum h); reflexivity.
Qed.

(** X6 on the sample image, whole: seven reads to the end of the stream,
    the mismatch line (the checksum field is 0, the sum 0xc7ae06ed) as the
    only verdict, the H6 print, and a result of 7. *)
Lemma verbose_mode_reads_whole_image_witness :
  let w := start (Sample.zeros 3584) EmptyString in
  let run := output_boot0_info Sample.pseek_file Sample.boot0_sector true w in
  passes_header_checks (egon_header_at Sample.boot0_sector)
  /\ (512 * 7 <= 3584)%nat
  /\ fst run = Some 7
  /\ calls (snd run) = repeat (Fread 4 128) 7
  /\ content (inf (snd run)) = []
  /\ filter verdict_line (written w (snd run))
     = [Checksum_mismatch 0xc7ae06ed 0]
  /\ printed (written w (snd run)) = [H6].
Proof.
  cbv zeta.
  assert (Hpass : passes_header_checks (egon_header_at Sample.boot0_sector))
    by (repeat split; vm_compute; (reflexivity || discriminate)).
  assert (Hlen : (512 * Z.to_nat
                          (filesize (egon_header_at Sample.boot0_sector) / 512 - 1)
                  <= List.length
                       (content (inf (start (Sample.zeros 3584) EmptyString))))%nat)
    by (apply Nat.leb_le; vm_compute; reflexivity).
  assert (Hne : Spec.reference_checksum Sample.boot0_sector
                  (content (inf (start (Sample.zeros 3584) EmptyString)))
                  (filesize (egon_header_at Sample.boot0_sector))
                <> checksum (egon_header_at Sample.boot0_sector))
    by (vm_compute; discriminate).
  split; [exact Hpass |].
  split; [apply Nat.leb_le; vm_compute; reflexivity |].
  destruct (verbose_mode_reads_whole_image Sample.pseek_file
              Sample.boot0_sector
              (start (Sample.zeros 3584) EmptyString) Hpass Hlen)
    as (Hres & Hcalls & Hpos & _ & Hverdict & Hprinted).
  split; [etransitivity; [exact Hres | vm_compute; reflexivity] |].
  split; [etransitivity; [exact Hcalls | vm_compute; reflexivity] |].
  split; [etransitivity; [exact Hpos | vm_compute; reflexivity] |].
  split; [etransitivity; [exact (Hverdict Hne) | vm_compute; reflexivity] |].
  etransitivity; [exact Hprinted | vm_compute; reflexivity].
Defined.

Lemma computed_checksum_some (sector0 rest : list byte) (c : Z) :
  let fs := filesize (egon_header_at sector0) in
  computed_checksum sector0 rest = Some c
  <-> (512 * List.length (Spec.later_sectors fs) <= List.length rest)%nat
      /\ c = Spec.reference_checksum sector0 rest fs.
Proof.
  intros fs. split.
  - intros Hc.
    destruct (Nat.le_gt_cases (512 * List.length (Spec.later_sectors fs))
                (List.length rest)) as [Hfull|Hshort].
    + rewrite computed_checksum_reference in Hc by exact Hfull.
      fold fs in Hc. split; [exact Hfull | congruence].
    + exfalso. unfold computed_checksum in Hc. fold fs in Hc.
      pose proof (later_sectors_bounds fs) as (Hend & Hrun & Hfuel).
      cbv zeta in Hend, Hrun, Hfuel.
      pose proof (Nat.div_mod_eq (List.length rest) 512) as Hdiv.
      pose proof (Nat.mod_upper_bound (List.length rest) 512 ltac:(lia))
        as Hmod.
      rewrite (checksum_stream_short (egon_header_at sector0)
                 (List.length rest / 512)) in Hc.
      * cbn in Hc. discriminate Hc.
      * fold fs. lia.
      * fold fs. unfold SECTOR_SIZE. lia.
      * cbn [start inf content]. lia.
      * apply checksum_sector0_range.
  - intros (Hfull & ->). apply computed_checksum_reference. exact Hfull.
Qed.

(** X7. The checksum field seals the image: take an image whose sum is
    computed as [c], and put [c] in the checksum field (word 3 of sector 0)
    leaving every other word as it is; [egon_checksum_verify] then reads
    the whole image, writes "eGON checksum matches." and nothing else, and
    returns 0. *)
Theorem sealed_image_matches (s s' rest : list byte) (cause : string)
    (c : Z) :
  let n := List.length (Spec.later_sectors (filesize (egon_header_at s))) in
  computed_checksum s rest = Some c ->
  (forall i, (i < 128)%nat -> i <> 3%nat -> word_at s' i = word_at s i) ->
  word_at s' 3 = c ->
  egon_checksum_verify (egon_header_at s') s' (start rest cause)
  = (Some 0,
     {| inf := {| content := skipn (512 * n) rest; strerror_errno := cause |};
        calls := repeat (Fread 4 128) n;
        out := [Checksum_matches] |}).
Proof.
  intros n Hc Hagree Hseal.
  apply computed_checksum_some in Hc as (Hlen & Hc). fold n in Hlen.
  assert (Hfs : filesize (egon_header_at s') = filesize (egon_header_at s))
    by (apply (Hagree 4%nat); lia).
  pose proof (egon_checksum_verify_full (egon_header_at s') s'
                (start rest cause)) as Hrun.
  cbv zeta in Hrun. rewrite Hfs in Hrun. fold n in Hrun.
  rewrite Hrun by exact Hlen.
  assert (Hsum : Spec.reference_checksum s' rest (filesize (egon_header_at s))
                 = checksum (egon_header_at s')).
  { change (checksum (egon_header_at s')) with (word_at s' 3).
    rewrite Hseal, Hc. unfold Spec.reference_checksum.
    rewrite (sector0_words_checksum_field s s' Hagree). reflexivity. }
  cbn [start inf content]. rewrite Hsum, Z.eqb_refl. reflexivity.
Qed.

(** X7 on the sample image: its sum, 0xc7ae06ed, put in its checksum
    field. *)
Lemma sealed_image_matches_witness :
  computed_checksum Sample.boot0_sector (Sample.zeros 3584) = Some 0xc7ae06ed
  /\ word_at Sample.boot0_sector_sealed 3 = 0xc7ae06ed
  /\ out (snd (egon_checksum_verify
                 (egon_header_at Sample.boot0_sector_sealed)
                 Sample.boot0_sector_sealed
                 (start (Sample.zeros 3584) EmptyString)))
     = [Checksum_matches].
Proof.
  assert (Hc : computed_checksum Sample.boot0_sector (Sample.zeros 3584)
               = Some 0xc7ae06ed) by (vm_compute; reflexivity).
  assert (Hseal : word_at Sample.boot0_sector_sealed 3 = 0xc7ae06ed)
    by (vm_compute; reflexivity).
  split; [exact Hc |]. split; [exact Hseal |].
  rewrite (sealed_image_matches Sample.boot0_sector
             Sample.boot0_sector_sealed (Sample.zeros 3584) EmptyString
             0xc7ae06ed Hc
             (words_agree_dec Sample.boot0_sector Sample.boot0_sector_sealed
                3 128 ltac:(vm_compute; reflexivity))
             Hseal).
  reflexivity.
Defined.

(** X8. What follows the image in the file does not count: two streams
    that agree on the bytes up to the end the header declares give the
    same computed checksum, whatever comes after. *)
Theorem bytes_after_image_do_not_count (s rest rest' : list byte) :
  let n := List.length (Spec.later_sectors (filesize (egon_header_at s))) in
  (512 * n <= List.length rest)%nat ->
  firstn (512 * n) rest' = firstn (512 * n) rest ->
  computed_checksum s rest' = computed_checksum s rest
  /\ computed_checksum s rest
     = Some (Spec.reference_checksum s rest (filesize (egon_header_at s))).
Proof.
  intros n Hlen Hsame.
  assert (Hlen' : (512 * n <= List.length rest')%nat).
  { apply (f_equal (@List.length byte)) in Hsame.
    rewrite !length_firstn in Hsame. lia. }
  assert (Hwords : map (word_at rest') (seq 0 (128 * n))
                   = map (word_at rest) (seq 0 (128 * n))).
  { apply map_ext_in. intros i Hi. apply in_seq in Hi.
    rewrite <- (word_at_firstn rest' (512 * n) i) by lia.
    rewrite <- (word_at_firstn rest (512 * n) i) by lia.
    rewrite Hsame. reflexivity. }
  rewrite (computed_checksum_reference s rest Hlen).
  rewrite (computed_checksum_reference s rest' Hlen').
  split; [|reflexivity].
  rewrite !reference_checksum_eq. fold n. rewrite Hwords. reflexivity.
Qed.

(** X8 on the sample image followed by nothing and by eight more
    sectors. *)
Lemma bytes_after_image_do_not_count_witness :
  (512 * 7 <= List.length (Sample.zeros 3584))%nat
  /\ computed_checksum Sample.boot0_sector Sample.fifteen_sectors
     = computed_checksum Sample.boot0_sector (Sample.zeros 3584).
Proof.
  assert (Hlen : (512 * List.length
                          (Spec.later_sectors
                             (filesize (egon_header_at Sample.boot0_sector)))
                  <= List.length (Sample.zeros 3584))%nat)
    by (apply Nat.leb_le; vm_compute; reflexivity).
  split; [apply Nat.leb_le; vm_compute; reflexivity |].
  refine (proj1 (bytes_after_image_do_not_count Sample.boot0_sector
                   (Sample.zeros 3584) Sample.fifteen_sectors Hlen _)).
  vm_compute. reflexivity.
Defined.

(** X9. Whatever the header and the stream, [egon_checksum_verify] returns
    and writes exactly one line.  When the stream holds every sector the
    file size calls for, it makes that many reads, writes the verdict
    ("matches" when the sum equals the checksum field, the mismatch with
    both values when not) and returns 0.  When the stream ends before, the
    read that falls short is the one after the [k] whole sectors the stream
    holds; the line is the fread line with the cause and the number [r] of
    whole words left in the stream, and the result is [r], from 0 to 127.
    When fewer than 4 bytes are left, [r] is 0: the result is then 0, as
    for an image that was read to its end. *)
Theorem egon_checksum_verify_writes_one_line (header : egon_header)
    (sector0 : list byte) (w : world) :
  let n := List.length (Spec.later_sectors (filesize header)) in
  let len := List.length (content (inf w)) in
  let k := (len / 512)%nat in
  let r := Z.of_nat ((len - 512 * k) / 4) in
  let sum :=
    Spec.reference_checksum sector0 (content (inf w)) (filesize header) in
  let run := egon_checksum_verify header sector0 w in
  ((512 * n <= len)%nat ->
   fst run = Some 0
   /\ calls (snd run) = calls w ++ repeat (Fread 4 128) n
   /\ (sum = checksum header -> written w (snd run) = [Checksum_matches])
   /\ (sum <> checksum header ->
       written w (snd run) = [Checksum_mismatch sum (checksum header)]))
  /\ ((len < 512 * n)%nat ->
      (k < n)%nat
      /\ 0 <= r < 128
      /\ fst run = Some r
      /\ calls (snd run) = calls w ++ repeat (Fread 4 128) (S k)
      /\ written w (snd run) = [Fread_failed (strerror_errno (inf w)) r])
  /\ ((len < 512 * n)%nat -> (len mod 512 < 4)%nat -> fst run = Some 0).
Proof.
  intros n len k r sum run. subst n len k r sum run.
  pose proof (egon_checksum_verify_cases header sector0 w) as Hcases.
  cbv zeta in Hcases.
  split; [|split].
  - intros Hfull.
    destruct Hcases as [(_ & Hrun) | (Hshort & _)]; [|lia].
    rewrite Hrun. cbn [fst snd calls].
    erewrite written_app by reflexivity.
    split; [reflexivity|]. split; [reflexivity|].
    split; intros He;
      [apply Z.eqb_eq in He | apply Z.eqb_neq in He]; rewrite He; reflexivity.
  - intros Hshort.
    destruct Hcases as [(Hfull & _) | (_ & Hk & Hr & Hrun)]; [lia|].
    rewrite Hrun. cbn [fst snd calls].
    erewrite written_app by reflexivity.
    split; [exact Hk|]. split; [exact Hr|].
    split; [reflexivity|]. split; reflexivity.
  - intros Hshort Hrem.
    destruct Hcases as [(Hfull & _) | (_ & _ & _ & Hrun)]; [lia|].
    rewrite Hrun. cbn [fst]. f_equal.
    change 0 with (Z.of_nat 0). f_equal.
    apply Nat.div_small.
    pose proof (Nat.Div0.mod_eq (List.length (content (inf w))) 512) as Hmod.
    lia.
Qed.

(** X9 on the sample header.  A stream of one sector where seven are
    called for: the second read returns no word, the fread line is written
    and the result is 0.  The sealed sample image read to its end: the
    "matches" line and the result 0 too. *)
Lemma egon_checksum_verify_writes_one_line_witness :
  let w1 := start (Sample.zeros 512) "Success" in
  let w2 := start (Sample.zeros 3584) "Success" in
  let short :=
    egon_checksum_verify (egon_header_at Sample.boot0_sector)
      Sample.boot0_sector w1 in
  let whole :=
    egon_checksum_verify (egon_header_at Sample.boot0_sector_sealed)
      Sample.boot0_sector_sealed w2 in
  (512 < 512 * 7)%nat
  /\ (512 mod 512 < 4)%nat
  /\ fst short = Some 0
  /\ calls (snd short) = [Fread 4 128; Fread 4 128]
  /\ written w1 (snd short) = [Fread_failed "Success" 0]
  /\ (512 * 7 <= 3584)%nat
  /\ fst whole = Some 0
  /\ written w2 (snd whole) = [Checksum_matches].
Proof.
  cbv zeta.
  split; [apply Nat.ltb_lt; vm_compute; reflexivity |].
  split; [apply Nat.ltb_lt; vm_compute; reflexivity |].
  destruct (egon_checksum_verify_writes_one_line
              (egon_header_at Sample.boot0_sector) Sample.boot0_sector
              (start (Sample.zeros 512) "Success"))
    as (_ & Hshort & Hzero).
  assert (H1 : (List.length (content (inf (start (Sample.zeros 512) "Success")))
                < 512 * List.length
                          (Spec.later_sectors
                             (filesize (egon_header_at Sample.boot0_sector))))%nat)
    by (apply Nat.ltb_lt; vm_compute; reflexivity).
  assert (H2 : (List.length (content (inf (start (Sample.zeros 512) "Success")))
                mod 512 < 4)%nat)
    by (apply Nat.ltb_lt; vm_compute; reflexivity).
  destruct (Hshort H1) as (_ & _ & _ & Hcalls & Hline).
  split; [exact (Hzero H1 H2) |].
  split; [etransitivity; [exact Hcalls | vm_compute; reflexivity] |].
  split; [etransitivity; [exact Hline | vm_compute; reflexivity] |].
  split; [apply Nat.leb_le; vm_compute; reflexivity |].
  destruct (egon_checksum_verify_writes_one_line
              (egon_header_at Sample.boot0_sector_sealed)
              Sample.boot0_sector_sealed
              (start (Sample.zeros 3584) "Success"))
    as (Hwhole & _ & _).
  assert (H3 : (512 * List.length
                        (Spec.later_sectors
                           (filesize (egon_header_at Sample.boot0_sector_sealed)))
                <= List.length
                     (content (inf (start (Sample.zeros 3584) "Success"))))%nat)
    by (apply Nat.leb_le; vm_compute; reflexivity).
  destruct (Hwhole H3) as (Hres & _ & Hmatch & _).
  split; [exact Hres |].
  apply Hmatch. vm_compute. reflexivity.
Defined.

(** ** Which layout is printed *)

Lemma h6_plausible_a31 (raw : dram_raw) :
  Spec.plausibleb H6 raw = true -> Spec.plausibleb A31 raw = true.
Proof.
  intros H. apply plausibleb_spec in H. apply plausibleb_spec.
  destruct H as (Hclk & Htype & Hodt & _).
  split; [exact Hclk|]. split; [exact Htype | exact Hodt].
Qed.

Lemma dram_param_report_printed (raw : dram_raw) (w : world) :
  printed (written w (snd (dram_param_report raw w))) = [Spec.identify raw].
Proof.
  destruct (detector_report_shape raw w) as (diag & Hdiag & Hrun).
  rewrite Hrun. cbn [snd].
  erewrite written_app by reflexivity.
  change (Looking_for_dram :: diag ++ ?l)
    with ([Looking_for_dram] ++ diag ++ l).
  rewrite !printed_app, (printed_validator_msgs diag Hdiag). reflexivity.
Qed.

(** X10. Which print function runs, in terms of what the validators
    return on the array: A10 when its validator accepts; H6 when its
    validator accepts (A10 never stands in its way); A31 when its validator
    accepts and H6's does not; H616 when its validator accepts and A31's
    does not; the raw dump when the A10, A31 and H616 validators all
    reject.  The H6 validator accepts nothing the A31 validator rejects,
    which is why it is tried first. *)
Theorem layout_decision_table (raw : dram_raw) (w : world) :
  let chosen := printed (written w (snd (dram_param_report raw w))) in
  let a10 := fst (dram_param_a10_validate raw w) in
  let h6 := fst (dram_param_h6_validate raw w) in
  let a31 := fst (dram_param_a31_validate raw w) in
  let h616 := fst (dram_param_h616_validate raw w) in
  (chosen = [A10] <-> a10 = 0)
  /\ (chosen = [H6] <-> h6 = 0)
  /\ (chosen = [A31] <-> a31 = 0 /\ h6 <> 0)
  /\ (chosen = [H616] <-> h616 = 0 /\ a31 <> 0)
  /\ (chosen = [Unknown_raw] <-> a10 <> 0 /\ a31 <> 0 /\ h616 <> 0)
  /\ (h6 = 0 -> a31 = 0).
Proof.
  intros chosen a10 h6 a31 h616.
  assert (E10 : a10 = 0 <-> Spec.plausibleb A10 raw = true)
    by (subst a10; rewrite dram_param_a10_validate_ok; symmetry;
        apply plausibleb_spec).
  assert (E6 : h6 = 0 <-> Spec.plausibleb H6 raw = true)
    by (subst h6; rewrite dram_param_h6_validate_ok; symmetry;
        apply plausibleb_spec).
  assert (E31 : a31 = 0 <-> Spec.plausibleb A31 raw = true)
    by (subst a31; rewrite dram_param_a31_validate_ok; symmetry;
        apply plausibleb_spec).
  assert (E616 : h616 = 0 <-> Spec.plausibleb H616 raw = true)
    by (subst h616; rewrite dram_param_h616_validate_ok; symmetry;
        apply plausibleb_spec).
  assert (Hchosen : chosen = [Spec.identify raw])
    by apply dram_param_report_printed.
  pose proof (a10_excludes raw) as Hex.
  pose proof (h6_plausible_a31 raw) as Hsub.
  rewrite Hchosen, E10, E6, E31, E616.
  unfold Spec.identify. cbn [Spec.first_plausible].
  destruct (Spec.plausibleb A10 raw);
    [destruct (Hex eq_refl) as (-> & -> & ->) |];
    destruct (Spec.plausibleb H6 raw);
    try (rewrite (Hsub eq_refl));
    destruct (Spec.plausibleb A31 raw);
    destruct (Spec.plausibleb H616 raw);
    repeat split; intros; try discriminate; try congruence;
    try tauto;
    try match goal with
      | H : _ /\ _ |- _ => destruct H; congruence
      end;
    try (specialize (Hsub eq_refl); discriminate).
Qed.

(** X10 on the sample array that both the H6 and the A31 validator
    accept. *)
Lemma layout_decision_table_witness :
  fst (dram_param_h6_validate Sample.dram_h6 (start [] EmptyString)) = 0
  /\ fst (dram_param_a31_validate Sample.dram_h6 (start [] EmptyString)) = 0.
Proof.
  assert (H6ok : fst (dram_param_h6_validate Sample.dram_h6
                        (start [] EmptyString)) = 0)
    by (vm_compute; reflexivity).
  split; [exact H6ok |].
  exact (proj2 (proj2 (proj2 (proj2 (proj2
           (layout_decision_table Sample.dram_h6 (start [] EmptyString))))))
           H6ok).
Defined.

(** What a validator writes: its acceptance line with 0, a rejection line
    in its own name otherwise. *)
Ltac validator_line :=
  unfold emits; run_validator;
  eexists; (split; [reflexivity|]);
  first [ left; split; [reflexivity | reflexivity]
        | right; split; [discriminate | reflexivity] ].

Lemma dram_param_a10_validate_line (raw : dram_raw) (w : world) :
  exists m,
    emits w (snd (dram_param_a10_validate raw w)) m
    /\ ((fst (dram_param_a10_validate raw w) = 0
         /\ m = Seem_valid (matches_of A10))
        \/ (fst (dram_param_a10_validate raw w) <> 0
            /\ rejection_of A10 m = true)).
Proof. unfold dram_param_a10_validate. validator_line. Qed.

Lemma dram_param_h6_validate_line (raw : dram_raw) (w : world) :
  exists m,
    emits w (snd (dram_param_h6_validate raw w)) m
    /\ ((fst (dram_param_h6_validate raw w) = 0
         /\ m = Seem_valid (matches_of H6))
        \/ (fst (dram_param_h6_validate raw w) <> 0
            /\ rejection_of H6 m = true)).
Proof. unfold dram_param_h6_validate. validator_line. Qed.

Lemma dram_param_a31_validate_line (raw : dram_raw) (w : world) :
  exists m,
    emits w (snd (dram_param_a31_validate raw w)) m
    /\ ((fst (dram_param_a31_validate raw w) = 0
         /\ m = Seem_valid (matches_of A31))
        \/ (fst (dram_param_a31_validate raw w) <> 0
            /\ rejection_of A31 m = true)).
Proof. unfold dram_param_a31_validate. validator_line. Qed.

Lemma dram_param_h616_validate_line (raw : dram_raw) (w : world) :
  exists m,
    emits w (snd (dram_param_h616_validate raw w)) m
    /\ ((fst (dram_param_h616_validate raw w) = 0
         /\ m = Seem_valid (matches_of H616))
        \/ (fst (dram_param_h616_validate raw w) <> 0
            /\ rejection_of H616 m = true)).
Proof. unfold dram_param_h616_validate. validator_line. Qed.

Section Validator_line_step.

Variable validate : dram_raw -> M Z.
Variable v : dram_variant.
Hypothesis validate_line :
  forall raw w, exists m,
    emits w (snd (validate raw w)) m
    /\ ((fst (validate raw w) = 0 /\ m = Seem_valid (matches_of v))
        \/ (fst (validate raw w) <> 0 /\ rejection_of v m = true)).

Lemma validator_line_step (raw : dram_raw) (w : world) (r : Z) (w' : world) :
  validate raw w = (r, w') ->
  exists m,
    w' = {| inf := inf w; calls := calls w; out := out w ++ [m] |}
    /\ ((r =? 0) = true /\ m = Seem_valid (matches_of v)
        \/ (r =? 0) = false /\ rejection_of v m = true).
Proof.
  intros Hrun.
  destruct (validate_line raw w) as (m & Hw & Hm).
  rewrite Hrun in Hw, Hm. cbn [fst snd] in Hw, Hm.
  exists m. split; [exact Hw|].
  destruct Hm as [(Hr & Hm) | (Hr & Hm)].
  - left. split; [apply Z.eqb_eq, Hr | exact Hm].
  - right. split; [apply Z.eqb_neq, Hr | exact Hm].
Qed.

End Validator_line_step.

(** The chain of [dram_param_report], line by line, for the layout [v] it
    ends up printing in the order of the code. *)
Lemma dram_param_report_lines_code_order (raw : dram_raw) (w : world) :
  exists (v : dram_variant) (rejections : list msg),
    Forall2 (fun u m => rejection_of u m = true) (tried_before v) rejections
    /\ dram_param_report raw w
       = (tt,
          {| inf := inf w;
             calls := calls w;
             out := out w ++ [Looking_for_dram] ++ rejections
                    ++ acceptance_of v ++ [Dram_print v raw] |}).
Proof.
  unfold dram_param_report, bind at 1. unfold fprintf at 1.
  unfold bind at 1.
  destruct (dram_param_a10_validate raw _) as [r1 w1] eqn:E1.
  apply (validator_line_step _ A10 dram_param_a10_validate_line) in E1
    as (m1 & -> & [(-> & ->) | (-> & Hm1)]).
  { exists A10, []. split; [constructor|].
    unfold dram_param_a10_print, fprintf. cbn [inf calls out].
    rewrite <- !app_assoc. reflexivity. }
  unfold bind at 1.
  destruct (dram_param_h6_validate raw _) as [r2 w2] eqn:E2.
  apply (validator_line_step _ H6 dram_param_h6_validate_line) in E2
    as (m2 & -> & [(-> & ->) | (-> & Hm2)]).
  { exists H6, [m1]. split; [repeat constructor; assumption|].
    unfold dram_param_h6_print, fprintf. cbn [inf calls out].
    rewrite <- !app_assoc. reflexivity. }
  unfold bind at 1.
  destruct (dram_param_a31_validate raw _) as [r3 w3] eqn:E3.
  apply (validator_line_step _ A31 dram_param_a31_validate_line) in E3
    as (m3 & -> & [(-> & ->) | (-> & Hm3)]).
  { exists A31, [m1; m2]. split; [repeat constructor; assumption|].
    unfold dram_param_a31_print, fprintf. cbn [inf calls out].
    rewrite <- !app_assoc. reflexivity. }
  unfold bind at 1.
  destruct (dram_param_h616_validate raw _) as [r4 w4] eqn:E4.
  apply (validator_line_step _ H616 dram_param_h616_validate_line) in E4
    as (m4 & -> & [(-> & ->) | (-> & Hm4)]).
  { exists H616, [m1; m2; m3]. split; [repeat constructor; assumption|].
    unfold dram_param_h616_print, fprintf. cbn [inf calls out].
    rewrite <- !app_assoc. reflexivity. }
  exists Unknown_raw, [m1; m2; m3; m4].
  split; [repeat constructor; assumption|].
  unfold dram_param_raw_print, fprintf. cbn [inf calls out].
  rewrite <- !app_assoc. reflexivity.
Qed.

(** X11. What [output_boot0_info] writes about the DRAM parameters, line
    by line: the "Looking for" line; one "Invalid structure for" line, in
    its own name, from each validator tried before the layout printed, in
    the order A10, H6, A31, H616; the "Parameters seem valid for" line of
    the layout printed (none before the raw dump, which comes after four
    rejections); then that layout's print. *)
Theorem report_lines (raw : dram_raw) (w : world) :
  let v := Spec.identify raw in
  exists rejections : list msg,
    Forall2 (fun u m => rejection_of u m = true) (tried_before v) rejections
    /\ written w (snd (dram_param_report raw w))
       = [Looking_for_dram] ++ rejections ++ acceptance_of v
         ++ [Dram_print v raw].
Proof.
  intros v.
  destruct (dram_param_report_lines_code_order raw w)
    as (u & rejections & Hrej & Hrun).
  assert (Hu : u = v).
  { pose proof (dram_param_report_printed raw w) as Hp.
    rewrite Hrun in Hp. cbn [snd] in Hp.
    erewrite written_app in Hp by reflexivity.
    rewrite !printed_app in Hp.
    assert (Hr : printed rejections = []).
    { clear -Hrej. induction Hrej as [|x m xs ms Hm _ IH]; [reflexivity|].
      destruct m; try discriminate Hm. exact IH. }
    rewrite Hr in Hp. subst v. unfold printed in Hp.
    destruct u; cbn [flat_map app acceptance_of] in Hp;
      injection Hp as Hp; exact Hp. }
  subst u. exists rejections. split; [exact Hrej|].
  rewrite Hrun. cbn [snd]. apply written_app. reflexivity.
Qed.

(** ** The print functions and the formats *)

Ltac unfold_fields_of raw :=
  repeat match goal with
    | |- context [?f raw] => progress unfold f
    end.

Ltac rewrite_words raw H :=
  repeat match goal with
    | |- context [nth ?i raw 0] => rewrite (H i) by lia
    end.

(** X12. Each print function reads the fields of its own struct and no
    other word of the array: the text of [dram_param_a10_print] depends on
    words 0 to 19 only, that of [dram_param_a31_print] on words 0 to 23
    (the [bits] field, word 24 of its struct, is not printed), that of
    [dram_param_h6_print] on words 0 to 27; [dram_param_h616_print] and
    [dram_param_raw_print] show all 32 words. *)
Theorem print_reads_its_struct_only (raw raw' : dram_raw) :
  let same n := forall i, (i < n)%nat -> nth i raw' 0 = nth i raw 0 in
  (same 20%nat ->
   Printf.render (Dram_print A10 raw') = Printf.render (Dram_print A10 raw))
  /\ (same 24%nat ->
      Printf.render (Dram_print A31 raw') = Printf.render (Dram_print A31 raw))
  /\ (same 28%nat ->
      Printf.render (Dram_print H6 raw') = Printf.render (Dram_print H6 raw))
  /\ (same 32%nat ->
      Printf.render (Dram_print H616 raw')
      = Printf.render (Dram_print H616 raw))
  /\ (same 32%nat ->
      Printf.render (Dram_print Unknown_raw raw')
      = Printf.render (Dram_print Unknown_raw raw)).
Proof.
  intros same. subst same. cbv beta.
  repeat split; intros H; cbn [Printf.render].
  - unfold Printf.dram_param_a10_text.
    unfold_fields_of raw'. rewrite_words raw' H.
    unfold_fields_of raw. reflexivity.
  - unfold Printf.dram_param_a31_text.
    unfold_fields_of raw'. rewrite_words raw' H.
    unfold_fields_of raw. reflexivity.
  - unfold Printf.dram_param_h6_text.
    unfold_fields_of raw'. rewrite_words raw' H.
    unfold_fields_of raw. reflexivity.
  - unfold Printf.dram_param_h616_text.
    unfold_fields_of raw'. rewrite_words raw' H.
    unfold_fields_of raw. reflexivity.
  - unfold Printf.dram_param_raw_text. do 2 f_equal.
    apply map_ext_in. intros i Hi. apply in_seq in Hi.
    unfold EGON_DRAM_PARAM_COUNT in Hi.
    rewrite (H i) by lia. reflexivity.
Qed.

(** X12 on the sample A31 array and the same array with 16 in word 24. *)
Lemma print_reads_its_struct_only_witness :
  let raw := Sample.dram_a31 in
  let raw' := firstn 24 Sample.dram_a31 ++ [16] ++ skipn 25 Sample.dram_a31 in
  nth 24 raw' 0 <> nth 24 raw 0
  /\ Printf.render (Dram_print A31 raw') = Printf.render (Dram_print A31 raw).
Proof.
  cbv zeta. split; [vm_compute; discriminate |].
  refine (proj1 (proj2 (print_reads_its_struct_only Sample.dram_a31
                          (firstn 24 Sample.dram_a31 ++ [16]
                           ++ skipn 25 Sample.dram_a31))) _).
  intros i Hi.
  do 24 (destruct i as [|i]; [reflexivity|]). lia.
Defined.

(** X13. The error lines print the header size and the file size with
    [%d], though both are [uint32_t]: on a sector 0 turned down for its
    header size, the number in the line written reads back as the header
    size when that is below 2^31 and as the negative number
    [header size - 2^32] when it is not; on a sector turned down for the
    alignment of its file size, the same holds of the file size, while
    the hexadecimal number in the same line reads back as the file size
    itself. *)
Theorem sizes_print_as_signed (pseek : FILE -> Z -> Z * FILE)
    (sector : list byte) (verbose : bool) (w : world) :
  let h := egon_header_at sector in
  let text :=
    Printf.render_all
      (written w (snd (output_boot0_info pseek sector verbose w))) in
  let as_int v := if v <? 2 ^ 31 then v else v - 2 ^ 32 in
  memcmp (magic h) EGON_MAGIC_0 8 <= 0 ->
  (header_size h <> 48 ->
   exists d : string,
     text = (Printf.TAB ++ "ERROR: egon header size mismatch: " ++ d
             ++ Printf.NL)%string
     /\ dec_value d = Some (as_int (header_size h)))
  /\ (header_size h = 48 -> filesize h mod 4096 <> 0 ->
      exists d x : string,
        text = (Printf.TAB
                ++ "ERROR: boot0 file size not a multiple of 4096: " ++ d
                ++ " bytes (0x" ++ x ++ ")." ++ Printf.NL)%string
        /\ dec_value d = Some (as_int (filesize h))
        /\ hex_value x = Some (filesize h)).
Proof.
  intros h text as_int Hm. subst text as_int. cbv beta.
  destruct (output_boot0_info_rejects pseek sector verbose w)
    as (_ & Hsize & Halign & _).
  fold h in Hsize, Halign. cbv zeta in Hsize, Halign.
  split.
  - intros Hs. rewrite (Hsize Hm Hs). cbn [snd].
    erewrite written_app by reflexivity.
    rewrite render_all_one. cbn [Printf.render].
    exists (Printf.fmt_d (header_size h)).
    split; [reflexivity|].
    unfold Printf.fmt_d. rewrite dec_value_fmt_int. reflexivity.
  - intros Hs Ha. rewrite (Halign Hm Hs Ha). cbn [snd].
    erewrite written_app by reflexivity.
    rewrite render_all_one. cbn [Printf.render].
    exists (Printf.fmt_d (filesize h)), (Printf.fmt_x true 4 (filesize h)).
    split; [reflexivity|].
    split.
    + unfold Printf.fmt_d. rewrite dec_value_fmt_int. reflexivity.
    + apply hex_value_fmt_x. apply (load32_range sector 16).
Qed.

(** X13 on the sample sector with a header size of 0xFFFFFFFF, shown as
    -1, and on the one with a file size of 0x80000200, shown as
    -2147483136 and in hexadecimal as it is. *)
Lemma sizes_print_as_signed_witness :
  let w := start [] EmptyString in
  let text s :=
    Printf.render_all
      (written w (snd (output_boot0_info Sample.pseek_file s false w))) in
  let s1 := Sample.boot0_sector_header_size_high in
  let s2 := Sample.boot0_sector_filesize_high in
  memcmp (magic (egon_header_at s1)) EGON_MAGIC_0 8 <= 0
  /\ header_size (egon_header_at s1) <> 48
  /\ (exists d : string,
        text s1 = (Printf.TAB ++ "ERROR: egon header size mismatch: " ++ d
                   ++ Printf.NL)%string
        /\ dec_value d = Some (-1))
  /\ memcmp (magic (egon_header_at s2)) EGON_MAGIC_0 8 <= 0
  /\ header_size (egon_header_at s2) = 48
  /\ filesize (egon_header_at s2) mod 4096 <> 0
  /\ (exists d x : string,
        text s2 = (Printf.TAB
                   ++ "ERROR: boot0 file size not a multiple of 4096: " ++ d
                   ++ " bytes (0x" ++ x ++ ")." ++ Printf.NL)%string
        /\ dec_value d = Some (-2147483136)
        /\ hex_value x = Some 0x80000200).
Proof.
  cbv zeta. cbv beta.
  assert (Hm1 : memcmp (magic (egon_header_at
                                 Sample.boot0_sector_header_size_high))
                  EGON_MAGIC_0 8 <= 0)
    by (vm_compute; intros E; discriminate E).
  assert (Hs1 : header_size (egon_header_at
                               Sample.boot0_sector_header_size_high) <> 48)
    by (vm_compute; intros E; discriminate E).
  assert (Hm2 : memcmp (magic (egon_header_at
                                 Sample.boot0_sector_filesize_high))
                  EGON_MAGIC_0 8 <= 0)
    by (vm_compute; intros E; discriminate E).
  assert (Hs2 : header_size (egon_header_at
                               Sample.boot0_sector_filesize_high) = 48)
    by (vm_compute; reflexivity).
  assert (Ha2 : filesize (egon_header_at Sample.boot0_sector_filesize_high)
                mod 4096 <> 0)
    by (vm_compute; intros E; discriminate E).
  split; [exact Hm1 |]. split; [exact Hs1 |].
  split.
  { destruct (proj1 (sizes_print_as_signed Sample.pseek_file
                       Sample.boot0_sector_header_size_high false
                       (start [] EmptyString) Hm1) Hs1)
      as (d & Htext & Hd).
    exists d. split; [exact Htext |].
    etransitivity; [exact Hd | vm_compute; reflexivity]. }
  split; [exact Hm2 |]. split; [exact Hs2 |]. split; [exact Ha2 |].
  destruct (proj2 (sizes_print_as_signed Sample.pseek_file
                     Sample.boot0_sector_filesize_high false
                     (start [] EmptyString) Hm2) Hs2 Ha2)
    as (d & x & Htext & Hd & Hx).
  exists d, x. split; [exact Htext |].
  split; etransitivity;
    [ exact Hd | vm_compute; reflexivity
    | exact Hx | vm_compute; reflexivity ].
Defined.

(** X14. The array handed to the validators and print functions is made
    of words 14 to 45 of sector 0 (bytes 56 to 183: the header's 48 bytes
    and the 8 bytes that start the secondary header come first): it has
    32 words, each below 2^32, and no other byte of the sector has a part
    in the DRAM report. *)
Theorem dram_param_is_words_14_to_45 (sector : list byte) :
  dram_param_at sector 48 = map (word_at sector) (seq 14 32)
  /\ List.length (dram_param_at sector 48) = 32%nat
  /\ Forall (fun x => 0 <= x < 2 ^ 32) (dram_param_at sector 48)
  /\ forall (sector' : list byte) (w : world),
       (forall i, (14 <= i < 46)%nat -> word_at sector' i = word_at sector i) ->
       dram_param_report (dram_param_at sector' 48) w
       = dram_param_report (dram_param_at sector 48) w.
Proof.
  assert (Hat : forall s, dram_param_at s 48 = map (word_at s) (seq 14 32)).
  { intros s. unfold dram_param_at, EGON_DRAM_PARAM_COUNT.
    change (seq 14 32) with (seq (14 + 0) 32).
    rewrite <- (map_seq_add (word_at s) 14 32 0).
    apply map_ext. intros i. unfold word_at. f_equal.
    change (Z.to_nat (48 + 8)) with 56%nat. lia. }
  split; [apply Hat|].
  split; [rewrite Hat, length_map, length_seq; reflexivity|].
  split.
  - rewrite Hat. apply Forall_forall. intros x Hx.
    apply in_map_iff in Hx as (i & <- & _). apply word_at_range.
  - intros sector' w Hsame. rewrite !Hat. f_equal.
    apply map_ext_in. intros i Hi. apply in_seq in Hi.
    apply Hsame. lia.
Qed.

Lemma dram_param_is_words_14_to_45_witness :
  word_at Sample.boot0_sector_47 5 <> word_at Sample.boot0_sector 5
  /\ dram_param_report (dram_param_at Sample.boot0_sector_47 48)
       (start [] EmptyString)
     = dram_param_report (dram_param_at Sample.boot0_sector 48)
         (start [] EmptyString).
Proof.
  split; [vm_compute; discriminate |].
  refine (proj2 (proj2 (proj2
            (dram_param_is_words_14_to_45 Sample.boot0_sector)))
            Sample.boot0_sector_47 (start [] EmptyString) _).
  intros i Hi.
  do 14 (destruct i as [|i]; [lia|]).
  do 32 (destruct i as [|i]; [vm_compute; reflexivity|]). lia.
Defined.

(** X15. The raw dump of [dram_param_raw_print] loses nothing: two arrays
    of non-negative words whose dumps are the same text have the same 32
    words ([%08X] pads but never truncates, and each line ends where the
    next begins). *)
Theorem raw_dump_is_lossless (raw raw' : dram_raw) :
  (forall i, (i < EGON_DRAM_PARAM_COUNT)%nat ->
             0 <= nth i raw 0 /\ 0 <= nth i raw' 0) ->
  Printf.render (Dram_print Unknown_raw raw)
  = Printf.render (Dram_print Unknown_raw raw') ->
  forall i, (i < EGON_DRAM_PARAM_COUNT)%nat -> nth i raw 0 = nth i raw' 0.
Proof.
  intros Hpos H i Hi.
  cbn [Printf.render] in H.
  unfold Printf.dram_param_raw_text in H.
  rewrite !concat_empty_cons in H.
  apply append_inv_head in H.
  apply (raw_lines_determine_words raw raw' (seq 0 EGON_DRAM_PARAM_COUNT)).
  - intros k Hk. apply Hpos. apply in_seq in Hk. lia.
  - exact H.
  - apply in_seq. lia.
Qed.

Lemma raw_dump_is_lossless_witness :
  Printf.render (Dram_print Unknown_raw Sample.dram_a31)
  <> Printf.render (Dram_print Unknown_raw Sample.dram_h6).
Proof.
  intros H.
  assert (Hpos : forall i, (i < EGON_DRAM_PARAM_COUNT)%nat ->
                 0 <= nth i Sample.dram_a31 0 /\ 0 <= nth i Sample.dram_h6 0).
  { intros i Hi. unfold EGON_DRAM_PARAM_COUNT in Hi.
    do 32 (destruct i as [|i]; [split; intros E; discriminate E|]). lia. }
  assert (H27 : (27 < EGON_DRAM_PARAM_COUNT)%nat)
    by (unfold EGON_DRAM_PARAM_COUNT; lia).
  pose proof (raw_dump_is_lossless Sample.dram_a31 Sample.dram_h6
                Hpos H 27%nat H27) as E.
  discriminate E.
Defined.
